(** * EV-Charging-Prediction: the iterative forecasting engine of [app.py]

    A shallow embedding of [calculate_feature_engineering_values] and
    [generate_forecast] (with the helpers they call) and the properties of
    the forecasting loop.

    Conventions of the embedding.
    - Python floats and ints are exact rationals ([Q]); [float(x)] is the
      identity.  Rounding and infinities are outside the model.  The answer
      of the regressor is a [pyfloat], a number or NaN; every value the
      code stores is a number.
    - What [st.warning] and [st.error] show is recorded in the state.
    - A Python list of numbers that can be reached from the caller's
      [county_data] is an object on a heap, addressed by a location; the two
      lists that [generate_forecast] builds locally ([predictions] and
      [prediction_dates]) are part of the machine state as the function's
      frame.
    - Exceptions are values of type [exn]; a computation is a function from
      the state to an outcome ([Ok] or [Raise]) and a new state, so that the
      effects performed before an exception survive it, as in Python.
    - A date is its day number (days since 1970-01-01); adding
      [timedelta(days=n)] is adding [n]. *)

From Stdlib Require Import QArith Qpower ZArith Lia Lqa Sorted.
From stdpp Require Import gmap strings list pretty.

Open Scope Q_scope.

(** ** Exceptions and outcomes *)

Inductive exn_class :=
  | ValueError | IndexError | ZeroDivisionError | FileNotFoundError
  | RuntimeError.

(** An exception: its class and [str(e)]. *)
Record exn := mkExn { exn_cls : exn_class; exn_str : string }.

Inductive res (A : Type) : Type :=
  | Ok (a : A)
  | Raise (e : exn).
Arguments Ok {A} a.
Arguments Raise {A} e.

#[global] Instance res_ret : MRet res := fun _ a => Ok a.
#[global] Instance res_bind : MBind res := fun _ _ k r =>
  match r with
  | Ok a => k a
  | Raise e => Raise e
  end.

Definition is_ValueError (e : exn) : bool :=
  match exn_cls e with ValueError => true | _ => false end.

(** [try: body except Exception as e: handler e], for code without effects. *)
Definition res_try {A} (body : res A) (handler : exn -> res A) : res A :=
  match body with
  | Ok a => Ok a
  | Raise e => handler e
  end.

(** ** Python arithmetic and sequence primitives *)

Definition Qltb (x y : Q) : bool := negb (Qle_bool y x).

(** [max(a, b)] of Python: [b] when [b > a], else [a]. *)
Definition py_max (a b : Q) : Q := if Qltb a b then b else a.

(** A float that need not be a number: what [float(model.predict(x)[0])]
    can be.  Every comparison with NaN is false.  (An infinite answer is not
    told apart from a number beyond every threshold: the comparisons of lines
    1298-1311 come out the same for both.) *)
Inductive pyfloat :=
  | Fin (q : Q)
  | NaN.

(** [a < b]. *)
Definition fl_ltb (a b : pyfloat) : bool :=
  match a, b with
  | Fin x, Fin y => Qltb x y
  | _, _ => false
  end.

(** [max(a, b)]: [b] when [b > a], else [a]; so [max(NaN, b)] is NaN. *)
Definition fl_max (a b : pyfloat) : pyfloat := if fl_ltb a b then b else a.

(** [max(a, b)] for a number [a]: [b] when [b > a], else [a]; always a
    number, [a] when [b] is NaN. *)
Definition py_max_number (a : Q) (b : pyfloat) : Q :=
  match b with
  | Fin q => py_max a q
  | NaN => a
  end.

(** [x / y]: raises [ZeroDivisionError] on a zero divisor. *)
Definition py_div (x y : Q) : res Q :=
  if Qeq_bool y 0
  then Raise (mkExn ZeroDivisionError "division by zero")
  else Ok (x / y).

(** [l[i]], negative [i] counting from the end. *)
Definition py_index {A} (l : list A) (i : Z) : res A :=
  let n := Z.of_nat (length l) in
  let j := (if i <? 0 then n + i else i)%Z in
  if (j <? 0)%Z then Raise (mkExn IndexError "list index out of range")
  else match l !! Z.to_nat j with
       | Some x => Ok x
       | None => Raise (mkExn IndexError "list index out of range")
       end.

(** [l[i:]], negative [i] counting from the end and clipped at the start. *)
Definition py_slice_from {A} (l : list A) (i : Z) : list A :=
  let n := Z.of_nat (length l) in
  let j := (if i <? 0 then Z.max 0 (n + i) else Z.min i n)%Z in
  drop (Z.to_nat j) l.

(** [range(a, b)]. *)
Definition py_range (a b : Z) : list Z := seqZ a (b - a).

Definition Qsum (l : list Q) : Q := foldr Qplus 0 l.

Definition Qnat (n : nat) : Q := inject_Z (Z.of_nat n).

(** [np.mean(l)]. *)
Definition np_mean (l : list Q) : Q := Qsum l / Qnat (length l).

(** [np.arange(n, dtype=float)]. *)
Definition np_arange (n : nat) : list Q := Qnat <$> seq 0 n.

(** [np.polyfit(x, y, 1)[0]]: the slope of the least-squares line. *)
Definition polyfit_slope (x y : list Q) : Q :=
  let n := Qnat (length x) in
  let sx := Qsum x in
  let sy := Qsum y in
  let sxy := Qsum (zip_with Qmult x y) in
  let sxx := Qsum ((fun a => a * a) <$> x) in
  (n * sxy - sx * sy) / (n * sxx - sx * sx).

(** ** Dates *)

Definition Date := Z.

(** Year, month and day of a day number (proleptic Gregorian calendar). *)
Definition civil_from_days (z : Z) : Z * Z * Z :=
  (let z := z + 719468 in
   let era := z / 146097 in
   let doe := z - era * 146097 in
   let yoe := (doe - doe / 1460 + doe / 36524 - doe / 146096) / 365 in
   let y := yoe + era * 400 in
   let doy := doe - (365 * yoe + yoe / 4 - yoe / 100) in
   let mp := (5 * doy + 2) / 153 in
   let d := doy - (153 * mp + 2) / 5 + 1 in
   let m := if mp <? 10 then mp + 3 else mp - 9 in
   (if m <=? 2 then y + 1 else y, m, d))%Z.

(** [datetime(y, m, d)]. *)
Definition datetime (y m d : Z) : Date :=
  (let y := if m <=? 2 then y - 1 else y in
   let era := y / 400 in
   let yoe := y - era * 400 in
   let doy := (153 * (if 2 <? m then m - 3 else m + 9) + 2) / 5 + d - 1 in
   let doe := yoe * 365 + yoe / 4 - yoe / 100 + doy in
   era * 146097 + doe - 719468)%Z.

Definition date_year (d : Date) : Z := (civil_from_days d).1.1.
Definition date_month (d : Date) : Z := (civil_from_days d).1.2.

(** [d + timedelta(days=n)]. *)
Definition add_days (d : Date) (n : Z) : Date := (d + n)%Z.

(** [max(dates)]: raises [ValueError] on an empty list. *)
Definition py_max_date (dates : list Date) : res Date :=
  match dates with
  | [] => Raise (mkExn ValueError "max() arg is an empty sequence")
  | d :: ds => Ok (foldl Z.max d ds)
  end.

(** ** The machine state and the computation monad *)

Abbreviation loc := nat (only parsing).

Record pystate := mkState {
  st_heap : list (list Q);          (* the list objects, by allocation order *)
  st_predictions : list Q;          (* local [predictions] *)
  st_prediction_dates : list Date;  (* local [prediction_dates] *)
  st_warnings : list string;        (* what [st.warning] has shown *)
  st_errors : list string           (* what [st.error] has shown *)
}.

Definition M (A : Type) : Type := pystate -> res A * pystate.

Definition retM {A} (a : A) : M A := fun s => (Ok a, s).

Definition bindM {A B} (m : M A) (k : A -> M B) : M B := fun s =>
  match m s with
  | (Ok a, s') => k a s'
  | (Raise e, s') => (Raise e, s')
  end.

Declare Scope M_scope.
Delimit Scope M_scope with M.
Bind Scope M_scope with M.
Notation "x <- y ; z" := (bindM y (fun x => z))
  (at level 20, y at level 100, z at level 200, only parsing) : M_scope.
Notation "' x <- y ; z" := (bindM y (fun x => z))
  (at level 20, x pattern, y at level 100, z at level 200, only parsing) : M_scope.
Open Scope M_scope.

Definition lift {A} (r : res A) : M A := fun s => (r, s).

Definition raise {A} (e : exn) : M A := lift (Raise e).

(** [try: body except Exception as e: handler e]. *)
Definition try_except {A} (body : M A) (handler : exn -> M A) : M A := fun s =>
  match body s with
  | (Ok a, s') => (Ok a, s')
  | (Raise e, s') => handler e s'
  end.

Definition dangling : exn := mkExn RuntimeError "dangling reference".

(** The contents of the list object at [l]. *)
Definition list_read (l : loc) : M (list Q) := fun s =>
  match st_heap s !! l with
  | Some xs => (Ok xs, s)
  | None => (Raise dangling, s)
  end.

(** [l.copy()]: a new list object with the same contents. *)
Definition list_copy (l : loc) : M loc :=
  xs <- list_read l;
  fun s => (Ok (length (st_heap s)),
            mkState (st_heap s ++ [xs]) (st_predictions s)
                    (st_prediction_dates s) (st_warnings s) (st_errors s)).

(** [l.append(x)]. *)
Definition list_append (l : loc) (x : Q) : M unit :=
  xs <- list_read l;
  fun s => (Ok tt,
            mkState (<[l := xs ++ [x]]> (st_heap s)) (st_predictions s)
                    (st_prediction_dates s) (st_warnings s) (st_errors s)).

Definition get_predictions : M (list Q) := fun s => (Ok (st_predictions s), s).

Definition set_predictions (ps : list Q) : M unit := fun s =>
  (Ok tt, mkState (st_heap s) ps (st_prediction_dates s) (st_warnings s)
                  (st_errors s)).

Definition get_prediction_dates : M (list Date) :=
  fun s => (Ok (st_prediction_dates s), s).

Definition set_prediction_dates (ds : list Date) : M unit := fun s =>
  (Ok tt, mkState (st_heap s) (st_predictions s) ds (st_warnings s)
                  (st_errors s)).

(** [predictions.append(x)]. *)
Definition predictions_append (x : Q) : M unit :=
  ps <- get_predictions; set_predictions (ps ++ [x]).

(** [prediction_dates.append(d)]. *)
Definition prediction_dates_append (d : Date) : M unit :=
  ds <- get_prediction_dates; set_prediction_dates (ds ++ [d]).

(** [st.warning(msg)]. *)
Definition st_warning (msg : string) : M unit := fun s =>
  (Ok tt, mkState (st_heap s) (st_predictions s) (st_prediction_dates s)
                  (st_warnings s ++ [msg]) (st_errors s)).

(** [st.error(msg)]. *)
Definition st_error (msg : string) : M unit := fun s =>
  (Ok tt, mkState (st_heap s) (st_predictions s) (st_prediction_dates s)
                  (st_warnings s) (st_errors s ++ [msg])).

(** [for x in xs: body x]. *)
Fixpoint for_each {A} (xs : list A) (body : A -> M unit) : M unit :=
  match xs with
  | [] => retM tt
  | x :: xs' => _ <- body x; for_each xs' body
  end.

(** ** The data model *)

(** [county_info['historical_data']]: the dates by value, the EV totals as
    the list object the caller owns.  The columns [percentages], [bevs] and
    [phevs] are never read by the forecaster and are left out. *)
Record HistoricalData := mkHistoricalData {
  hd_dates : list Date;
  hd_ev_totals : loc
}.

Record CountyInfo := mkCountyInfo {
  ci_county_name : string;
  ci_state : string;
  ci_historical_data : HistoricalData;
  ci_data_points : Z
}.

(** The keys of the dictionary returned by
    [calculate_feature_engineering_values]. *)
Record FeatureValues := mkFeatureValues {
  ev_total_lag1 : Q;
  ev_total_lag2 : Q;
  ev_total_lag3 : Q;
  ev_total_roll_mean_3 : Q;
  ev_total_pct_change_1 : Q;
  ev_total_pct_change_3 : Q;
  ev_growth_slope : Q
}.

(** The one-row data frame handed to the model, columns in order. *)
Record ModelInput := mkModelInput {
  in_months_since_start : Q;
  in_county_encoded : Q;
  in_ev_total_lag1 : Q;
  in_ev_total_lag2 : Q;
  in_ev_total_lag3 : Q;
  in_ev_total_roll_mean_3 : Q;
  in_ev_total_pct_change_1 : Q;
  in_ev_total_pct_change_3 : Q;
  in_ev_growth_slope : Q
}.

(** The regressor, a black box: [predict m x] is the outcome of
    [float(model.predict(x)[0])], a float (a number or NaN) or an exception.
    Within one forecast every call has its own [months_since_start], so a
    function of the input covers any sequence of outcomes. *)
Record Model := mkModel {
  model_type_name : string;
  predict : ModelInput -> res pyfloat
}.

(** What the function reads from outside its arguments: the earliest date of
    [preprocessed_ev_data.csv] (or the exception raised on the way to it), the
    outcome of the [try] block of [get_county_encoding_map] (the dictionary
    built from the CSV, or the exception raised on the way to it; the cache
    hands out the same outcome, message included, on every call), and the
    clock. *)
Record Env := mkEnv {
  csv_earliest_date : res Date;
  county_encoding_map : res (gmap string Z);
  clock_now : Z
}.

Record Metadata := mkMetadata {
  md_model_type : string;
  md_prediction_date : Z;
  md_forecast_months : Z;
  md_historical_data_points : Z
}.

Record ForecastResult := mkForecastResult {
  fr_county : string;
  fr_state : string;
  fr_forecast_period : string;
  fr_prediction_dates : list Date;
  fr_predicted_values : list Q;
  fr_latest_historical_value : Q;
  fr_latest_historical_date : Date;
  fr_total_growth : Q;
  fr_avg_monthly_growth : Q;
  fr_growth_percentage : Q;
  fr_metadata : Metadata
}.

(** ** [get_county_info], [get_county_encoding_map], [get_county_encoding] *)

Definition get_county_info (county_name : string)
    (county_data : gmap string CountyInfo) : option CountyInfo :=
  county_data !! county_name.

(** Lines 1007-1025: the dictionary, or an error on the page and [{}]. *)
Definition get_county_encoding_map (env : Env) : M (gmap string Z) :=
  try_except
    (lift (county_encoding_map env))
    (fun e =>
       _ <- st_error ("Error loading county encoding map: " +:+ exn_str e);
       retM ∅).

(** Lines 1027-1044. *)
Definition get_county_encoding (env : Env) (county_name : string)
    : M (option Z) :=
  try_except
    (encoding_map <- get_county_encoding_map env;
     retM (encoding_map !! county_name))
    (fun e =>
       _ <- st_error ("Error getting county encoding: " +:+ exn_str e);
       retM None).

(** ** [calculate_feature_engineering_values] *)

(** The [try] block, on the contents of [historical_data['ev_totals']]. *)
Definition feature_engineering_body (ev_totals : list Q) : res FeatureValues :=
  let len := Z.of_nat (length ev_totals) in
  _ ← (if (len <? 3)%Z
       then Raise (mkExn ValueError
              "Insufficient historical data for feature engineering (need at least 3 data points)")
       else Ok tt);
  lag1 ← (if (1 <=? len)%Z then py_index ev_totals (-1) else Ok 0);
  lag2 ← (if (2 <=? len)%Z then py_index ev_totals (-2) else Ok 0);
  lag3 ← (if (3 <=? len)%Z then py_index ev_totals (-3) else Ok 0);
  let recent_values := py_slice_from ev_totals (-3) in
  let roll_mean_3 := np_mean recent_values in
  pct_change_1 ←
    (if (2 <=? len)%Z then
       d ← py_index ev_totals (-2);
       if negb (Qeq_bool d 0) then
         a ← py_index ev_totals (-1);
         b ← py_index ev_totals (-2);
         c ← py_index ev_totals (-2);
         py_div (a - b) c
       else Ok 0
     else Ok 0);
  pct_change_3 ←
    (if (4 <=? len)%Z then
       d ← py_index ev_totals (-4);
       if negb (Qeq_bool d 0) then
         a ← py_index ev_totals (-1);
         b ← py_index ev_totals (-4);
         c ← py_index ev_totals (-4);
         py_div (a - b) c
       else Ok 0
     else Ok 0);
  let slope :=
    if (3 <=? len)%Z then
      let recent_points := Z.min 6 len in
      let y_values := py_slice_from ev_totals (- recent_points) in
      let x_values := np_arange (Z.to_nat recent_points) in
      if (1 <? Z.of_nat (length x_values))%Z
      then polyfit_slope x_values y_values
      else 0
    else 0 in
  Ok (mkFeatureValues lag1 lag2 lag3 roll_mean_3 pct_change_1 pct_change_3 slope).

Definition calculate_feature_engineering_values
    (historical_data : HistoricalData) : M FeatureValues :=
  try_except
    (ev_totals <- list_read (hd_ev_totals historical_data);
     lift (feature_engineering_body ev_totals))
    (fun e => raise (mkExn ValueError
       ("Error calculating feature engineering values: " +:+ exn_str e))).

(** ** [generate_forecast] *)

(** Lines 1246-1286: the model input of one step, from the contents of
    [current_ev_totals] (the branch taken when it has at least 3 values). *)
Definition loop_model_input (months_since_start county_encoded : Z)
    (current_ev_totals : list Q) : res ModelInput :=
  let len := Z.of_nat (length current_ev_totals) in
  lag1 ← py_index current_ev_totals (-1);
  lag2 ← py_index current_ev_totals (-2);
  lag3 ← py_index current_ev_totals (-3);
  let recent_values := py_slice_from current_ev_totals (-3) in
  let roll_mean_3 := np_mean recent_values in
  pct_change_1 ←
    (if (2 <=? len)%Z then
       d ← py_index current_ev_totals (-2);
       if negb (Qeq_bool d 0) then
         a ← py_index current_ev_totals (-1);
         b ← py_index current_ev_totals (-2);
         c ← py_index current_ev_totals (-2);
         py_div (a - b) c
       else Ok 0
     else Ok 0);
  pct_change_3 ←
    (if (4 <=? len)%Z then
       d ← py_index current_ev_totals (-4);
       if negb (Qeq_bool d 0) then
         a ← py_index current_ev_totals (-1);
         b ← py_index current_ev_totals (-4);
         c ← py_index current_ev_totals (-4);
         py_div (a - b) c
       else Ok 0
     else Ok 0);
  let recent_points := Z.min 6 len in
  let y_values := py_slice_from current_ev_totals (- recent_points) in
  let x_values := np_arange (Z.to_nat recent_points) in
  let slope :=
    if (1 <? Z.of_nat (length x_values))%Z
    then polyfit_slope x_values y_values
    else 0 in
  Ok (mkModelInput (inject_Z months_since_start) (inject_Z county_encoded)
        lag1 lag2 lag3 roll_mean_3 pct_change_1 pct_change_3 slope).

(** Lines 1292-1319: the adjustment of the raw prediction, from the contents
    of [current_ev_totals] and of [predictions]. *)
Definition adjust_prediction (current_ev_totals predictions : list Q)
    (raw_prediction : pyfloat) : res Q :=
  let prediction := raw_prediction in
  prediction ←
    (if (Z.of_nat (length predictions) =? 0)%Z then
       current_value ← py_index current_ev_totals (-1);
       if fl_ltb prediction (Fin (current_value * 0.7))
       then Ok (Fin (current_value * 0.95))
       else if fl_ltb (Fin (current_value * 1.5)) prediction
       then Ok (Fin (current_value * 1.1))
       else Ok prediction
     else
       prev_prediction ← py_index predictions (-1);
       if fl_ltb prediction (Fin (prev_prediction * 0.8))
       then Ok (Fin (prev_prediction * 0.98))
       else if fl_ltb (Fin (prev_prediction * 1.3)) prediction
       then Ok (Fin (prev_prediction * 1.05))
       else Ok prediction);
  prediction ←
    (if (0 <? Z.of_nat (length predictions))%Z then
       let base_growth := 1.01 in
       last ← py_index predictions (-1);
       Ok (fl_max prediction (Fin (last * base_growth)))
     else Ok prediction);
  Ok (py_max_number 0.1 prediction).

(** The [try] block of the loop body, lines 1241-1331.  [current_ev_totals]
    is the location of the working copy. *)
Definition forecast_try (model : Model) (county_encoded base_months : Z)
    (latest_date : Date) (current_ev_totals : loc) (month_ahead : Z) : M unit :=
  let months_since_start := (base_months + month_ahead)%Z in
  current <- list_read current_ev_totals;
  if (3 <=? Z.of_nat (length current))%Z then
    model_input <- lift (loop_model_input months_since_start county_encoded current);
    raw_prediction <- lift (predict model model_input);
    predictions <- get_predictions;
    prediction <- lift (adjust_prediction current predictions raw_prediction);
    _ <- predictions_append prediction;
    _ <- list_append current_ev_totals prediction;
    let prediction_date := add_days latest_date (30 * month_ahead) in
    prediction_dates_append prediction_date
  else
    raise (mkExn ValueError "Insufficient historical data for iterative prediction").

(** The [except Exception as e] block of the loop body, lines 1333-1347.
    [historical_data] is the caller's data. *)
Definition forecast_except (historical_data : HistoricalData)
    (latest_date : Date) (month_ahead : Z) (e : exn) : M unit :=
  _ <- st_warning ("Failed to generate prediction for month "
                   +:+ pretty month_ahead +:+ ": " +:+ exn_str e);
  predictions <- get_predictions;
  _ <- (if bool_decide (predictions ≠ []) then
          last_prediction <- lift (py_index predictions (-1));
          let trend_prediction := last_prediction * 1.02 in
          predictions_append trend_prediction
        else
          historical <- list_read (hd_ev_totals historical_data);
          latest_ev_total <- lift (py_index historical (-1));
          predictions_append (latest_ev_total * 1.01));
  let prediction_date := add_days latest_date (30 * month_ahead) in
  prediction_dates_append prediction_date.

(** The body of the [for] loop, lines 1240-1347. *)
Definition forecast_step (model : Model) (historical_data : HistoricalData)
    (county_encoded base_months : Z) (latest_date : Date)
    (current_ev_totals : loc) (month_ahead : Z) : M unit :=
  try_except
    (forecast_try model county_encoded base_months latest_date
       current_ev_totals month_ahead)
    (forecast_except historical_data latest_date month_ahead).

(** [(a.year - b.year) * 12 + (a.month - b.month)]. *)
Definition months_between (a b : Date) : Z :=
  ((date_year a - date_year b) * 12 + (date_month a - date_month b))%Z.

Definition generate_forecast (env : Env) (county_name : string)
    (county_data : gmap string CountyInfo) (model : option Model)
    (forecast_months : Z) : M ForecastResult :=
  try_except
    (match model with
     | None => raise (mkExn ValueError "Model is not available for prediction")
     | Some model =>
     match get_county_info county_name county_data with
     | None => raise (mkExn ValueError
                 ("County '" +:+ county_name +:+ "' not found in data"))
     | Some county_info =>
     let historical_data := ci_historical_data county_info in
     ev_totals <- list_copy (hd_ev_totals historical_data);
     county_encoded <- get_county_encoding env county_name;
     match county_encoded with
     | None => raise (mkExn ValueError
                 ("Could not find encoding for county '" +:+ county_name +:+ "'"))
     | Some county_encoded =>
     '(latest_date, base_months) <-
       try_except
         (earliest_date <- lift (csv_earliest_date env);
          latest_date <- lift (py_max_date (hd_dates historical_data));
          retM (latest_date, months_between latest_date earliest_date))
         (fun _ =>
          latest_date <- lift (py_max_date (hd_dates historical_data));
          let start_date := datetime 2018 1 1 in
          retM (latest_date, months_between latest_date start_date));
     _ <- set_predictions [];
     _ <- set_prediction_dates [];
     current_ev_totals <- list_copy ev_totals;
     _ <- for_each (py_range 1 (forecast_months + 1))
            (forecast_step model historical_data county_encoded base_months
               latest_date current_ev_totals);
     historical_ev_totals <- list_read (hd_ev_totals (ci_historical_data county_info));
     latest_historical <- lift (py_index historical_ev_totals (-1));
     predictions <- get_predictions;
     prediction_dates <- get_prediction_dates;
     total_growth <-
       lift (if bool_decide (predictions ≠ []) then
               last ← py_index predictions (-1);
               Ok (last - latest_historical)
             else Ok 0);
     avg_monthly_growth <-
       lift (if (0 <? forecast_months)%Z
             then py_div total_growth (inject_Z forecast_months)
             else Ok 0);
     growth_percentage <-
       lift (if Qltb 0 latest_historical
             then q ← py_div total_growth latest_historical; Ok (q * 100)
             else Ok 0);
     retM (mkForecastResult
             county_name
             (ci_state county_info)
             (pretty forecast_months +:+ " months")
             prediction_dates
             predictions
             latest_historical
             latest_date
             total_growth
             avg_monthly_growth
             growth_percentage
             (mkMetadata (model_type_name model) (clock_now env) forecast_months
                (Z.of_nat (length historical_ev_totals))))
     end end end)
    (fun e =>
       if is_ValueError e then raise e
       else raise (mkExn ValueError
              ("Error generating forecast for county '" +:+ county_name
               +:+ "': " +:+ exn_str e))).

(** * Definitions used by the statements and the proofs *)

(** ** The frame *)

(** [keeps n m]: run from a heap with at least [n] objects, [m] leaves the
    first [n] of them as they are (whatever its outcome). *)
Definition keeps {A} (n : nat) (m : M A) : Prop :=
  forall s, (n <= length (st_heap s))%nat ->
    (n <= length (st_heap (m s).2))%nat /\
    take n (st_heap (m s).2) = take n (st_heap s).

(** ** The loop as a function on three lists *)

(** The value the [try] block of a step computes before it touches any
    list: the adjusted prediction, or the exception that sends the step to the
    fallback. *)
Definition step_attempt (model : Model) (county_encoded base_months : Z)
    (month_ahead : Z) (current predictions : list Q) : res Q :=
  if (3 <=? Z.of_nat (length current))%Z then
    model_input ← loop_model_input (base_months + month_ahead) county_encoded current;
    raw_prediction ← predict model model_input;
    adjust_prediction current predictions raw_prediction
  else Raise (mkExn ValueError "Insufficient historical data for iterative prediction").

(** The value the [except] block appends. *)
Definition fallback_value (latest_ev_total : Q) (predictions : list Q) : Q :=
  match last predictions with
  | Some last_prediction => last_prediction * 1.02
  | None => latest_ev_total * 1.01
  end.

(** The three lists the loop works on. *)
Record view := mkView {
  v_current : list Q;
  v_predictions : list Q;
  v_dates : list Date
}.

Definition step_view (model : Model) (county_encoded base_months : Z)
    (latest_date : Date) (latest_ev_total : Q) (v : view) (month_ahead : Z) : view :=
  let d := add_days latest_date (30 * month_ahead) in
  match step_attempt model county_encoded base_months month_ahead
          (v_current v) (v_predictions v) with
  | Ok p => mkView (v_current v ++ [p]) (v_predictions v ++ [p]) (v_dates v ++ [d])
  | Raise _ =>
      mkView (v_current v)
             (v_predictions v ++ [fallback_value latest_ev_total (v_predictions v)])
             (v_dates v ++ [d])
  end.

Definition run_view (model : Model) (county_encoded base_months : Z)
    (latest_date : Date) (latest_ev_total : Q) (v : view) (months : list Z) : view :=
  foldl (step_view model county_encoded base_months latest_date latest_ev_total)
        v months.

(** The state after a step, from the state before it. *)
Definition state_after (s : pystate) (cur : loc) (v : view) (ws : list string) : pystate :=
  mkState (<[cur := v_current v]> (st_heap s)) (v_predictions v) (v_dates v) ws
          (st_errors s).

Definition view_of (s : pystate) (current : list Q) : view :=
  mkView current (st_predictions s) (st_prediction_dates s).

(** Lines 1221-1230: the latest date of the county and the months between
    the start of the data set and it. *)
Definition latest_and_base (env : Env) (dates : list Date) : res (Date * Z) :=
  res_try
    (earliest_date ← csv_earliest_date env;
     latest_date ← py_max_date dates;
     Ok (latest_date, months_between latest_date earliest_date))
    (fun _ =>
     latest_date ← py_max_date dates;
     Ok (latest_date, months_between latest_date (datetime 2018 1 1))).

(** The result the function builds, from the contents [hs] of the county's
    [ev_totals] and its last value [lv]. *)
Definition forecast_result_of (env : Env) (county_name : string)
    (county_info : CountyInfo) (model : Model) (forecast_months : Z)
    (county_encoded : Z) (hs : list Q) (lv : Q) (latest_date : Date)
    (base_months : Z) : ForecastResult :=
  let v := run_view model county_encoded base_months latest_date lv
             (mkView hs [] []) (py_range 1 (forecast_months + 1)) in
  let total_growth :=
    match last (v_predictions v) with Some p => p - lv | None => 0 end in
  mkForecastResult
    county_name
    (ci_state county_info)
    (pretty forecast_months +:+ " months")
    (v_dates v)
    (v_predictions v)
    lv
    latest_date
    total_growth
    (if (0 <? forecast_months)%Z then total_growth / inject_Z forecast_months else 0)
    (if Qltb 0 lv then total_growth / lv * 100 else 0)
    (mkMetadata (model_type_name model) (clock_now env) forecast_months
       (Z.of_nat (length hs))).

(** ** The spec's formulas *)

(** Following the spec's words: the change over [k] periods is
    [(v[n-1] - v[n-1-k]) / v[n-1-k]] if [n >= k+1] and [v[n-1-k] != 0],
    else [0]. *)
Definition spec_pct_change (k : nat) (v : list Q) : Q :=
  let n := length v in
  if (k + 1 <=? n)%nat && negb (Qeq_bool (nth (n - 1 - k) v 0) 0)
  then (nth (n - 1) v 0 - nth (n - 1 - k) v 0) / nth (n - 1 - k) v 0
  else 0.

(** The shape both percentage changes have in the source, for the index [-j]. *)
Definition pct_change_code (v : list Q) (j : Z) : res Q :=
  if (j <=? Z.of_nat (length v))%Z then
    d ← py_index v (- j);
    if negb (Qeq_bool d 0) then
      a ← py_index v (-1);
      b ← py_index v (- j);
      c ← py_index v (- j);
      py_div (a - b) c
    else Ok 0
  else Ok 0.

(** Following the spec's words, first step: [0.95*cur] if [raw < 0.7*cur],
    else [1.1*cur] if [raw > 1.5*cur], else [raw]. *)
Definition spec_first_step_guard (cur raw : Q) : Q :=
  if Qltb raw (cur * 0.7) then cur * 0.95
  else if Qltb (cur * 1.5) raw then cur * 1.1
  else raw.

(** Following the spec's words, later steps: [0.98*prev] if
    [raw < 0.8*prev], else [1.05*prev] if [raw > 1.3*prev], else [raw]. *)
Definition spec_later_step_guard (prev raw : Q) : Q :=
  if Qltb raw (prev * 0.8) then prev * 0.98
  else if Qltb (prev * 1.3) raw then prev * 1.05
  else raw.

(** ** Predicates on requests and predictions *)


(** How a prediction [q] relates to the one before it, [p]: the 1% floor of
    the normal path, or the fallback value. *)
Definition floor_or_fallback (p q : Q) : Prop :=
  p * 1.01 <= q \/ q = p * 1.02.

(** What [get_county_encoding] returns, and what it shows on the way: the
    entry of the dictionary, or nothing and the message of
    [get_county_encoding_map] when the dictionary could not be built. *)
Definition encoding_of (env : Env) (county_name : string) : option Z :=
  match county_encoding_map env with
  | Ok encoding_map => encoding_map !! county_name
  | Raise _ => None
  end.

Definition encoding_errors (env : Env) : list string :=
  match county_encoding_map env with
  | Ok _ => []
  | Raise e => ["Error loading county encoding map: " +:+ exn_str e]
  end.

(** [s] after [st.error] has shown [msgs]. *)
Definition with_errors (s : pystate) (msgs : list string) : pystate :=
  mkState (st_heap s) (st_predictions s) (st_prediction_dates s)
          (st_warnings s) (st_errors s ++ msgs).

(** The request is served: the county is in the data and in the encoding
    table, its [ev_totals] object holds [hs], whose last value is [lv], and it
    has at least one date. *)
Definition served (env : Env) (county_name : string)
    (county_data : gmap string CountyInfo) (s : pystate)
    (info : CountyInfo) (hs : list Q) (lv : Q) : Prop :=
  county_data !! county_name = Some info /\
  is_Some (encoding_of env county_name) /\
  st_heap s !! hd_ev_totals (ci_historical_data info) = Some hs /\
  last hs = Some lv /\
  hd_dates (ci_historical_data info) <> [].

(** ** Concrete requests *)

Definition ex_dates : list Date :=
  [datetime 2024 1 31; datetime 2024 2 29; datetime 2024 3 31].

(** A county whose [ev_totals] is the list object at location 0. *)
Definition ex_info : CountyInfo :=
  mkCountyInfo "King" "WA" (mkHistoricalData ex_dates 0) 3.

Definition ex_data : gmap string CountyInfo := {[ "King" := ex_info ]}.

(** The same county with a history of two points only. *)
Definition ex_info2 : CountyInfo :=
  mkCountyInfo "King" "WA"
    (mkHistoricalData [datetime 2024 2 29; datetime 2024 3 31] 0) 2.

Definition ex_data2 : gmap string CountyInfo := {[ "King" := ex_info2 ]}.

(** The CSV cannot be read (the start of 2018 is used), King has code 7. *)
Definition ex_env (now : Z) : Env :=
  mkEnv (Raise (mkExn RuntimeError "preprocessed_ev_data.csv not found"))
        (Ok {[ "King" := 7%Z ]}) now.

(** The heap of a caller whose only list object is [hs]. *)
Definition ex_state (hs : list Q) : pystate := mkState [hs] [] [] [] [].

(** A state inside the loop: the caller's list [hs] at 0, its first copy at
    1, the working copy [current] at 2, and the two local lists. *)
Definition ex_loop_state (hs current predictions : list Q)
    (prediction_dates : list Date) : pystate :=
  mkState [hs; hs; current] predictions prediction_dates [] [].

(** Months from January 2018 to March 2024. *)
Definition ex_base : Z := 74.

(** A regressor that answers 1150 for the first month and 1300 afterwards. *)
Definition ex_model : Model :=
  mkModel "RandomForestRegressor" (fun x =>
    if Qeq_bool (in_months_since_start x) (inject_Z (ex_base + 1))
    then Ok (Fin 1150) else Ok (Fin 1300)).

(** A regressor that always answers [raw]. *)
Definition const_model (raw : Q) : Model :=
  mkModel "RandomForestRegressor" (fun _ => Ok (Fin raw)).


(** A regressor that always raises. *)
Definition failing_model : Model :=
  mkModel "RandomForestRegressor" (fun _ =>
    Raise (mkExn RuntimeError "predict failed")).

(** A regressor that raises for the first month and afterwards answers 110
    when the most recent value it is shown is 100, and 120 otherwise. *)
Definition probing_model : Model :=
  mkModel "RandomForestRegressor" (fun x =>
    if Qeq_bool (in_months_since_start x) (inject_Z (ex_base + 1))
    then Raise (mkExn RuntimeError "predict failed")
    else if Qeq_bool (in_ev_total_lag1 x) 100 then Ok (Fin 110)
    else Ok (Fin 120)).

(** The same environment at another time. *)
Definition at_time (env : Env) (now : Z) : Env :=
  mkEnv (csv_earliest_date env) (county_encoding_map env) now.

(** A result with its generation timestamp blanked. *)
Definition without_timestamp (r : ForecastResult) : ForecastResult :=
  mkForecastResult (fr_county r) (fr_state r) (fr_forecast_period r)
    (fr_prediction_dates r) (fr_predicted_values r)
    (fr_latest_historical_value r) (fr_latest_historical_date r)
    (fr_total_growth r) (fr_avg_monthly_growth r) (fr_growth_percentage r)
    (mkMetadata (md_model_type (fr_metadata r)) 0
       (md_forecast_months (fr_metadata r))
       (md_historical_data_points (fr_metadata r))).

(** * The rest of the forecasting path of [app.py] *)

(** ** [prepare_model_input] *)

Definition prepare_model_input (env : Env) (county_name : string)
    (county_data : gmap string CountyInfo) (forecast_months : Z) : M ModelInput :=
  try_except
    (match get_county_info county_name county_data with
     | None => raise (mkExn ValueError
                 ("County '" +:+ county_name +:+ "' not found in data"))
     | Some county_info =>
     county_encoded <- get_county_encoding env county_name;
     match county_encoded with
     | None => raise (mkExn ValueError
                 ("Could not find encoding for county '" +:+ county_name +:+ "'"))
     | Some county_encoded =>
     let historical_data := ci_historical_data county_info in
     if bool_decide (hd_dates historical_data = [])
        || (Z.of_nat (length (hd_dates historical_data)) <? 3)%Z
     then raise (mkExn ValueError
            ("Insufficient historical data for county '" +:+ county_name
             +:+ "' (need at least 3 data points)"))
     else
     months_since_start <-
       try_except
         (earliest_date <- lift (csv_earliest_date env);
          latest_date <- lift (py_max_date (hd_dates historical_data));
          let months_diff := months_between latest_date earliest_date in
          retM (months_diff + forecast_months)%Z)
         (fun _ =>
          latest_date <- lift (py_max_date (hd_dates historical_data));
          let start_date := datetime 2018 1 1 in
          retM (months_between latest_date start_date + forecast_months)%Z);
     feature_values <- calculate_feature_engineering_values historical_data;
     retM (mkModelInput
             (inject_Z months_since_start)
             (inject_Z county_encoded)
             (ev_total_lag1 feature_values)
             (ev_total_lag2 feature_values)
             (ev_total_lag3 feature_values)
             (ev_total_roll_mean_3 feature_values)
             (ev_total_pct_change_1 feature_values)
             (ev_total_pct_change_3 feature_values)
             (ev_growth_slope feature_values))
     end end)
    (fun e =>
       if is_ValueError e then raise e
       else raise (mkExn ValueError
              ("Error preparing model input for county '" +:+ county_name
               +:+ "': " +:+ exn_str e))).

(** ** [handle_prediction_errors] and [safe_generate_forecast] *)

(** The page around the machine state: besides the warnings and errors the
    state records, what [st.info] and [st.code] have shown. *)
Record page := mkPage {
  pg_state : pystate;
  pg_infos : list string;
  pg_code : list string
}.

(** The wrapper the decorator builds around [func], lines 1396-1417: its
    three [except] clauses, each returning [None].  [format_exc] stands for
    [traceback.format_exc()]. *)
Definition handle_prediction_errors {A} (format_exc : exn -> string)
    (func : M A) (pg : page) : option A * page :=
  match func (pg_state pg) with
  | (Ok a, s') => (Some a, mkPage s' (pg_infos pg) (pg_code pg))
  | (Raise e, s') =>
      match exn_cls e with
      | ValueError =>
          (None, mkPage (with_errors s' ["❌ Prediction Error: " +:+ exn_str e])
                        (pg_infos pg) (pg_code pg))
      | FileNotFoundError =>
          (None, mkPage (with_errors s' ["❌ File Error: " +:+ exn_str e])
                        (pg_infos pg
                         ++ ["💡 Please ensure all required data files are present in the project directory."])
                        (pg_code pg))
      | _ =>
          (None, mkPage (with_errors s'
                           ["❌ Unexpected Error: An error occurred during prediction";
                            "Technical details: " +:+ exn_str e])
                        (pg_infos pg)
                        (pg_code pg ++ [format_exc e]))
      end
  end.

Definition safe_generate_forecast (format_exc : exn -> string) (env : Env)
    (county_name : string) (county_data : gmap string CountyInfo)
    (model : option Model) (forecast_months : Z) : page -> option ForecastResult * page :=
  handle_prediction_errors format_exc
    (generate_forecast env county_name county_data model forecast_months).

(** ** [get_county_display_name] and the selection of [render_county_selection] *)

Definition get_county_display_name (county_name : string)
    (county_data : gmap string CountyInfo) : string :=
  match county_data !! county_name with
  | Some county_info =>
      if bool_decide (ci_state county_info ≠ "")
      then county_name +:+ ", " +:+ ci_state county_info
      else county_name
  | None => county_name
  end.

(** [s.replace(old, new)] for a non-empty [old]: the occurrences of [old] are
    replaced from left to right; [skip] counts the characters of an occurrence
    still to be passed over. *)
Fixpoint py_replace_from (old new : string) (skip : nat) (s : string) : string :=
  match s with
  | EmptyString => EmptyString
  | String c s' =>
      match skip with
      | S k => py_replace_from old new k s'
      | O =>
          if String.prefix old s
          then new +:+ py_replace_from old new (String.length old - 1) s'
          else String c (py_replace_from old new 0 s')
      end
  end.

Definition py_replace (old new s : string) : string := py_replace_from old new 0 s.

(** The options of the select box, lines 819-821. *)
Definition county_options (counties : list string)
    (county_data : gmap string CountyInfo) : list string :=
  "🔍 Choose a county to begin your analysis..."
  :: ((fun county => "📍 " +:+ get_county_display_name county county_data)
      <$> counties).

(** What [render_county_selection] returns when the select box answers with
    its option number [selected] (the box starts at option 0, and answers
    with one of its options).  The markup written to the page is left out. *)
Definition render_county_selection (counties : list string)
    (county_data : gmap string CountyInfo) (selected : nat) : option string :=
  let options := county_options counties county_data in
  match options !! selected with
  | None => None
  | Some selected_display =>
      if negb (String.prefix "🔍" selected_display) then
        let clean_display := py_replace "📍 " "" selected_display in
        find (fun county =>
                bool_decide
                  (get_county_display_name county county_data = clean_display))
             counties
      else None
  end.

(** ** The forecast table of [display_forecast_results] *)

(** Lines 1666-1683: the numbers of the columns 'Monthly Change',
    'Cumulative Growth' and 'Growth %', in the order the dictionary computes
    them, before they are formatted as text. *)
Definition forecast_table_numbers (forecast_result : ForecastResult)
    : res (list Q * list Q * list Q) :=
  let predicted_values := fr_predicted_values forecast_result in
  let latest := fr_latest_historical_value forecast_result in
  monthly_change ←
    mapM (fun i : Z =>
            val ← py_index predicted_values i;
            before ← (if (i =? 0)%Z then Ok latest
                      else py_index predicted_values (i - 1));
            Ok (val - before))
         (py_range 0 (Z.of_nat (length predicted_values)));
  let cumulative_growth := (fun val => val - latest) <$> predicted_values in
  growth_pct ←
    mapM (fun val => q ← py_div (val - latest) latest; Ok (q * 100))
         predicted_values;
  Ok (monthly_change, cumulative_growth, growth_pct).

(** ** Definitions for the statements about this code *)

(** The growth slope both feature engineers compute for a series of at
    least 3 values: the least-squares slope over its last [min(6, n)]. *)
Definition growth_slope_of (v : list Q) : Q :=
  let recent_points := Z.min 6 (Z.of_nat (length v)) in
  let y_values := py_slice_from v (- recent_points) in
  let x_values := np_arange (Z.to_nat recent_points) in
  if (1 <? Z.of_nat (length x_values))%Z
  then polyfit_slope x_values y_values
  else 0.

(** The 'Monthly Change' of row [i] of the forecast table: the value of the
    row minus the value of the row before, the last historical value for the
    first row. *)
Definition monthly_change_at (predicted_values : list Q) (latest : Q) (i : Z) : Q :=
  nth (Z.to_nat i) predicted_values 0
  - (if (i =? 0)%Z then latest else nth (Z.to_nat (i - 1)) predicted_values 0).

(** The marker [render_county_selection] puts before a display name. *)
Definition pin : string := "📍 ".

(** [m] leaves the whole machine state as it is, whatever its outcome. *)
Definition reads_only {A} (m : M A) : Prop := forall s, (m s).2 = s.

(** [m] calls [st.error] on no path. *)
Definition no_error_shown {A} (m : M A) : Prop :=
  forall s, st_errors (m s).2 = st_errors s.

(** The forecast made of fallback values only: the last historical value
    times 1.01, then 1.02 times the value before. *)
Fixpoint fallback_chain (latest_ev_total : Q) (n : nat) : list Q :=
  match n with
  | O => []
  | S k =>
      fallback_chain latest_ev_total k
      ++ [fallback_value latest_ev_total (fallback_chain latest_ev_total k)]
  end.

(** Every value is at least 0.1 and each is between 1.01 and 1.3 times the
    one before. *)
Definition enveloped (ps : list Q) : Prop :=
  Forall (fun p => 0.1 <= p) ps /\
  forall k p q, ps !! k = Some p -> ps !! S k = Some q ->
                p * 1.01 <= q /\ q <= p * 1.3.

(** * Properties *)

(** ** Running the monad *)

Lemma bindM_ok {A B} (m : M A) (k : A -> M B) s a s' :
  m s = (Ok a, s') -> bindM m k s = k a s'.
Proof. intros H. unfold bindM. now rewrite H. Qed.

Lemma bindM_raise {A B} (m : M A) (k : A -> M B) s e s' :
  m s = (Raise e, s') -> bindM m k s = (Raise e, s').
Proof. intros H. unfold bindM. now rewrite H. Qed.

Lemma try_except_ok {A} (m : M A) h s a s' :
  m s = (Ok a, s') -> try_except m h s = (Ok a, s').
Proof. intros H. unfold try_except. now rewrite H. Qed.

Lemma try_except_raise {A} (m : M A) h s e s' :
  m s = (Raise e, s') -> try_except m h s = h e s'.
Proof. intros H. unfold try_except. now rewrite H. Qed.

Lemma bindM_Ok_inv {A B} (m : M A) (k : A -> M B) s b s' :
  bindM m k s = (Ok b, s') ->
  exists a s1, m s = (Ok a, s1) /\ k a s1 = (Ok b, s').
Proof.
  unfold bindM. destruct (m s) as [[a|e] s1]; [eauto|discriminate].
Qed.

Lemma try_except_Ok_inv {A} (m : M A) h s a s' :
  try_except m h s = (Ok a, s') ->
  (forall e s0 a0 s1, h e s0 <> (Ok a0, s1)) ->
  m s = (Ok a, s').
Proof.
  unfold try_except. intros H Hh.
  destruct (m s) as [[a1|e] s1]; [exact H|]. now apply Hh in H.
Qed.

Lemma list_copy_run l s xs :
  st_heap s !! l = Some xs ->
  list_copy l s
  = (Ok (length (st_heap s)),
     mkState (st_heap s ++ [xs]) (st_predictions s) (st_prediction_dates s)
             (st_warnings s) (st_errors s)).
Proof. intros H. unfold list_copy, bindM, list_read. now rewrite H. Qed.

Lemma with_errors_nil s : with_errors s [] = s.
Proof. destruct s. unfold with_errors. cbn. now rewrite app_nil_r. Qed.

Lemma get_county_encoding_run env county_name s :
  get_county_encoding env county_name s
  = (Ok (encoding_of env county_name), with_errors s (encoding_errors env)).
Proof.
  unfold get_county_encoding, get_county_encoding_map, encoding_of,
    encoding_errors, try_except, bindM, lift, retM, st_error.
  destruct (county_encoding_map env) as [encoding_map|e]; cbn.
  - now rewrite with_errors_nil.
  - reflexivity.
Qed.

Lemma encoding_of_Some env county_name enc :
  encoding_of env county_name = Some enc -> encoding_errors env = [].
Proof.
  unfold encoding_of, encoding_errors.
  now destruct (county_encoding_map env).
Qed.

Lemma get_county_encoding_Some env county_name enc s :
  encoding_of env county_name = Some enc ->
  get_county_encoding env county_name s = (Ok (Some enc), s).
Proof.
  intros H. rewrite get_county_encoding_run, H.
  now rewrite (encoding_of_Some _ _ _ H), with_errors_nil.
Qed.

Lemma list_read_run l s xs :
  st_heap s !! l = Some xs -> list_read l s = (Ok xs, s).
Proof. intros H. unfold list_read. now rewrite H. Qed.

Lemma lift_run {A} (r : res A) s : lift r s = (r, s).
Proof. reflexivity. Qed.

(** ** The Python primitives *)

Lemma py_index_neg {A} (l : list A) (k : nat) (x : A) :
  (1 <= k <= length l)%nat -> l !! (length l - k)%nat = Some x ->
  py_index l (- Z.of_nat k) = Ok x.
Proof.
  intros Hk Hx. unfold py_index.
  replace (- Z.of_nat k <? 0)%Z with true by (symmetry; apply Z.ltb_lt; lia).
  replace (Z.of_nat (length l) + - Z.of_nat k)%Z
    with (Z.of_nat (length l - k)) by lia.
  replace (Z.of_nat (length l - k) <? 0)%Z with false
    by (symmetry; apply Z.ltb_ge; lia).
  now rewrite Nat2Z.id, Hx.
Qed.

Lemma py_index_last {A} (l : list A) (x : A) :
  last l = Some x -> py_index l (-1) = Ok x.
Proof.
  intros Hl. apply (py_index_neg l 1).
  - destruct l; [discriminate|simpl; lia].
  - rewrite last_lookup in Hl. now replace (length l - 1)%nat with (pred (length l)) by lia.
Qed.

Lemma py_index_last_inv {A} (l : list A) (x : A) :
  py_index l (-1) = Ok x -> last l = Some x.
Proof.
  destruct (last l) as [y|] eqn:Hl.
  - rewrite (py_index_last _ _ Hl). congruence.
  - apply last_None in Hl. subst l. discriminate.
Qed.

Lemma py_index_neg_nth (v : list Q) (k : nat) :
  (1 <= k <= length v)%nat ->
  py_index v (- Z.of_nat k) = Ok (nth (length v - k) v 0).
Proof.
  intros Hk. apply py_index_neg; [exact Hk|].
  destruct (nth_lookup_or_length v (length v - k) 0) as [H|H]; [exact H|lia].
Qed.

Lemma py_index_lags (v : list Q) :
  (3 <= length v)%nat ->
  py_index v (-1) = Ok (nth (length v - 1) v 0) /\
  py_index v (-2) = Ok (nth (length v - 2) v 0) /\
  py_index v (-3) = Ok (nth (length v - 3) v 0).
Proof.
  intros Hv. repeat split.
  - apply (py_index_neg_nth v 1); lia.
  - apply (py_index_neg_nth v 2); lia.
  - apply (py_index_neg_nth v 3); lia.
Qed.

Lemma py_div_nonzero x y : ~ y == 0 -> py_div x y = Ok (x / y).
Proof.
  intros Hy. unfold py_div.
  destruct (Qeq_bool y 0) eqn:E; [|reflexivity].
  apply Qeq_bool_iff in E. contradiction.
Qed.

Lemma Qltb_lt x y : Qltb x y = true <-> x < y.
Proof.
  unfold Qltb. rewrite negb_true_iff.
  split.
  - intros H. apply Qnot_le_lt. intros Hle.
    apply Qle_bool_iff in Hle. congruence.
  - intros H. destruct (Qle_bool y x) eqn:E; [|reflexivity].
    apply Qle_bool_iff in E. lra.
Qed.

Lemma Qltb_ge x y : Qltb x y = false <-> y <= x.
Proof.
  unfold Qltb. rewrite negb_false_iff. apply Qle_bool_iff.
Qed.

Lemma py_max_ge_l a b : a <= py_max a b.
Proof.
  unfold py_max. destruct (Qltb a b) eqn:E; [|lra].
  apply Qltb_lt in E. lra.
Qed.

Lemma py_max_ge_r a b : b <= py_max a b.
Proof.
  unfold py_max. destruct (Qltb a b) eqn:E; [lra|].
  now apply Qltb_ge in E.
Qed.

Lemma py_max_floor_id x : 0.1 <= x -> py_max 0.1 x == x.
Proof.
  intros Hx. unfold py_max. destruct (Qltb 0.1 x) eqn:E; [reflexivity|].
  apply Qltb_ge in E. lra.
Qed.

Lemma py_max_date_sorted dates latest :
  StronglySorted Z.le dates -> py_max_date dates = Ok latest ->
  last dates = Some latest.
Proof.
  destruct dates as [|d ds]; [discriminate|]. cbn [py_max_date].
  intros Hs [= <-]. revert d Hs.
  induction ds as [|e ds IH]; intros d Hs; [reflexivity|].
  cbn [foldl]. rewrite last_cons_cons.
  apply StronglySorted_inv in Hs as [Hs Hd].
  apply Forall_cons in Hd as [Hde _].
  rewrite Z.max_r by exact Hde. now apply IH.
Qed.

(** ** The frame: which list objects a computation leaves alone *)

Lemma keeps_retM {A} n (a : A) : keeps n (retM a).
Proof. intros s Hn. now split. Qed.

Lemma keeps_lift {A} n (r : res A) : keeps n (lift r).
Proof. intros s Hn. now split. Qed.

Lemma keeps_raise {A} n e : keeps n (@raise A e).
Proof. apply keeps_lift. Qed.

Lemma keeps_bindM {A B} n (m : M A) (k : A -> M B) :
  keeps n m -> (forall a, keeps n (k a)) -> keeps n (bindM m k).
Proof.
  intros Hm Hk s Hn. unfold bindM.
  destruct (Hm s Hn) as [Hlen Htake].
  destruct (m s) as [[a|e] s1]; simpl in *; [|now split].
  destruct (Hk a s1 Hlen) as [Hlen' Htake']. split; [done|congruence].
Qed.

Lemma keeps_try_except {A} n (m : M A) h :
  keeps n m -> (forall e, keeps n (h e)) -> keeps n (try_except m h).
Proof.
  intros Hm Hh s Hn. unfold try_except.
  destruct (Hm s Hn) as [Hlen Htake].
  destruct (m s) as [[a|e] s1]; simpl in *; [now split|].
  destruct (Hh e s1 Hlen) as [Hlen' Htake']. split; [done|congruence].
Qed.

Lemma keeps_list_read n l : keeps n (list_read l).
Proof.
  intros s Hn. unfold list_read. now destruct (st_heap s !! l).
Qed.

Lemma keeps_list_append n l x : (n <= l)%nat -> keeps n (list_append l x).
Proof.
  intros Hl s Hn. unfold list_append, bindM, list_read.
  destruct (st_heap s !! l); simpl; [|now split].
  rewrite length_insert. split; [done|]. now apply take_insert_ge.
Qed.

(** A copy is a new object: what follows may do as it likes with it. *)
Lemma keeps_list_copy {B} n l (k : loc -> M B) :
  (forall r, (n <= r)%nat -> keeps n (k r)) -> keeps n (bindM (list_copy l) k).
Proof.
  intros Hk s Hn. unfold bindM at 1, list_copy, bindM, list_read.
  destruct (st_heap s !! l) as [xs|]; simpl; [|now split].
  set (s1 := mkState _ _ _ _ _).
  assert (Hlen : (n <= length (st_heap s1))%nat)
    by (subst s1; simpl; rewrite length_app; lia).
  destruct (Hk (length (st_heap s)) Hn s1 Hlen) as [Hlen' Htake'].
  split; [done|]. rewrite Htake'. subst s1; simpl. now apply take_app_le.
Qed.

Lemma keeps_get_predictions n : keeps n get_predictions.
Proof. intros s Hn. now split. Qed.

Lemma keeps_set_predictions n ps : keeps n (set_predictions ps).
Proof. intros s Hn. now split. Qed.

Lemma keeps_get_prediction_dates n : keeps n get_prediction_dates.
Proof. intros s Hn. now split. Qed.

Lemma keeps_set_prediction_dates n ds : keeps n (set_prediction_dates ds).
Proof. intros s Hn. now split. Qed.

Lemma keeps_st_warning n msg : keeps n (st_warning msg).
Proof. intros s Hn. now split. Qed.

Lemma keeps_st_error n msg : keeps n (st_error msg).
Proof. intros s Hn. now split. Qed.

Lemma keeps_for_each {A} n (xs : list A) body :
  (forall x, keeps n (body x)) -> keeps n (for_each xs body).
Proof.
  intros Hb. induction xs as [|x xs IH]; simpl.
  - apply keeps_retM.
  - apply keeps_bindM; [apply Hb|]. intros _. apply IH.
Qed.

Create HintDb keeps.
#[export] Hint Resolve keeps_retM keeps_lift keeps_raise keeps_list_read
  keeps_get_predictions keeps_set_predictions keeps_get_prediction_dates
  keeps_set_prediction_dates keeps_st_warning keeps_st_error
  keeps_list_append : keeps.

(** One syntax-directed step of a frame proof. *)
Ltac keeps_step :=
  match goal with
  | |- keeps _ (bindM (list_copy _) _) => apply keeps_list_copy; intros ? ?
  | |- keeps _ (bindM _ _) => apply keeps_bindM; [|intros ?]
  | |- keeps _ (try_except _ _) => apply keeps_try_except; [|intros ?]
  | |- keeps _ (for_each _ _) => apply keeps_for_each; intros ?
  | |- keeps _ (match ?x with _ => _ end) => destruct x
  | |- keeps _ _ => solve [eauto with keeps]
  end.

Lemma keeps_predictions_append n x : keeps n (predictions_append x).
Proof. unfold predictions_append. repeat keeps_step. Qed.

Lemma keeps_prediction_dates_append n d : keeps n (prediction_dates_append d).
Proof. unfold prediction_dates_append. repeat keeps_step. Qed.

#[export] Hint Resolve keeps_predictions_append keeps_prediction_dates_append
  : keeps.

Lemma keeps_forecast_step n model hd enc base latest cur month :
  (n <= cur)%nat -> keeps n (forecast_step model hd enc base latest cur month).
Proof.
  intros Hcur. unfold forecast_step, forecast_try, forecast_except.
  repeat keeps_step.
Qed.

Lemma keeps_get_county_encoding n env county_name :
  keeps n (get_county_encoding env county_name).
Proof.
  unfold get_county_encoding, get_county_encoding_map. repeat keeps_step.
Qed.

#[export] Hint Resolve keeps_get_county_encoding : keeps.

Lemma keeps_generate_forecast n env county_name county_data model months :
  keeps n (generate_forecast env county_name county_data model months).
Proof.
  unfold generate_forecast.
  repeat first [ apply keeps_forecast_step; lia | keeps_step ].
Qed.

(** C8. [generate_forecast] never mutates a list object of its caller:
    whatever the arguments and whatever the outcome (a result or an
    exception, with or without fallback steps), the heap after the call is
    the heap before it followed by the objects allocated during the call.
    In particular the county's [ev_totals] list is the same before and after;
    the accepted predictions go to the copy made at line 1237. *)
Theorem generate_forecast_preserves_caller_lists
    (env : Env) (county_name : string) (county_data : gmap string CountyInfo)
    (model : option Model) (forecast_months : Z) (s : pystate) :
  exists allocated,
    st_heap (generate_forecast env county_name county_data model
               forecast_months s).2
    = st_heap s ++ allocated.
Proof.
  destruct (keeps_generate_forecast (length (st_heap s)) env county_name
              county_data model forecast_months s (le_n _)) as [Hlen Htake].
  set (h' := st_heap (generate_forecast _ _ _ _ _ _).2) in *.
  exists (drop (length (st_heap s)) h').
  transitivity (take (length (st_heap s)) h' ++ drop (length (st_heap s)) h').
  - symmetry. apply take_drop.
  - f_equal. rewrite Htake. apply firstn_all.
Qed.

(** ** One step of the loop, as a function *)

Lemma forecast_try_run model enc base latest cur month s xs :
  st_heap s !! cur = Some xs ->
  forecast_try model enc base latest cur month s
  = match step_attempt model enc base month xs (st_predictions s) with
    | Ok p => (Ok tt, mkState (<[cur := xs ++ [p]]> (st_heap s))
                              (st_predictions s ++ [p])
                              (st_prediction_dates s ++ [add_days latest (30 * month)])
                              (st_warnings s) (st_errors s))
    | Raise e => (Raise e, s)
    end.
Proof.
  intros Hcur.
  unfold forecast_try, step_attempt.
  unfold bindM at 1. unfold list_read at 1. rewrite Hcur.
  destruct (3 <=? Z.of_nat (length xs))%Z; [|reflexivity].
  unfold bindM at 1, lift at 1.
  destruct (loop_model_input (base + month) enc xs) as [mi|e];
    cbn [mbind res_bind]; [|reflexivity].
  unfold bindM at 1, lift at 1.
  destruct (predict model mi) as [raw|e]; cbn [mbind res_bind]; [|reflexivity].
  unfold bindM at 1, get_predictions at 1.
  unfold bindM at 1, lift at 1.
  destruct (adjust_prediction xs (st_predictions s) raw) as [p|e]; [|reflexivity].
  unfold bindM, predictions_append, list_append, prediction_dates_append,
    get_predictions, set_predictions, get_prediction_dates,
    set_prediction_dates, list_read, bindM.
  cbn. rewrite Hcur. reflexivity.
Qed.

Lemma forecast_except_run hd latest month e s hs lv :
  st_heap s !! hd_ev_totals hd = Some hs ->
  last hs = Some lv ->
  forecast_except hd latest month e s
  = (Ok tt, mkState (st_heap s)
              (st_predictions s ++ [fallback_value lv (st_predictions s)])
              (st_prediction_dates s ++ [add_days latest (30 * month)])
              (st_warnings s ++ ["Failed to generate prediction for month "
                                 +:+ pretty month +:+ ": " +:+ exn_str e])
              (st_errors s)).
Proof.
  intros Hhist Hlast.
  unfold forecast_except, fallback_value.
  unfold bindM at 1, st_warning at 1.
  unfold bindM at 1, get_predictions at 1. cbn [st_predictions].
  destruct (last (st_predictions s)) as [p|] eqn:Hp.
  - rewrite bool_decide_true by (intros H; rewrite H in Hp; discriminate).
    unfold bindM, lift. rewrite (py_index_last _ _ Hp). reflexivity.
  - apply last_None in Hp. rewrite Hp.
    rewrite bool_decide_false by (intros H; now apply H).
    unfold bindM, lift, list_read. cbn [st_heap]. rewrite Hhist.
    rewrite (py_index_last _ _ Hlast). reflexivity.
Qed.

Lemma forecast_step_run model hd enc base latest cur month s xs hs lv :
  st_heap s !! cur = Some xs ->
  st_heap s !! hd_ev_totals hd = Some hs ->
  last hs = Some lv ->
  exists ws,
    forecast_step model hd enc base latest cur month s
    = (Ok tt, state_after s cur
                (step_view model enc base latest lv (view_of s xs) month) ws).
Proof.
  intros Hcur Hhist Hlast.
  unfold forecast_step, step_view, state_after, view_of.
  cbn [v_current v_predictions v_dates].
  pose proof (forecast_try_run model enc base latest cur month s xs Hcur) as Htry.
  destruct (step_attempt model enc base month xs (st_predictions s)) as [p|e].
  - exists (st_warnings s). now rewrite (try_except_ok _ _ _ _ _ Htry).
  - rewrite (try_except_raise _ _ _ _ _ Htry).
    rewrite (forecast_except_run hd latest month e s hs lv Hhist Hlast).
    eexists. cbn [v_current v_predictions v_dates].
    now rewrite (list_insert_id _ _ _ Hcur).
Qed.


Lemma for_each_forecast_step_run model hd enc base latest cur lv hs months :
  forall s xs,
  st_heap s !! cur = Some xs ->
  st_heap s !! hd_ev_totals hd = Some hs ->
  cur <> hd_ev_totals hd ->
  last hs = Some lv ->
  exists ws,
    for_each months (forecast_step model hd enc base latest cur) s
    = (Ok tt, state_after s cur
                (run_view model enc base latest lv (view_of s xs) months) ws).
Proof.
  induction months as [|month months IH]; intros s xs Hcur Hhist Hne Hlast.
  - exists (st_warnings s). cbn. unfold retM, state_after, view_of. cbn.
    rewrite (list_insert_id _ _ _ Hcur). now destruct s.
  - destruct (forecast_step_run model hd enc base latest cur month s xs hs lv
                Hcur Hhist Hlast) as [ws1 Hstep].
    cbn [for_each run_view foldl].
    rewrite (bindM_ok _ _ _ _ _ Hstep).
    set (v1 := step_view model enc base latest lv (view_of s xs) month) in *.
    set (s1 := state_after s cur v1 ws1).
    assert (Hcur1 : st_heap s1 !! cur = Some (v_current v1)).
    { subst s1. unfold state_after. cbn [st_heap].
      apply list_lookup_insert_eq. now apply lookup_lt_Some in Hcur. }
    assert (Hhist1 : st_heap s1 !! hd_ev_totals hd = Some hs).
    { subst s1. unfold state_after. cbn [st_heap].
      now rewrite list_lookup_insert_ne. }
    destruct (IH s1 (v_current v1) Hcur1 Hhist1 Hne Hlast) as [ws2 Hrest].
    exists ws2. rewrite Hrest. f_equal.
    replace (view_of s1 (v_current v1)) with v1 by (now destruct v1).
    unfold state_after, run_view. subst s1. unfold state_after. cbn [st_heap].
    now rewrite list_insert_insert_eq.
Qed.

(** ** The whole call, as a function *)

Lemma latest_and_base_run env dates s :
  try_except
    (earliest_date <- lift (csv_earliest_date env);
     latest_date <- lift (py_max_date dates);
     retM (latest_date, months_between latest_date earliest_date))
    (fun _ =>
     latest_date <- lift (py_max_date dates);
     let start_date := datetime 2018 1 1 in
     retM (latest_date, months_between latest_date start_date)) s
  = (latest_and_base env dates, s).
Proof.
  unfold latest_and_base, try_except, bindM, lift, retM, res_try.
  destruct (csv_earliest_date env), (py_max_date dates); reflexivity.
Qed.

Lemma generate_forecast_run env county_name county_data model months s
    info enc hs lv latest base :
  county_data !! county_name = Some info ->
  encoding_of env county_name = Some enc ->
  st_heap s !! hd_ev_totals (ci_historical_data info) = Some hs ->
  last hs = Some lv ->
  latest_and_base env (hd_dates (ci_historical_data info)) = Ok (latest, base) ->
  exists ws,
    generate_forecast env county_name county_data (Some model) months s
    = (Ok (forecast_result_of env county_name info model months enc hs lv latest base),
       let v := run_view model enc base latest lv (mkView hs [] [])
                  (py_range 1 (months + 1)) in
       mkState (st_heap s ++ [hs; v_current v]) (v_predictions v) (v_dates v) ws
               (st_errors s)).
Proof.
  intros Hinfo Henc Hhist Hlast Hbase.
  unfold generate_forecast, get_county_info.
  rewrite Hinfo.
  set (hd := ci_historical_data info) in *.
  pose proof (lookup_lt_Some _ _ _ Hhist) as Hlt.
  set (v := run_view model enc base latest lv (mkView hs [] [])
              (py_range 1 (months + 1))).
  (* the two copies *)
  set (s1 := mkState (st_heap s ++ [hs]) (st_predictions s)
               (st_prediction_dates s) (st_warnings s) (st_errors s)).
  set (s2 := mkState (st_heap s ++ [hs]) [] [] (st_warnings s) (st_errors s)).
  set (s3 := mkState ((st_heap s ++ [hs]) ++ [hs]) [] [] (st_warnings s)
               (st_errors s)).
  assert (Hcopy2 : list_copy (length (st_heap s)) s2
                   = (Ok (S (length (st_heap s))), s3)).
  { rewrite (list_copy_run _ _ hs).
    - cbn [st_heap s2]. rewrite length_app. cbn [length].
      now replace (length (st_heap s) + 1)%nat with (S (length (st_heap s))) by lia.
    - cbn [st_heap s2]. now rewrite list_lookup_middle. }
  (* the loop *)
  assert (Hcur : st_heap s3 !! S (length (st_heap s)) = Some hs).
  { cbn [st_heap s3]. rewrite lookup_app_r; rewrite length_app; cbn [length]; [|lia].
    now replace (S (length (st_heap s)) - (length (st_heap s) + 1))%nat with 0%nat by lia. }
  assert (Hhist3 : st_heap s3 !! hd_ev_totals hd = Some hs).
  { cbn [st_heap s3]. rewrite <- app_assoc. now rewrite lookup_app_l. }
  destruct (for_each_forecast_step_run model hd enc base latest
              (S (length (st_heap s))) lv hs (py_range 1 (months + 1)) s3 hs
              Hcur Hhist3 ltac:(lia) Hlast) as [ws Hloop].
  change (view_of s3 hs) with (mkView hs [] []) in Hloop. fold v in Hloop.
  set (s4 := state_after s3 (S (length (st_heap s))) v ws) in *.
  assert (Hhist4 : st_heap s4 !! hd_ev_totals hd = Some hs).
  { subst s4. unfold state_after. cbn [st_heap].
    rewrite list_lookup_insert_ne by lia. exact Hhist3. }
  exists ws. apply try_except_ok.
  rewrite (bindM_ok _ _ _ _ _ (list_copy_run _ _ _ Hhist)). fold s1.
  rewrite (bindM_ok _ _ _ _ _ (get_county_encoding_Some _ _ _ s1 Henc)).
  pose proof (latest_and_base_run env (hd_dates hd) s1) as Hb.
  rewrite Hbase in Hb. rewrite (bindM_ok _ _ _ _ _ Hb).
  unfold bindM at 1, set_predictions at 1.
  unfold bindM at 1, set_prediction_dates at 1.
  cbn [st_heap st_predictions st_prediction_dates st_warnings st_errors s1].
  fold s2.
  rewrite (bindM_ok _ _ _ _ _ Hcopy2).
  rewrite (bindM_ok _ _ _ _ _ Hloop).
  rewrite (bindM_ok _ _ _ _ _ (list_read_run _ _ _ Hhist4)).
  unfold bindM at 1. rewrite lift_run, (py_index_last _ _ Hlast).
  unfold bindM at 1, get_predictions at 1.
  unfold bindM at 1, get_prediction_dates at 1.
  assert (Htg : (if bool_decide (st_predictions s4 ≠ [])
                 then last ← py_index (st_predictions s4) (-1); Ok (last - lv)
                 else Ok 0)
                = Ok (match last (v_predictions v) with
                      | Some p => p - lv | None => 0 end)).
  { cbn [s4 state_after st_predictions].
    destruct (last (v_predictions v)) as [p|] eqn:Hp.
    - rewrite bool_decide_true by (intros H; rewrite H in Hp; discriminate).
      now rewrite (py_index_last _ _ Hp).
    - apply last_None in Hp. rewrite Hp.
      now rewrite bool_decide_false by (intros H; now apply H). }
  unfold bindM at 1. rewrite lift_run, Htg.
  set (tg := match last (v_predictions v) with Some p => p - lv | None => 0 end).
  assert (Havg : (if (0 <? months)%Z then py_div tg (inject_Z months) else Ok 0)
                 = Ok (if (0 <? months)%Z then tg / inject_Z months else 0)).
  { destruct (0 <? months)%Z eqn:E; [|reflexivity].
    apply py_div_nonzero. apply Z.ltb_lt in E.
    intros H. unfold Qeq in H. simpl in H. lia. }
  unfold bindM at 1. rewrite lift_run, Havg.
  assert (Hpct : (if Qltb 0 lv then q ← py_div tg lv; Ok (q * 100) else Ok 0)
                 = Ok (if Qltb 0 lv then tg / lv * 100 else 0)).
  { destruct (Qltb 0 lv) eqn:E; [|reflexivity].
    apply Qltb_lt in E. rewrite py_div_nonzero by lra. reflexivity. }
  unfold bindM at 1. rewrite lift_run, Hpct.
  unfold retM, forecast_result_of. fold v tg.
  f_equal. subst s4. unfold state_after. cbn [st_heap s3]. f_equal.
  rewrite <- app_assoc. cbn [app].
  rewrite insert_app_r_alt by lia.
  now replace (S (length (st_heap s)) - length (st_heap s))%nat with 1%nat by lia.
Qed.

(** ** Lengths and dates (C1) *)

Section RunView.
Variables (model : Model) (enc base : Z) (latest : Date) (lv : Q).

Lemma run_view_snoc v months month :
  run_view model enc base latest lv v (months ++ [month])
  = step_view model enc base latest lv
      (run_view model enc base latest lv v months) month.
Proof. unfold run_view. now rewrite foldl_app. Qed.

Lemma step_view_dates v month :
  v_dates (step_view model enc base latest lv v month)
  = v_dates v ++ [add_days latest (30 * month)].
Proof. unfold step_view. now destruct (step_attempt _ _ _ _ _ _). Qed.

Lemma step_view_predictions_length v month :
  length (v_predictions (step_view model enc base latest lv v month))
  = S (length (v_predictions v)).
Proof.
  unfold step_view.
  destruct (step_attempt _ _ _ _ _ _); cbn; rewrite length_app; cbn; lia.
Qed.

Lemma run_view_dates months : forall v,
  v_dates (run_view model enc base latest lv v months)
  = v_dates v ++ ((fun m => add_days latest (30 * m)) <$> months).
Proof.
  induction months as [|m months IH]; intros v; cbn.
  - now rewrite app_nil_r.
  - unfold run_view in IH. rewrite IH, step_view_dates.
    now rewrite <- app_assoc.
Qed.

Lemma run_view_predictions_length months : forall v,
  length (v_predictions (run_view model enc base latest lv v months))
  = (length (v_predictions v) + length months)%nat.
Proof.
  induction months as [|m months IH]; intros v; cbn.
  - lia.
  - unfold run_view in IH. rewrite IH, step_view_predictions_length. lia.
Qed.
End RunView.

Lemma latest_and_base_nonempty env dates :
  dates <> [] ->
  exists latest base,
    py_max_date dates = Ok latest /\
    latest_and_base env dates = Ok (latest, base).
Proof.
  intros Hne. destruct dates as [|d ds]; [done|].
  unfold latest_and_base, res_try. cbn [py_max_date].
  destruct (csv_earliest_date env); cbn; eauto.
Qed.

(** C1. For every county present in the data and in the encoding table
    whose history has at least 3 points, every model ([Some model]) and every
    horizon [forecast_months >= 1], [generate_forecast] returns a result; its
    [predicted_values] and [prediction_dates] both have [forecast_months]
    entries; the date of step [k] is the latest historical date plus [30 * k]
    days, so consecutive dates are 30 days apart and strictly increasing.
    This holds for every model, hence on the normal and on the fallback path.
    The latest historical date is [max(dates)], the last date of a
    chronologically sorted history. *)
Theorem generate_forecast_length_and_dates
    (env : Env) (county_name : string) (county_data : gmap string CountyInfo)
    (model : Model) (forecast_months : Z) (s : pystate)
    (info : CountyInfo) (enc : Z) (hs : list Q) :
  county_data !! county_name = Some info ->
  encoding_of env county_name = Some enc ->
  st_heap s !! hd_ev_totals (ci_historical_data info) = Some hs ->
  (3 <= length hs)%nat ->
  (3 <= length (hd_dates (ci_historical_data info)))%nat ->
  (1 <= forecast_months)%Z ->
  exists r s',
    generate_forecast env county_name county_data (Some model) forecast_months s
    = (Ok r, s') /\
    length (fr_predicted_values r) = Z.to_nat forecast_months /\
    length (fr_prediction_dates r) = Z.to_nat forecast_months /\
    py_max_date (hd_dates (ci_historical_data info))
    = Ok (fr_latest_historical_date r) /\
    (StronglySorted Z.le (hd_dates (ci_historical_data info)) ->
     last (hd_dates (ci_historical_data info))
     = Some (fr_latest_historical_date r)) /\
    (forall k, (1 <= k <= forecast_months)%Z ->
       fr_prediction_dates r !! Z.to_nat (k - 1)
       = Some (fr_latest_historical_date r + 30 * k)%Z) /\
    (forall i d d',
       fr_prediction_dates r !! i = Some d ->
       fr_prediction_dates r !! S i = Some d' ->
       d' = (d + 30)%Z /\ (d < d')%Z).
Proof.
  intros Hinfo Henc Hhist Hlen Hdates Hmonths.
  destruct (last hs) as [lv|] eqn:Hlast;
    [|apply last_None in Hlast; subst hs; cbn in Hlen; lia].
  destruct (latest_and_base_nonempty env (hd_dates (ci_historical_data info)))
    as (latest & base & Hmax & Hbase).
  { intros H. rewrite H in Hdates. cbn in Hdates. lia. }
  destruct (generate_forecast_run env county_name county_data model
              forecast_months s info enc hs lv latest base
              Hinfo Henc Hhist Hlast Hbase) as [ws Hrun].
  eexists _, _. split; [exact Hrun|].
  unfold forecast_result_of.
  cbn [fr_predicted_values fr_prediction_dates fr_latest_historical_date].
  rewrite run_view_predictions_length, run_view_dates.
  cbn [v_predictions v_dates length app]. unfold py_range.
  rewrite length_fmap, length_seqZ.
  replace (forecast_months + 1 - 1)%Z with forecast_months by lia.
  assert (Hk : forall i d,
            ((fun m => add_days latest (30 * m)) <$> seqZ 1 forecast_months) !! i
            = Some d ->
            d = (latest + 30 * (1 + Z.of_nat i))%Z /\
            (Z.of_nat i < forecast_months)%Z).
  { intros i d Hi. rewrite list_lookup_fmap in Hi.
    destruct (seqZ 1 forecast_months !! i) as [m|] eqn:Hm; [|discriminate].
    apply lookup_seqZ in Hm as [-> Hlt]. injection Hi as <-.
    unfold add_days. split; lia. }
  split; [reflexivity|]. split; [reflexivity|]. split; [exact Hmax|].
  split; [intros Hs; now apply py_max_date_sorted|].
  split.
  - intros k Hk'. rewrite list_lookup_fmap.
    rewrite lookup_seqZ_lt by lia. cbn. unfold add_days. f_equal. lia.
  - intros i d d' Hd Hd'.
    apply Hk in Hd as [-> _]. apply Hk in Hd' as [-> _]. lia.
Qed.

(** ** The percentage-change features (C7) *)

Lemma pct_change_code_spec (v : list Q) (k : nat) :
  (1 <= length v)%nat ->
  pct_change_code v (Z.of_nat (S k)) = Ok (spec_pct_change k v).
Proof.
  intros Hv. unfold pct_change_code, spec_pct_change.
  destruct (Z.of_nat (S k) <=? Z.of_nat (length v))%Z eqn:Hlen.
  - apply Z.leb_le in Hlen.
    replace (k + 1 <=? length v)%nat with true
      by (symmetry; apply Nat.leb_le; lia).
    rewrite !(py_index_neg_nth v (S k)) by lia.
    change (-1)%Z with (- Z.of_nat 1)%Z. rewrite (py_index_neg_nth v 1) by lia.
    replace (length v - S k)%nat with (length v - 1 - k)%nat by lia.
    cbn [mbind res_bind andb].
    destruct (Qeq_bool (nth (length v - 1 - k) v 0) 0) eqn:Hz; cbn [negb].
    + reflexivity.
    + cbn [mbind res_bind]. apply py_div_nonzero. intros H.
      apply Qeq_bool_iff in H. congruence.
  - apply Z.leb_gt in Hlen.
    replace (k + 1 <=? length v)%nat with false
      by (symmetry; apply Nat.leb_gt; lia).
    reflexivity.
Qed.

Lemma pct_change_1_code (v : list Q) :
  (1 <= length v)%nat -> pct_change_code v 2 = Ok (spec_pct_change 1 v).
Proof. apply (pct_change_code_spec v 1). Qed.

Lemma pct_change_3_code (v : list Q) :
  (1 <= length v)%nat -> pct_change_code v 4 = Ok (spec_pct_change 3 v).
Proof. apply (pct_change_code_spec v 3). Qed.

Lemma loop_model_input_total (m e : Z) (v : list Q) :
  (3 <= length v)%nat ->
  exists mi, loop_model_input m e v = Ok mi /\
    in_ev_total_lag1 mi = nth (length v - 1) v 0 /\
    in_ev_total_pct_change_1 mi = spec_pct_change 1 v /\
    in_ev_total_pct_change_3 mi = spec_pct_change 3 v.
Proof.
  intros Hv. unfold loop_model_input.
  pose proof (pct_change_1_code v ltac:(lia)) as H1.
  pose proof (pct_change_3_code v ltac:(lia)) as H3.
  unfold pct_change_code in H1, H3.
  change (- (2))%Z with (-2)%Z in H1. change (- (4))%Z with (-4)%Z in H3.
  rewrite H1, H3.
  destruct (py_index_lags v Hv) as (-> & -> & ->). cbn [mbind res_bind].
  eexists. split; [reflexivity|]. now cbn.
Qed.

Lemma feature_engineering_body_total (v : list Q) :
  (3 <= length v)%nat ->
  exists fv, feature_engineering_body v = Ok fv /\
    ev_total_pct_change_1 fv = spec_pct_change 1 v /\
    ev_total_pct_change_3 fv = spec_pct_change 3 v.
Proof.
  intros Hv. unfold feature_engineering_body.
  pose proof (pct_change_1_code v ltac:(lia)) as H1.
  pose proof (pct_change_3_code v ltac:(lia)) as H3.
  unfold pct_change_code in H1, H3.
  change (- (2))%Z with (-2)%Z in H1. change (- (4))%Z with (-4)%Z in H3.
  rewrite H1, H3.
  replace (Z.of_nat (length v) <? 3)%Z with false
    by (symmetry; apply Z.ltb_ge; lia).
  replace (1 <=? Z.of_nat (length v))%Z with true
    by (symmetry; apply Z.leb_le; lia).
  replace (2 <=? Z.of_nat (length v))%Z with true
    by (symmetry; apply Z.leb_le; lia).
  replace (3 <=? Z.of_nat (length v))%Z with true
    by (symmetry; apply Z.leb_le; lia).
  destruct (py_index_lags v Hv) as (-> & -> & ->). cbn [mbind res_bind].
  eexists. split; [reflexivity|]. now cbn.
Qed.

(** C7. For every series [v] of length [n >= 3], both places that engineer
    the features ([calculate_feature_engineering_values], and the loop of
    [generate_forecast] through [loop_model_input]) return normally, with
    [pct_change_1 = (v[n-1] - v[n-2]) / v[n-2]] if [v[n-2] != 0] else [0] and
    [pct_change_3 = (v[n-1] - v[n-4]) / v[n-4]] if [n >= 4] and [v[n-4] != 0]
    else [0].  A division by zero would raise ([py_div]); none is raised. *)
Theorem pct_change_features_safe
    (v : list Q) (hd : HistoricalData) (s : pystate) (m e : Z) :
  (3 <= length v)%nat ->
  st_heap s !! hd_ev_totals hd = Some v ->
  exists fv mi,
    calculate_feature_engineering_values hd s = (Ok fv, s) /\
    loop_model_input m e v = Ok mi /\
    ev_total_pct_change_1 fv = spec_pct_change 1 v /\
    ev_total_pct_change_3 fv = spec_pct_change 3 v /\
    in_ev_total_pct_change_1 mi = spec_pct_change 1 v /\
    in_ev_total_pct_change_3 mi = spec_pct_change 3 v.
Proof.
  intros Hv Hheap.
  destruct (feature_engineering_body_total v Hv) as (fv & Hfv & Hp1 & Hp3).
  destruct (loop_model_input_total m e v Hv) as (mi & Hmi & _ & Hq1 & Hq3).
  exists fv, mi. repeat split; try assumption.
  unfold calculate_feature_engineering_values, try_except, bindM.
  rewrite (list_read_run _ _ _ Hheap), lift_run. now rewrite Hfv.
Qed.

(** ** The stability guard (C3, C4) *)

Lemma fl_max_Fin a b : fl_max (Fin a) (Fin b) = Fin (py_max a b).
Proof. unfold fl_max, py_max, fl_ltb. now destruct (Qltb a b). Qed.

Lemma adjust_prediction_first xs cur raw :
  last xs = Some cur ->
  adjust_prediction xs [] (Fin raw)
  = Ok (py_max 0.1 (spec_first_step_guard cur raw)).
Proof.
  intros Hlast. unfold adjust_prediction, spec_first_step_guard. cbn [length].
  cbn [Z.of_nat Z.eqb Z.ltb Z.compare]. rewrite (py_index_last _ _ Hlast).
  cbn [mbind res_bind fl_ltb].
  destruct (Qltb raw (cur * 0.7)); [reflexivity|].
  destruct (Qltb (cur * 1.5) raw); reflexivity.
Qed.

Lemma adjust_prediction_later xs ps prev raw :
  last ps = Some prev ->
  adjust_prediction xs ps (Fin raw)
  = Ok (py_max 0.1 (py_max (spec_later_step_guard prev raw) (prev * 1.01))).
Proof.
  intros Hlast. unfold adjust_prediction, spec_later_step_guard.
  assert (Hlen : (0 < length ps)%nat)
    by (destruct ps; [discriminate|cbn; lia]).
  replace (Z.of_nat (length ps) =? 0)%Z with false
    by (symmetry; apply Z.eqb_neq; lia).
  replace (0 <? Z.of_nat (length ps))%Z with true
    by (symmetry; apply Z.ltb_lt; lia).
  rewrite (py_index_last _ _ Hlast). cbn [mbind res_bind fl_ltb].
  destruct (Qltb raw (prev * 0.8));
    [cbn [mbind res_bind]; now rewrite fl_max_Fin|].
  destruct (Qltb (prev * 1.3) raw); cbn [mbind res_bind];
    now rewrite fl_max_Fin.
Qed.

(** A NaN answer fails every comparison, passes through [max(NaN, .)] and is
    replaced by [max(0.1, NaN)]. *)
Lemma adjust_prediction_first_NaN xs cur :
  last xs = Some cur -> adjust_prediction xs [] NaN = Ok 0.1.
Proof.
  intros Hlast. unfold adjust_prediction. cbn [length].
  cbn [Z.of_nat Z.eqb Z.ltb Z.compare]. rewrite (py_index_last _ _ Hlast).
  reflexivity.
Qed.

Lemma adjust_prediction_later_NaN xs ps prev :
  last ps = Some prev -> adjust_prediction xs ps NaN = Ok 0.1.
Proof.
  intros Hlast. unfold adjust_prediction.
  assert (Hlen : (0 < length ps)%nat)
    by (destruct ps; [discriminate|cbn; lia]).
  replace (Z.of_nat (length ps) =? 0)%Z with false
    by (symmetry; apply Z.eqb_neq; lia).
  replace (0 <? Z.of_nat (length ps))%Z with true
    by (symmetry; apply Z.ltb_lt; lia).
  rewrite (py_index_last _ _ Hlast). reflexivity.
Qed.

Lemma adjust_prediction_bounds xs ps raw q :
  adjust_prediction xs ps raw = Ok q ->
  0.1 <= q /\
  (raw <> NaN -> forall p, last ps = Some p -> p * 1.01 <= q).
Proof.
  intros Hq. destruct raw as [raw|].
  - destruct (last ps) as [prev|] eqn:Hlast.
    + rewrite (adjust_prediction_later _ _ _ _ Hlast) in Hq. injection Hq as <-.
      split; [apply py_max_ge_l|]. intros _ p [= <-].
      eapply Qle_trans; [apply (py_max_ge_r (spec_later_step_guard prev raw))|].
      apply py_max_ge_r.
    + split; [|discriminate]. apply last_None in Hlast. subst ps.
      destruct (last xs) as [cur|] eqn:Hx.
      * rewrite (adjust_prediction_first _ _ _ Hx) in Hq. injection Hq as <-.
        apply py_max_ge_l.
      * apply last_None in Hx. subst xs. discriminate.
  - split; [|congruence].
    destruct (last ps) as [prev|] eqn:Hlast.
    + rewrite (adjust_prediction_later_NaN _ _ _ Hlast) in Hq.
      injection Hq as <-. lra.
    + apply last_None in Hlast. subst ps.
      destruct (last xs) as [cur|] eqn:Hx.
      * rewrite (adjust_prediction_first_NaN _ _ Hx) in Hq.
        injection Hq as <-. lra.
      * apply last_None in Hx. subst xs. discriminate.
Qed.

Lemma step_attempt_bounds model enc base month xs ps q :
  step_attempt model enc base month xs ps = Ok q ->
  0.1 <= q /\
  ((forall x, predict model x <> Ok NaN) ->
   forall p, last ps = Some p -> p * 1.01 <= q).
Proof.
  unfold step_attempt. destruct (3 <=? Z.of_nat (length xs))%Z; [|discriminate].
  destruct (loop_model_input _ _ _) as [mi|]; [|discriminate]. cbn [mbind res_bind].
  destruct (predict model mi) as [raw|] eqn:Hraw; [|discriminate].
  cbn [mbind res_bind]. intros Hq.
  destruct (adjust_prediction_bounds _ _ _ _ Hq) as [Hfloor Hprev].
  split; [exact Hfloor|]. intros Hnan. apply Hprev.
  intros ->. exact (Hnan mi Hraw).
Qed.

(** A step on the normal path: the working series has at least 3 values and
    the model answers [raw]. *)
Lemma forecast_step_normal model hd enc base latest cur month s xs raw :
  st_heap s !! cur = Some xs ->
  (3 <= length xs)%nat ->
  (forall mi, loop_model_input (base + month) enc xs = Ok mi ->
              predict model mi = Ok raw) ->
  forecast_step model hd enc base latest cur month s
  = match adjust_prediction xs (st_predictions s) raw with
    | Ok p => (Ok tt, mkState (<[cur := xs ++ [p]]> (st_heap s))
                              (st_predictions s ++ [p])
                              (st_prediction_dates s ++ [add_days latest (30 * month)])
                              (st_warnings s) (st_errors s))
    | Raise e => forecast_except hd latest month e s
    end.
Proof.
  intros Hcur Hlen Hraw. unfold forecast_step, try_except.
  rewrite (forecast_try_run _ _ _ _ _ _ _ _ Hcur). unfold step_attempt.
  replace (3 <=? Z.of_nat (length xs))%Z with true
    by (symmetry; apply Z.leb_le; lia).
  destruct (loop_model_input_total (base + month) enc xs Hlen) as (mi & Hmi & _).
  rewrite Hmi. cbn [mbind res_bind]. rewrite (Hraw mi Hmi). cbn [mbind res_bind].
  now destruct (adjust_prediction xs (st_predictions s) raw).
Qed.

Lemma spec_first_step_guard_cases cur raw :
  (raw < cur * 0.7 -> spec_first_step_guard cur raw = cur * 0.95) /\
  (~ raw < cur * 0.7 -> cur * 1.5 < raw ->
   spec_first_step_guard cur raw = cur * 1.1) /\
  (~ raw < cur * 0.7 -> ~ cur * 1.5 < raw ->
   spec_first_step_guard cur raw = raw).
Proof.
  unfold spec_first_step_guard. repeat split.
  - intros H. apply Qltb_lt in H. now rewrite H.
  - intros H1 H2.
    destruct (Qltb raw (cur * 0.7)) eqn:E; [apply Qltb_lt in E; contradiction|].
    apply Qltb_lt in H2. now rewrite H2.
  - intros H1 H2.
    destruct (Qltb raw (cur * 0.7)) eqn:E; [apply Qltb_lt in E; contradiction|].
    destruct (Qltb (cur * 1.5) raw) eqn:E'; [apply Qltb_lt in E'; contradiction|].
    reflexivity.
Qed.


(** C3 (amended). On the first step (no prior prediction), on the normal
    path, with [cur] the last value of the working series and [answer] what
    the regressor answers.  When the answer is a number [raw], the accepted
    value is [max(0.1, g)] where [g] is [0.95*cur] if [raw < 0.7*cur], else
    [1.1*cur] if [raw > 1.5*cur], else [raw]; it is [g] itself whenever
    [g >= 0.1].  For [cur = 100]: [raw = 50] gives 95 and [raw = 200] gives
    110.  When the answer is NaN, both comparisons fail and [max(0.1, NaN)]
    records 0.1.  Either way the step is not a fallback: nothing is warned
    and the accepted value joins the working series. *)
Theorem first_step_guard
    (model : Model) (hd : HistoricalData) (enc base : Z) (latest : Date)
    (current_ev_totals : loc) (month : Z) (s : pystate)
    (xs : list Q) (cur : Q) (answer : pyfloat) :
  st_heap s !! current_ev_totals = Some xs ->
  (3 <= length xs)%nat ->
  last xs = Some cur ->
  st_predictions s = [] ->
  (forall mi, loop_model_input (base + month) enc xs = Ok mi ->
              predict model mi = Ok answer) ->
  exists accepted s',
    forecast_step model hd enc base latest current_ev_totals month s
    = (Ok tt, s') /\
    st_predictions s' = [accepted] /\
    st_heap s' !! current_ev_totals = Some (xs ++ [accepted]) /\
    st_warnings s' = st_warnings s /\
    (forall raw, answer = Fin raw ->
       accepted = py_max 0.1 (spec_first_step_guard cur raw) /\
       (0.1 <= spec_first_step_guard cur raw ->
        accepted == spec_first_step_guard cur raw) /\
       (raw < cur * 0.7 -> spec_first_step_guard cur raw = cur * 0.95) /\
       (~ raw < cur * 0.7 -> cur * 1.5 < raw ->
        spec_first_step_guard cur raw = cur * 1.1) /\
       (~ raw < cur * 0.7 -> ~ cur * 1.5 < raw ->
        spec_first_step_guard cur raw = raw) /\
       (cur == 100 -> raw == 50 -> accepted == 95) /\
       (cur == 100 -> raw == 200 -> accepted == 110)) /\
    (answer = NaN -> accepted = 0.1).
Proof.
  intros Hcur Hlen Hlast Hps Hraw.
  rewrite (forecast_step_normal _ _ _ _ _ _ _ _ _ _ Hcur Hlen Hraw).
  rewrite Hps.
  assert (Hins : forall p : Q,
            <[current_ev_totals := xs ++ [p]]> (st_heap s) !! current_ev_totals
            = Some (xs ++ [p])).
  { intros p. apply list_lookup_insert_eq. now apply lookup_lt_Some in Hcur. }
  destruct answer as [raw|].
  - rewrite (adjust_prediction_first _ _ _ Hlast).
    eexists _, _. split; [reflexivity|].
    cbn [st_predictions st_heap st_warnings app].
    split; [reflexivity|]. split; [apply Hins|]. split; [reflexivity|].
    split; [|discriminate]. intros raw' [= <-].
    destruct (spec_first_step_guard_cases cur raw) as (Hlt & Hgt & Hmid).
    split; [reflexivity|]. repeat split; try assumption.
    + apply py_max_floor_id.
    + intros Hc Hr. rewrite py_max_floor_id; rewrite Hlt; lra.
    + intros Hc Hr. rewrite py_max_floor_id; rewrite Hgt; lra.
  - rewrite (adjust_prediction_first_NaN _ _ Hlast).
    eexists _, _. split; [reflexivity|].
    cbn [st_predictions st_heap st_warnings app].
    split; [reflexivity|]. split; [apply Hins|]. split; [reflexivity|].
    split; [discriminate|reflexivity].
Qed.


(** ** Positivity and growth of the predictions (C5, C10) *)




Section Positive.
Variables (model : Model) (enc base : Z) (latest : Date) (lv : Q).
Hypothesis lv_pos : 0 < lv.

Lemma step_view_positive v month :
  Forall (fun p => 0 < p) (v_predictions v) ->
  Forall (fun p => 0 < p)
    (v_predictions (step_view model enc base latest lv v month)).
Proof.
  intros Hpos. unfold step_view.
  destruct (step_attempt model enc base month (v_current v) (v_predictions v))
    as [q|e] eqn:Hstep; cbn [v_predictions]; apply Forall_app;
    (split; [exact Hpos|]); repeat constructor.
  - destruct (step_attempt_bounds _ _ _ _ _ _ _ Hstep) as [Hfloor _]. lra.
  - unfold fallback_value.
    destruct (last (v_predictions v)) as [p|] eqn:Hlast; [|lra].
    rewrite Forall_forall in Hpos.
    pose proof (Hpos p (last_Some_elem_of _ _ Hlast)). lra.
Qed.

Lemma run_view_positive months : forall v,
  Forall (fun p => 0 < p) (v_predictions v) ->
  Forall (fun p => 0 < p)
    (v_predictions (run_view model enc base latest lv v months)).
Proof.
  induction months as [|m months IH]; intros v Hpos; [exact Hpos|].
  cbn [run_view foldl]. apply IH. now apply step_view_positive.
Qed.
End Positive.

Section Growth.
Variables (model : Model) (enc base : Z) (latest : Date) (lv : Q).
Hypothesis lv_pos : 0 < lv.
Hypothesis no_nan : forall x, predict model x <> Ok NaN.


End Growth.

Lemma served_run env county_name county_data model months s info hs lv :
  served env county_name county_data s info hs lv ->
  exists enc latest base ws,
    generate_forecast env county_name county_data (Some model) months s
    = (Ok (forecast_result_of env county_name info model months enc hs lv latest base),
       let v := run_view model enc base latest lv (mkView hs [] [])
                  (py_range 1 (months + 1)) in
       mkState (st_heap s ++ [hs; v_current v]) (v_predictions v) (v_dates v) ws
               (st_errors s)).
Proof.
  intros (Hinfo & [enc Henc] & Hhist & Hlast & Hdates).
  destruct (latest_and_base_nonempty env _ Hdates) as (latest & base & _ & Hbase).
  destruct (generate_forecast_run env county_name county_data model months s
              info enc hs lv latest base Hinfo Henc Hhist Hlast Hbase) as [ws Hrun].
  now exists enc, latest, base, ws.
Qed.


(** Over the whole call, for a regressor that never answers NaN: every
    prediction after the first satisfies the 1% floor with respect to the
    one before it, unless it is a fallback value. *)
Lemma run_view_floor_or_fallback model enc base latest lv months :
  (forall x, predict model x <> Ok NaN) ->
  forall v,
  (forall k p q, v_predictions v !! k = Some p ->
                 v_predictions v !! S k = Some q -> floor_or_fallback p q) ->
  forall k p q,
    v_predictions (run_view model enc base latest lv v months) !! k = Some p ->
    v_predictions (run_view model enc base latest lv v months) !! S k = Some q ->
    floor_or_fallback p q.
Proof.
  intros Hnan.
  induction months as [|m months IH]; intros v Hv; [exact Hv|].
  cbn [run_view foldl]. apply IH. clear IH.
  assert (Hsnoc : forall x,
            (forall p, last (v_predictions v) = Some p -> floor_or_fallback p x) ->
            forall k p q, (v_predictions v ++ [x]) !! k = Some p ->
                          (v_predictions v ++ [x]) !! S k = Some q ->
                          floor_or_fallback p q).
  { intros x Hx k p q Hp Hq.
    apply lookup_snoc_Some in Hq as [[Hlt Hq]|[Hk <-]].
    - rewrite lookup_app_l in Hp by lia. now apply (Hv k).
    - rewrite lookup_app_l in Hp by lia. apply Hx.
      rewrite last_lookup. now replace (pred (length (v_predictions v))) with k by lia. }
  unfold step_view.
  destruct (step_attempt model enc base m (v_current v) (v_predictions v))
    as [x|e] eqn:Hstep; cbn [v_predictions]; apply Hsnoc.
  - intros p Hp. left.
    now apply (step_attempt_bounds _ _ _ _ _ _ _ Hstep).
  - intros p Hp. right. unfold fallback_value. now rewrite Hp.
Qed.

Lemma predictions_floor_or_fallback
    env county_name county_data model months s info hs lv :
  served env county_name county_data s info hs lv ->
  (forall x, predict model x <> Ok NaN) ->
  exists r s',
    generate_forecast env county_name county_data (Some model) months s
    = (Ok r, s') /\
    forall k p q,
      fr_predicted_values r !! k = Some p ->
      fr_predicted_values r !! S k = Some q ->
      floor_or_fallback p q.
Proof.
  intros Hserved Hnan.
  destruct (served_run env county_name county_data model months s
              info hs lv Hserved) as (enc & latest & base & ws & Hrun).
  eexists _, _. split; [exact Hrun|].
  unfold forecast_result_of. cbn [fr_predicted_values].
  apply run_view_floor_or_fallback; [exact Hnan|]. intros k p q H. discriminate.
Qed.

(** C5 (amended). For every served request whose last historical value is
    strictly positive, whatever the model does and whatever the horizon,
    every value of [predicted_values] is strictly positive, fallback steps
    included. *)
Theorem predictions_positive
    (env : Env) (county_name : string) (county_data : gmap string CountyInfo)
    (model : Model) (forecast_months : Z) (s : pystate)
    (info : CountyInfo) (hs : list Q) (lv : Q) :
  served env county_name county_data s info hs lv ->
  0 < lv ->
  exists r s',
    generate_forecast env county_name county_data (Some model) forecast_months s
    = (Ok r, s') /\
    Forall (fun p => 0 < p) (fr_predicted_values r).
Proof.
  intros Hserved Hlv.
  destruct (served_run env county_name county_data model forecast_months s
              info hs lv Hserved) as (enc & latest & base & ws & Hrun).
  eexists _, _. split; [exact Hrun|].
  unfold forecast_result_of. cbn [fr_predicted_values].
  apply (run_view_positive model enc base latest lv Hlv). constructor.
Qed.


(** ** The code at concrete requests *)

Example datetime_round_trip :
  civil_from_days (datetime 2024 2 29) = (2024, 2, 29)%Z /\
  civil_from_days (datetime 2018 1 1) = (2018, 1, 1)%Z /\
  datetime 1970 1 1 = 0%Z.
Proof. repeat split. Qed.

Example ex_base_months :
  months_between (datetime 2024 3 31) (datetime 2018 1 1) = ex_base.
Proof. reflexivity. Qed.

(** The end-to-end example of the spec: history 1000, 1050, 1100, two
    months, answers 1150 and 1300. *)
Example spec_end_to_end :
  exists r s',
    generate_forecast (ex_env 0) "King" ex_data (Some ex_model) 2
      (ex_state [1000; 1050; 1100]) = (Ok r, s') /\
    fr_predicted_values r = [1150; 1300] /\
    fr_prediction_dates r
    = [(datetime 2024 3 31 + 30)%Z; (datetime 2024 3 31 + 60)%Z].
Proof. eexists _, _. split; [vm_compute; reflexivity|]. now vm_compute. Qed.

(** C2, evaluated.  A county with a 2-point history, horizon 2: the call
    returns a result made of two fallback values, 20 * 1.01 and then that
    times 1.02; the "insufficient data" error raised in the loop body is
    caught by the loop's own handler and only shown as a warning.  On the
    same data [calculate_feature_engineering_values] does raise. *)
Theorem short_history_returns_fallback_forecast :
  (exists r s',
     generate_forecast (ex_env 0) "King" ex_data2 (Some ex_model) 2
       (ex_state [10; 20]) = (Ok r, s') /\
     Forall2 Qeq (fr_predicted_values r) [20.2; 20.604] /\
     st_warnings s'
     = ["Failed to generate prediction for month 1: Insufficient historical data for iterative prediction";
        "Failed to generate prediction for month 2: Insufficient historical data for iterative prediction"]) /\
  calculate_feature_engineering_values (ci_historical_data ex_info2)
    (ex_state [10; 20])
  = (Raise (mkExn ValueError
       "Error calculating feature engineering values: Insufficient historical data for feature engineering (need at least 3 data points)"),
     ex_state [10; 20]).
Proof.
  split; [|reflexivity].
  eexists _, _. split; [vm_compute; reflexivity|].
  split; [|reflexivity]. cbn. repeat constructor.
Qed.

(** C3, counterexample.  History 0, 0, 0, one month, and a regressor
    answering 0: on the first step [raw] is neither below [0.7*cur] nor above
    [1.5*cur], so the claim's accepted value is [raw = 0]; the code records
    0.1. *)
Lemma first_step_guard_counterexample :
  exists r s',
    generate_forecast (ex_env 0) "King" ex_data (Some (const_model 0)) 1
      (ex_state [0; 0; 0]) = (Ok r, s') /\
    fr_predicted_values r = [0.1] /\
    spec_first_step_guard 0 0 = 0 /\
    ~ 0.1 == spec_first_step_guard 0 0.
Proof.
  eexists _, _. split; [vm_compute; reflexivity|].
  split; [reflexivity|]. split; [reflexivity|]. now vm_compute.
Qed.

(** C5, counterexample.  History 5, 3, 0 (non-negative) and a regressor
    that raises: the first step falls back to [0 * 1.01], and the recorded
    prediction is not strictly positive. *)
Lemma predictions_positive_counterexample :
  exists r s',
    generate_forecast (ex_env 0) "King" ex_data (Some failing_model) 1
      (ex_state [5; 3; 0]) = (Ok r, s') /\
    exists p, fr_predicted_values r = [p] /\ ~ 0 < p.
Proof.
  eexists _, _. split; [vm_compute; reflexivity|].
  eexists. split; [reflexivity|]. now vm_compute.
Qed.

(** C6, evaluated.  History 100, 100, 100, horizon 2, a regressor that
    raises on the first month.  After the first step the fallback value 101 is
    in [predictions] but the working series is still 100, 100, 100; so on the
    second month the regressor is shown 100 as the most recent value (it
    answers 110, not 120), and the working series ends as 100, 100, 100, 110,
    which is not the history followed by the accepted predictions. *)
Theorem fallback_value_not_in_working_series :
  (exists s1,
     forecast_step probing_model (ci_historical_data ex_info) 7 ex_base
       (datetime 2024 3 31) 2 1
       (ex_loop_state [100; 100; 100] [100; 100; 100] [] []) = (Ok tt, s1) /\
     Forall2 Qeq (st_predictions s1) [101] /\
     st_heap s1 !! 2%nat = Some [100; 100; 100]) /\
  (exists r s' working,
     generate_forecast (ex_env 0) "King" ex_data (Some probing_model) 2
       (ex_state [100; 100; 100]) = (Ok r, s') /\
     Forall2 Qeq (fr_predicted_values r) [101; 110] /\
     st_heap s' !! 2%nat = Some working /\
     working = [100; 100; 100; 110] /\
     length working <> length ([100; 100; 100] ++ fr_predicted_values r)).
Proof.
  split.
  - eexists. split; [vm_compute; reflexivity|].
    split; [cbn; repeat constructor|reflexivity].
  - eexists _, _, _. split; [vm_compute; reflexivity|].
    split; [cbn; repeat constructor|].
    split; [reflexivity|]. split; [reflexivity|]. cbn. lia.
Qed.

(** C9, counterexample.  The same request served twice, at times 1000 and
    2000, with the same regressor: the two results differ (in
    [metadata.prediction_date]). *)
Lemma forecast_twice_counterexample :
  exists r1 s1 r2 s2,
    generate_forecast (ex_env 1000) "King" ex_data (Some ex_model) 2
      (ex_state [1000; 1050; 1100]) = (Ok r1, s1) /\
    generate_forecast (ex_env 2000) "King" ex_data (Some ex_model) 2 s1
    = (Ok r2, s2) /\
    r1 <> r2.
Proof.
  eexists _, _, _, _. split; [vm_compute; reflexivity|].
  split; [vm_compute; reflexivity|].
  intros H. apply (f_equal (fun r => md_prediction_date (fr_metadata r))) in H.
  discriminate H.
Qed.

(** ** Which calls return *)

Lemma latest_and_base_Ok_inv env dates latest base :
  latest_and_base env dates = Ok (latest, base) -> dates <> [].
Proof.
  intros H ->. unfold latest_and_base, res_try in H.
  destruct (csv_earliest_date env); discriminate.
Qed.

(** A call returns a result only for a served request with a model: the
    preconditions the function enforces are a present model, a county in the
    data and in the encoding table, at least one date and at least one
    historical value. *)
Lemma generate_forecast_Ok_inv env county_name county_data model months s r s' :
  generate_forecast env county_name county_data model months s = (Ok r, s') ->
  exists m info hs lv,
    model = Some m /\ served env county_name county_data s info hs lv.
Proof.
  intros Hbody. unfold generate_forecast in Hbody.
  apply try_except_Ok_inv in Hbody;
    [|intros e s0 a0 s1; now destruct (is_ValueError e)].
  unfold get_county_info in Hbody.
  destruct model as [m|]; [|discriminate].
  destruct (county_data !! county_name) as [info|] eqn:Hinfo; [|discriminate].
  set (hd := ci_historical_data info) in *.
  apply bindM_Ok_inv in Hbody as (ev_totals & s1 & Hcopy & Hrest).
  unfold list_copy in Hcopy.
  apply bindM_Ok_inv in Hcopy as (hs & s1' & Hread & Hcopy).
  unfold list_read in Hread.
  destruct (st_heap s !! hd_ev_totals hd) as [hs'|] eqn:Hhist; [|discriminate].
  injection Hread as <- <-. injection Hcopy as <- <-.
  apply bindM_Ok_inv in Hrest as (county_encoded & s1e & Henc & Hrest).
  rewrite get_county_encoding_run in Henc. injection Henc as <- <-.
  destruct (encoding_of env county_name) as [enc|] eqn:Henc; [|discriminate].
  rewrite (encoding_of_Some _ _ _ Henc), with_errors_nil in Hrest.
  apply bindM_Ok_inv in Hrest as ([latest base] & s2 & Hbase & Hrest).
  rewrite latest_and_base_run in Hbase. injection Hbase as Hbase <-.
  apply latest_and_base_Ok_inv in Hbase.
  apply bindM_Ok_inv in Hrest as (u3 & s3 & Hs3 & Hrest).
  apply bindM_Ok_inv in Hrest as (u4 & s4 & Hs4 & Hrest).
  apply bindM_Ok_inv in Hrest as (cur & s5 & Hs5 & Hrest).
  apply bindM_Ok_inv in Hrest as (u6 & s6 & Hloop & Hrest).
  apply bindM_Ok_inv in Hrest as (historical & s7 & Hread & Hrest).
  apply bindM_Ok_inv in Hrest as (lv & s8 & Hlv & Hrest).
  injection Hs3 as _ <-. injection Hs4 as _ <-.
  unfold list_copy, bindM, list_read in Hs5. cbn [st_heap] in Hs5.
  rewrite list_lookup_middle in Hs5 by reflexivity.
  injection Hs5 as <- <-.
  (* the loop leaves the caller's list alone *)
  pose proof (lookup_lt_Some _ _ _ Hhist) as Hlt.
  match type of Hloop with for_each ?ms ?body ?st = _ =>
    destruct (keeps_for_each (length (st_heap s)) ms body
                ltac:(intros month; apply keeps_forecast_step;
                      rewrite length_app; cbn; lia)
                st ltac:(cbn; rewrite !length_app; cbn; lia)) as [Hlen Htake]
  end.
  rewrite Hloop in Hlen, Htake. cbn [snd st_heap] in Hlen, Htake.
  rewrite <- app_assoc, take_app_length in Htake.
  unfold list_read in Hread.
  assert (Hhist6 : st_heap s6 !! hd_ev_totals hd = Some hs').
  { rewrite <- (take_drop (length (st_heap s)) (st_heap s6)), Htake.
    now rewrite lookup_app_l. }
  rewrite Hhist6 in Hread. injection Hread as <- <-.
  unfold lift in Hlv. injection Hlv as Hlv <-.
  apply py_index_last_inv in Hlv.
  exists m, info, hs', lv. split; [reflexivity|].
  repeat split; try assumption. now exists enc.
Qed.

(** ** Repeated requests (C9) *)

(** C9 (amended). A request made twice in a row with the same county,
    data, horizon and regressor (a function of its input), the second time at
    any clock time [now2] and in the state the first call left: if the first
    call returns a result, so does the second, and the two results are equal
    in every field except [metadata.prediction_date], which holds the clock
    time of each call.  (A call returns exactly for the served requests:
    [served_run], [generate_forecast_Ok_inv].) *)
Theorem forecast_twice_same_up_to_timestamp
    (env : Env) (county_name : string) (county_data : gmap string CountyInfo)
    (model : option Model) (forecast_months : Z) (s : pystate)
    (r1 : ForecastResult) (s1 : pystate) (now2 : Z) :
  generate_forecast env county_name county_data model forecast_months s
  = (Ok r1, s1) ->
  exists r2 s2,
    generate_forecast (at_time env now2) county_name county_data model
      forecast_months s1 = (Ok r2, s2) /\
    without_timestamp r1 = without_timestamp r2 /\
    md_prediction_date (fr_metadata r1) = clock_now env /\
    md_prediction_date (fr_metadata r2) = now2.
Proof.
  intros Hcall.
  destruct (generate_forecast_Ok_inv _ _ _ _ _ _ _ _ Hcall)
    as (m & info & hs & lv & -> & Hinfo & [enc Henc] & Hhist & Hlast & Hdates).
  destruct (latest_and_base_nonempty env _ Hdates) as (latest & base & _ & Hbase).
  destruct (generate_forecast_run env county_name county_data m
              forecast_months s info enc hs lv latest base
              Hinfo Henc Hhist Hlast Hbase) as [ws1 Hrun1].
  rewrite Hcall in Hrun1. injection Hrun1 as Hr1 Hs1.
  assert (Hhist1 : st_heap s1 !! hd_ev_totals (ci_historical_data info) = Some hs).
  { rewrite Hs1. cbn [st_heap]. rewrite lookup_app_l; [exact Hhist|].
    now apply lookup_lt_Some in Hhist. }
  destruct (generate_forecast_run (at_time env now2) county_name county_data
              m forecast_months s1 info enc hs lv latest base
              Hinfo Henc Hhist1 Hlast Hbase) as [ws2 Hrun2].
  eexists _, _. split; [exact Hrun2|]. rewrite Hr1. repeat split.
Qed.

(** ** The theorems at concrete requests *)

Lemma generate_forecast_length_and_dates_witness :
  exists r s',
    generate_forecast (ex_env 0) "King" ex_data (Some ex_model) 2
      (ex_state [1000; 1050; 1100]) = (Ok r, s') /\
    length (fr_predicted_values r) = 2%nat /\
    length (fr_prediction_dates r) = 2%nat /\
    fr_prediction_dates r !! 1%nat = Some (fr_latest_historical_date r + 60)%Z.
Proof.
  destruct (generate_forecast_length_and_dates (ex_env 0) "King" ex_data
              ex_model 2 (ex_state [1000; 1050; 1100]) ex_info 7
              [1000; 1050; 1100])
    as (r & s' & Hrun & Hlen & Hlen' & _ & _ & Hdate & _).
  - reflexivity.
  - reflexivity.
  - reflexivity.
  - simpl; lia.
  - simpl; lia.
  - lia.
  - exists r, s'. split; [exact Hrun|]. split; [exact Hlen|].
    split; [exact Hlen'|]. apply (Hdate 2%Z). lia.
Defined.

Lemma first_step_guard_witness :
  exists accepted s',
    forecast_step (const_model 50) (ci_historical_data ex_info) 7 ex_base
      (datetime 2024 3 31) 2 1
      (ex_loop_state [90; 95; 100] [90; 95; 100] [] []) = (Ok tt, s') /\
    st_predictions s' = [accepted] /\
    accepted == 95.
Proof.
  destruct (first_step_guard (const_model 50) (ci_historical_data ex_info) 7
              ex_base (datetime 2024 3 31) 2 1
              (ex_loop_state [90; 95; 100] [90; 95; 100] [] [])
              [90; 95; 100] 100 (Fin 50))
    as (a & s' & Hrun & Hps & _ & _ & Hfin & _).
  - reflexivity.
  - simpl; lia.
  - reflexivity.
  - reflexivity.
  - intros mi _. reflexivity.
  - exists a, s'. split; [exact Hrun|]. split; [exact Hps|].
    destruct (Hfin 50 eq_refl) as (_ & _ & _ & _ & _ & H95 & _).
    apply H95; reflexivity.
Defined.


Lemma predictions_positive_witness :
  exists r s',
    generate_forecast (ex_env 0) "King" ex_data (Some failing_model) 3
      (ex_state [5; 3; 2]) = (Ok r, s') /\
    Forall (fun p => 0 < p) (fr_predicted_values r).
Proof.
  apply (predictions_positive (ex_env 0) "King" ex_data failing_model 3
           (ex_state [5; 3; 2]) ex_info [5; 3; 2] 2).
  - repeat split; try reflexivity.
    + eexists; reflexivity.
    + discriminate.
  - reflexivity.
Defined.

Lemma pct_change_features_safe_witness :
  exists fv mi,
    calculate_feature_engineering_values (ci_historical_data ex_info)
      (ex_state [0; 1000; 0; 1100]) = (Ok fv, ex_state [0; 1000; 0; 1100]) /\
    loop_model_input 75 7 [0; 1000; 0; 1100] = Ok mi /\
    ev_total_pct_change_1 fv = 0 /\
    ev_total_pct_change_3 fv = 0 /\
    in_ev_total_pct_change_1 mi = 0 /\
    in_ev_total_pct_change_3 mi = 0.
Proof.
  apply (pct_change_features_safe [0; 1000; 0; 1100]
           (ci_historical_data ex_info) (ex_state [0; 1000; 0; 1100]) 75 7).
  - simpl; lia.
  - reflexivity.
Defined.

Lemma forecast_twice_same_up_to_timestamp_witness :
  exists r1 s1 r2 s2,
    generate_forecast (ex_env 1000) "King" ex_data (Some ex_model) 2
      (ex_state [1000; 1050; 1100]) = (Ok r1, s1) /\
    generate_forecast (at_time (ex_env 1000) 2000) "King" ex_data
      (Some ex_model) 2 s1 = (Ok r2, s2) /\
    without_timestamp r1 = without_timestamp r2 /\
    md_prediction_date (fr_metadata r1) = 1000%Z /\
    md_prediction_date (fr_metadata r2) = 2000%Z.
Proof.
  destruct (generate_forecast (ex_env 1000) "King" ex_data (Some ex_model) 2
              (ex_state [1000; 1050; 1100])) as [[r1|e] s1] eqn:Hcall;
    [|vm_compute in Hcall; discriminate Hcall].
  destruct (forecast_twice_same_up_to_timestamp (ex_env 1000) "King" ex_data
              (Some ex_model) 2 (ex_state [1000; 1050; 1100]) r1 s1 2000 Hcall)
    as (r2 & s2 & Hcall2 & Heq & Ht1 & Ht2).
  exists r1, s1, r2, s2. repeat split; assumption.
Defined.




(** * Further properties of the code *)

(** ** The errors of [generate_forecast] *)

Lemma reraise_as_ValueError {A} (msg : string) (e : exn) s e' s' :
  (if is_ValueError e then raise e else @raise A (mkExn ValueError msg)) s
  = (Raise e', s') ->
  exn_cls e' = ValueError.
Proof.
  unfold is_ValueError.
  destruct e as [cls str]; destruct cls; cbn; intros [= <- _]; reflexivity.
Qed.

Lemma reraise_is_ValueError {A} (msg : string) (e : exn) s e' s' :
  (if is_ValueError e then raise e else @raise A (mkExn ValueError msg)) s
  = (Raise e', s') ->
  is_ValueError e' = true /\ s' = s.
Proof.
  unfold is_ValueError.
  destruct e as [cls str]; destruct cls; cbn; intros [= <- <-]; now split.
Qed.

Lemma generate_forecast_Raise_inv env county_name county_data model months s e s' :
  generate_forecast env county_name county_data model months s = (Raise e, s') ->
  is_ValueError e = true.
Proof.
  unfold generate_forecast, try_except.
  match goal with |- context [match ?body s with _ => _ end] =>
    destruct (body s) as [[r|e0] s0]
  end; [discriminate|].
  intros H. now apply reraise_is_ValueError in H.
Qed.

(** Whatever goes wrong inside [generate_forecast], the caller sees a
    [ValueError]: the two [except] clauses of lines 1380-1384 re-raise a
    [ValueError] as it is and wrap every other exception in one. *)
Theorem generate_forecast_raises_only_ValueError
    (env : Env) (county_name : string) (county_data : gmap string CountyInfo)
    (model : option Model) (forecast_months : Z) (s s' : pystate) (e : exn) :
  generate_forecast env county_name county_data model forecast_months s
  = (Raise e, s') ->
  exn_cls e = ValueError.
Proof.
  unfold generate_forecast, try_except.
  match goal with |- context [match ?body s with _ => _ end] =>
    destruct (body s) as [[r|e0] s0]
  end; [discriminate|].
  apply reraise_as_ValueError.
Qed.

Lemma generate_forecast_raises_only_ValueError_witness :
  exists e s',
    generate_forecast (ex_env 0) "Pierce" ex_data (Some ex_model) 2
      (ex_state [1000; 1050; 1100]) = (Raise e, s') /\
    exn_cls e = ValueError.
Proof.
  eexists _, _. split; [vm_compute; reflexivity|].
  apply (generate_forecast_raises_only_ValueError (ex_env 0) "Pierce" ex_data
           (Some ex_model) 2 (ex_state [1000; 1050; 1100])
           (ex_state [1000; 1050; 1100])).
  vm_compute; reflexivity.
Defined.

(** A call returns a result exactly when a model is given, the county is in
    the data and in the encoding table, and its history has at least one date
    and at least one value.  Nothing else is required: neither three points
    of history nor a positive horizon. *)
Theorem generate_forecast_returns_iff
    (env : Env) (county_name : string) (county_data : gmap string CountyInfo)
    (model : option Model) (forecast_months : Z) (s : pystate) :
  (exists r s',
     generate_forecast env county_name county_data model forecast_months s
     = (Ok r, s'))
  <->
  (exists m info hs lv,
     model = Some m /\ served env county_name county_data s info hs lv).
Proof.
  split.
  - intros (r & s' & Hcall). eapply generate_forecast_Ok_inv; exact Hcall.
  - intros (m & info & hs & lv & -> & Hserved).
    destruct (served_run env county_name county_data m forecast_months s
                info hs lv Hserved) as (enc & latest & base & ws & Hrun).
    eauto.
Qed.

(** The order of the checks and their messages: the model first (nothing is
    touched), then the county (nothing is touched), then the encoding, which
    is looked up after the county's list has been copied.  The encoding is
    missing when the dictionary has no entry for the county (nothing is
    shown) and when the dictionary could not be built, in which case
    [get_county_encoding_map] has shown its error before the [ValueError] is
    raised. *)
Theorem generate_forecast_precondition_errors
    (env : Env) (county_name : string) (county_data : gmap string CountyInfo)
    (forecast_months : Z) (s : pystate) :
  generate_forecast env county_name county_data None forecast_months s
  = (Raise (mkExn ValueError "Model is not available for prediction"), s) /\
  (forall m,
     county_data !! county_name = None ->
     generate_forecast env county_name county_data (Some m) forecast_months s
     = (Raise (mkExn ValueError
                 ("County '" +:+ county_name +:+ "' not found in data")), s)) /\
  (forall m info hs encoding_map,
     county_data !! county_name = Some info ->
     st_heap s !! hd_ev_totals (ci_historical_data info) = Some hs ->
     county_encoding_map env = Ok encoding_map ->
     encoding_map !! county_name = None ->
     generate_forecast env county_name county_data (Some m) forecast_months s
     = (Raise (mkExn ValueError
                 ("Could not find encoding for county '" +:+ county_name +:+ "'")),
        mkState (st_heap s ++ [hs]) (st_predictions s) (st_prediction_dates s)
                (st_warnings s) (st_errors s))) /\
  (forall m info hs e,
     county_data !! county_name = Some info ->
     st_heap s !! hd_ev_totals (ci_historical_data info) = Some hs ->
     county_encoding_map env = Raise e ->
     generate_forecast env county_name county_data (Some m) forecast_months s
     = (Raise (mkExn ValueError
                 ("Could not find encoding for county '" +:+ county_name +:+ "'")),
        mkState (st_heap s ++ [hs]) (st_predictions s) (st_prediction_dates s)
                (st_warnings s)
                (st_errors s
                 ++ ["Error loading county encoding map: " +:+ exn_str e]))).
Proof.
  split; [reflexivity|]. split; [|split].
  - intros m Hinfo. unfold generate_forecast, get_county_info, try_except.
    now rewrite Hinfo.
  - intros m info hs encoding_map Hinfo Hhist Hmap Henc.
    unfold generate_forecast, get_county_info, try_except.
    rewrite Hinfo.
    rewrite (bindM_ok _ _ _ _ _ (list_copy_run _ _ _ Hhist)).
    rewrite (bindM_ok _ _ _ _ _ (get_county_encoding_run _ _ _)).
    unfold encoding_of, encoding_errors. rewrite Hmap, Henc.
    now rewrite with_errors_nil.
  - intros m info hs e Hinfo Hhist Hmap.
    unfold generate_forecast, get_county_info, try_except.
    rewrite Hinfo.
    rewrite (bindM_ok _ _ _ _ _ (list_copy_run _ _ _ Hhist)).
    rewrite (bindM_ok _ _ _ _ _ (get_county_encoding_run _ _ _)).
    unfold encoding_of, encoding_errors. rewrite Hmap. reflexivity.
Qed.

(** A county without dates: [max(historical_data['dates'])] raises in the
    [try] and again in the bare [except] of lines 1221-1230, whatever the CSV
    holds, and the caller sees the [ValueError] of [max] itself, not wrapped
    in the function's own message; one copy of the list has been made. *)
Theorem generate_forecast_no_dates
    (env : Env) (county_name : string) (county_data : gmap string CountyInfo)
    (model : Model) (forecast_months : Z) (s : pystate)
    (info : CountyInfo) (enc : Z) (hs : list Q) :
  county_data !! county_name = Some info ->
  encoding_of env county_name = Some enc ->
  st_heap s !! hd_ev_totals (ci_historical_data info) = Some hs ->
  hd_dates (ci_historical_data info) = [] ->
  exists msg,
    py_max_date [] = Raise (mkExn ValueError msg) /\
    generate_forecast env county_name county_data (Some model) forecast_months s
    = (Raise (mkExn ValueError msg),
       mkState (st_heap s ++ [hs]) (st_predictions s) (st_prediction_dates s)
               (st_warnings s) (st_errors s)).
Proof.
  intros Hinfo Henc Hhist Hdates.
  eexists. split; [reflexivity|].
  unfold generate_forecast, get_county_info.
  rewrite Hinfo, Hdates.
  unfold try_except at 1.
  rewrite (bindM_ok _ _ _ _ _ (list_copy_run _ _ _ Hhist)).
  rewrite (bindM_ok _ _ _ _ _ (get_county_encoding_Some _ _ _ _ Henc)).
  unfold bindM at 1. rewrite latest_and_base_run.
  unfold latest_and_base, res_try. now destruct (csv_earliest_date env).
Qed.

Lemma generate_forecast_no_dates_witness :
  exists msg,
    py_max_date [] = Raise (mkExn ValueError msg) /\
    generate_forecast (ex_env 0) "King"
      {[ "King" := mkCountyInfo "King" "WA" (mkHistoricalData [] 0) 0 ]}
      (Some ex_model) 2 (ex_state [1000; 1050; 1100])
    = (Raise (mkExn ValueError msg),
       mkState [[1000; 1050; 1100]; [1000; 1050; 1100]] [] [] [] []).
Proof.
  apply (generate_forecast_no_dates (ex_env 0) "King"
           {[ "King" := mkCountyInfo "King" "WA" (mkHistoricalData [] 0) 0 ]}
           ex_model 2 (ex_state [1000; 1050; 1100])
           (mkCountyInfo "King" "WA" (mkHistoricalData [] 0) 0) 7
           [1000; 1050; 1100]); reflexivity.
Defined.

Lemma forecast_except_empty_history hd latest month e s :
  st_predictions s = [] ->
  st_heap s !! hd_ev_totals hd = Some [] ->
  exists s',
    forecast_except hd latest month e s
    = (Raise (mkExn IndexError "list index out of range"), s').
Proof.
  intros Hps Hhist. unfold forecast_except.
  unfold bindM at 1, st_warning at 1.
  unfold bindM at 1, get_predictions at 1. cbn [st_predictions]. rewrite Hps.
  rewrite bool_decide_false by (intros H; now apply H).
  unfold bindM, list_read, lift. cbn [st_heap]. rewrite Hhist. cbn.
  eauto.
Qed.

Lemma forecast_step_empty_history model hd enc base latest cur month s :
  st_heap s !! cur = Some [] ->
  st_predictions s = [] ->
  st_heap s !! hd_ev_totals hd = Some [] ->
  exists s',
    forecast_step model hd enc base latest cur month s
    = (Raise (mkExn IndexError "list index out of range"), s').
Proof.
  intros Hcur Hps Hhist. unfold forecast_step.
  pose proof (forecast_try_run model enc base latest cur month s [] Hcur) as Htry.
  change (step_attempt model enc base month [] (st_predictions s))
    with (@Raise Q (mkExn ValueError
            "Insufficient historical data for iterative prediction")) in Htry.
  rewrite (try_except_raise _ _ _ _ _ Htry).
  now apply forecast_except_empty_history.
Qed.

(** A county whose [ev_totals] list is empty (with a date, a model and an
    encoding): the call fails for every horizon with a [ValueError] that wraps
    the [IndexError] of [ev_totals[-1]], raised by the fallback of the first
    step (line 1343) or, when the loop does not run, at line 1351. *)
Theorem generate_forecast_empty_history
    (env : Env) (county_name : string) (county_data : gmap string CountyInfo)
    (model : Model) (forecast_months : Z) (s : pystate)
    (info : CountyInfo) (enc : Z) :
  county_data !! county_name = Some info ->
  encoding_of env county_name = Some enc ->
  st_heap s !! hd_ev_totals (ci_historical_data info) = Some [] ->
  hd_dates (ci_historical_data info) <> [] ->
  exists s',
    generate_forecast env county_name county_data (Some model) forecast_months s
    = (Raise (mkExn ValueError
                ("Error generating forecast for county '" +:+ county_name
                 +:+ "': list index out of range")), s').
Proof.
  intros Hinfo Henc Hhist Hdates.
  destruct (latest_and_base_nonempty env _ Hdates) as (latest & base & _ & Hbase).
  unfold generate_forecast, get_county_info.
  rewrite Hinfo.
  set (hd := ci_historical_data info) in *.
  pose proof (lookup_lt_Some _ _ _ Hhist) as Hlt.
  set (s1 := mkState (st_heap s ++ [[]]) (st_predictions s)
               (st_prediction_dates s) (st_warnings s) (st_errors s)).
  set (s2 := mkState (st_heap s ++ [[]]) [] [] (st_warnings s) (st_errors s)).
  set (s3 := mkState ((st_heap s ++ [[]]) ++ [[]]) [] [] (st_warnings s)
               (st_errors s)).
  assert (Hcopy2 : list_copy (length (st_heap s)) s2
                   = (Ok (S (length (st_heap s))), s3)).
  { rewrite (list_copy_run _ _ []).
    - cbn [st_heap s2]. rewrite length_app. cbn [length].
      now replace (length (st_heap s) + 1)%nat with (S (length (st_heap s))) by lia.
    - cbn [st_heap s2]. now rewrite list_lookup_middle. }
  assert (Hcur : st_heap s3 !! S (length (st_heap s)) = Some []).
  { cbn [st_heap s3]. rewrite lookup_app_r; rewrite length_app; cbn [length]; [|lia].
    now replace (S (length (st_heap s)) - (length (st_heap s) + 1))%nat with 0%nat by lia. }
  assert (Hhist3 : st_heap s3 !! hd_ev_totals hd = Some []).
  { cbn [st_heap s3]. rewrite <- app_assoc. now rewrite lookup_app_l. }
  unfold try_except at 1.
  rewrite (bindM_ok _ _ _ _ _ (list_copy_run _ _ _ Hhist)). fold s1.
  rewrite (bindM_ok _ _ _ _ _ (get_county_encoding_Some _ _ _ s1 Henc)).
  pose proof (latest_and_base_run env (hd_dates hd) s1) as Hb.
  rewrite Hbase in Hb. rewrite (bindM_ok _ _ _ _ _ Hb).
  unfold bindM at 1, set_predictions at 1.
  unfold bindM at 1, set_prediction_dates at 1.
  cbn [st_heap st_predictions st_prediction_dates st_warnings st_errors s1].
  fold s2.
  rewrite (bindM_ok _ _ _ _ _ Hcopy2).
  unfold py_range.
  destruct (Z_lt_le_dec 0 (forecast_months + 1 - 1)) as [Hpos|Hneg].
  - (* the first step falls back and the fallback raises *)
    rewrite seqZ_cons by exact Hpos. cbn [for_each].
    destruct (forecast_step_empty_history model hd enc base latest
                (S (length (st_heap s))) 1 s3 Hcur eq_refl Hhist3) as [s' Hstep].
    rewrite (bindM_raise _ _ _ _ _ (bindM_raise _ _ _ _ _ Hstep)).
    cbn. eauto.
  - rewrite seqZ_nil by exact Hneg. cbn [for_each].
    unfold bindM at 1, retM at 1.
    rewrite (bindM_ok _ _ _ _ _ (list_read_run _ _ _ Hhist3)).
    unfold bindM at 1, lift at 1. cbn. eauto.
Qed.

Lemma generate_forecast_empty_history_witness :
  exists s',
    generate_forecast (ex_env 0) "King" ex_data (Some ex_model) 2 (ex_state [])
    = (Raise (mkExn ValueError
                "Error generating forecast for county 'King': list index out of range"),
       s').
Proof.
  apply (generate_forecast_empty_history (ex_env 0) "King" ex_data ex_model 2
           (ex_state []) ex_info 7); try reflexivity.
  discriminate.
Defined.

(** ** Horizons and summary statistics *)

(** A horizon of zero or less is not rejected: for a served request the
    loop does not run and the call returns an empty forecast, with zero total
    growth, zero average growth and a growth percentage of zero. *)
Theorem generate_forecast_nonpositive_horizon
    (env : Env) (county_name : string) (county_data : gmap string CountyInfo)
    (model : Model) (forecast_months : Z) (s : pystate)
    (info : CountyInfo) (hs : list Q) (lv : Q) :
  served env county_name county_data s info hs lv ->
  (forecast_months <= 0)%Z ->
  exists r s',
    generate_forecast env county_name county_data (Some model) forecast_months s
    = (Ok r, s') /\
    fr_predicted_values r = [] /\
    fr_prediction_dates r = [] /\
    fr_latest_historical_value r = lv /\
    fr_total_growth r = 0 /\
    fr_avg_monthly_growth r = 0 /\
    fr_growth_percentage r == 0 /\
    st_heap s' = st_heap s ++ [hs; hs].
Proof.
  intros Hserved Hmonths.
  destruct (served_run env county_name county_data model forecast_months s
              info hs lv Hserved) as (enc & latest & base & ws & Hrun).
  eexists _, _. split; [exact Hrun|].
  unfold forecast_result_of, py_range.
  rewrite seqZ_nil by lia. cbn.
  replace (0 <? forecast_months)%Z with false
    by (symmetry; apply Z.ltb_ge; lia).
  repeat split; try reflexivity.
  destruct (Qltb 0 lv); [|reflexivity]. unfold Qdiv. now rewrite !Qmult_0_l.
Qed.

Lemma generate_forecast_nonpositive_horizon_witness :
  exists r s',
    generate_forecast (ex_env 0) "King" ex_data (Some ex_model) (-3)
      (ex_state [1000; 1050; 1100]) = (Ok r, s') /\
    fr_predicted_values r = [] /\
    fr_growth_percentage r == 0.
Proof.
  destruct (generate_forecast_nonpositive_horizon (ex_env 0) "King" ex_data
              ex_model (-3) (ex_state [1000; 1050; 1100]) ex_info
              [1000; 1050; 1100] 1100)
    as (r & s' & Hrun & Hps & _ & _ & _ & _ & Hpct & _).
  - repeat split; try reflexivity.
    + eexists; reflexivity.
    + discriminate.
  - lia.
  - exists r, s'. repeat split; assumption.
Defined.

(** The summary of a served request with a horizon of at least one month:
    the total growth is the last prediction minus the last historical value,
    the average monthly growth times the horizon is the total growth, and the
    growth percentage is the total growth relative to the last historical
    value when that is positive, and zero otherwise (no division is made). *)
Theorem generate_forecast_summary
    (env : Env) (county_name : string) (county_data : gmap string CountyInfo)
    (model : Model) (forecast_months : Z) (s : pystate)
    (info : CountyInfo) (hs : list Q) (lv : Q) :
  served env county_name county_data s info hs lv ->
  (1 <= forecast_months)%Z ->
  exists r s' final,
    generate_forecast env county_name county_data (Some model) forecast_months s
    = (Ok r, s') /\
    last (fr_predicted_values r) = Some final /\
    fr_latest_historical_value r = lv /\
    fr_total_growth r = final - lv /\
    fr_avg_monthly_growth r * inject_Z forecast_months == fr_total_growth r /\
    (0 < lv -> fr_growth_percentage r = (final - lv) / lv * 100) /\
    (lv <= 0 -> fr_growth_percentage r = 0) /\
    md_forecast_months (fr_metadata r) = forecast_months /\
    md_historical_data_points (fr_metadata r) = Z.of_nat (length hs).
Proof.
  intros Hserved Hmonths.
  destruct (served_run env county_name county_data model forecast_months s
              info hs lv Hserved) as (enc & latest & base & ws & Hrun).
  set (v := run_view model enc base latest lv (mkView hs [] [])
              (py_range 1 (forecast_months + 1))) in *.
  assert (Hlen : length (v_predictions v) = Z.to_nat forecast_months).
  { subst v. rewrite run_view_predictions_length. cbn [v_predictions length].
    unfold py_range. rewrite length_seqZ. lia. }
  destruct (last (v_predictions v)) as [final|] eqn:Hlast;
    [|apply last_None in Hlast; rewrite Hlast in Hlen; cbn in Hlen; lia].
  exists (forecast_result_of env county_name info model forecast_months enc hs
            lv latest base).
  eexists _, final. split; [exact Hrun|].
  unfold forecast_result_of. fold v.
  cbn [fr_predicted_values fr_latest_historical_value fr_total_growth
       fr_avg_monthly_growth fr_growth_percentage fr_metadata
       md_forecast_months md_historical_data_points].
  rewrite Hlast.
  replace (0 <? forecast_months)%Z with true
    by (symmetry; apply Z.ltb_lt; lia).
  repeat split; try reflexivity.
  - field. intros H. unfold Qeq in H. cbn in H. lia.
  - intros Hlv. apply Qltb_lt in Hlv. now rewrite Hlv.
  - intros Hlv. apply Qltb_ge in Hlv. now rewrite Hlv.
Qed.

Lemma generate_forecast_summary_witness :
  exists r s' final,
    generate_forecast (ex_env 0) "King" ex_data (Some ex_model) 2
      (ex_state [1000; 1050; 1100]) = (Ok r, s') /\
    last (fr_predicted_values r) = Some final /\
    fr_total_growth r = final - 1100 /\
    fr_avg_monthly_growth r * 2 == fr_total_growth r.
Proof.
  destruct (generate_forecast_summary (ex_env 0) "King" ex_data ex_model 2
              (ex_state [1000; 1050; 1100]) ex_info [1000; 1050; 1100] 1100)
    as (r & s' & final & Hrun & Hlast & _ & Htg & Havg & _).
  - repeat split; try reflexivity.
    + eexists; reflexivity.
    + discriminate.
  - lia.
  - exists r, s', final. repeat split; assumption.
Defined.

(** ** Forecasts made of fallback values *)

Lemma fallback_chain_length lv n : length (fallback_chain lv n) = n.
Proof.
  induction n as [|n IH]; [reflexivity|].
  cbn [fallback_chain]. rewrite length_app, IH. cbn. lia.
Qed.

Lemma fallback_chain_closed_form lv n : forall k p,
  fallback_chain lv n !! k = Some p -> p == lv * 1.01 * 1.02 ^ Z.of_nat k.
Proof.
  induction n as [|n IH]; intros k p Hk; [discriminate|].
  cbn [fallback_chain] in Hk.
  apply lookup_snoc_Some in Hk as [[_ Hk]|[Hk <-]]; [now apply IH|].
  rewrite fallback_chain_length in Hk. subst k.
  destruct n as [|m].
  - change (lv * 1.01 == lv * 1.01 * 1). ring.
  - unfold fallback_value. cbn [fallback_chain]. rewrite last_snoc.
    assert (Hx : fallback_chain lv (S m) !! m
                 = Some (fallback_value lv (fallback_chain lv m))).
    { cbn [fallback_chain].
      rewrite lookup_app_r; rewrite fallback_chain_length; [|lia].
      now rewrite Nat.sub_diag. }
    rewrite (IH m _ Hx).
    rewrite Nat2Z.inj_succ. unfold Z.succ.
    rewrite Qpower_plus by (intros H; discriminate H).
    change (1.02 ^ 1) with 1.02. ring.
Qed.

Lemma run_view_fallback_only model enc base latest lv hs months :
  (forall month ps, exists e, step_attempt model enc base month hs ps = Raise e) ->
  forall ps ds,
    v_current (run_view model enc base latest lv (mkView hs ps ds) months) = hs /\
    v_predictions (run_view model enc base latest lv (mkView hs ps ds) months)
    = Nat.iter (length months) (fun ps => ps ++ [fallback_value lv ps]) ps.
Proof.
  intros Hfail. induction months as [|m months IH]; intros ps ds; [now split|].
  assert (Hstep : step_view model enc base latest lv (mkView hs ps ds) m
                  = mkView hs (ps ++ [fallback_value lv ps])
                           (ds ++ [add_days latest (30 * m)])).
  { unfold step_view. cbn [v_current v_predictions v_dates].
    now destruct (Hfail m ps) as [e ->]. }
  cbn [run_view foldl length]. rewrite Hstep.
  destruct (IH (ps ++ [fallback_value lv ps]) (ds ++ [add_days latest (30 * m)]))
    as [Hcur Hps].
  unfold run_view in Hcur, Hps. split; [exact Hcur|].
  rewrite Hps. now rewrite Nat.iter_succ_r.
Qed.

Lemma fallback_chain_iter lv n :
  fallback_chain lv n = Nat.iter n (fun ps => ps ++ [fallback_value lv ps]) [].
Proof.
  induction n as [|n IH]; [reflexivity|]. cbn [fallback_chain Nat.iter].
  now rewrite IH.
Qed.

(** What a served request returns when every step falls back. *)
Lemma served_fallback_only env county_name county_data model months s info hs lv :
  served env county_name county_data s info hs lv ->
  (forall enc base month ps,
     exists e, step_attempt model enc base month hs ps = Raise e) ->
  exists r s',
    generate_forecast env county_name county_data (Some model) months s
    = (Ok r, s') /\
    fr_predicted_values r = fallback_chain lv (Z.to_nat months) /\
    (forall k p, fr_predicted_values r !! k = Some p ->
                 p == lv * 1.01 * 1.02 ^ Z.of_nat k) /\
    st_heap s' = st_heap s ++ [hs; hs].
Proof.
  intros Hserved Hfail.
  destruct (served_run env county_name county_data model months s
              info hs lv Hserved) as (enc & latest & base & ws & Hrun).
  destruct (run_view_fallback_only model enc base latest lv hs
              (py_range 1 (months + 1)) (Hfail enc base) [] []) as [Hcur Hps].
  eexists _, _. split; [exact Hrun|].
  unfold forecast_result_of. cbn [fr_predicted_values st_heap].
  rewrite Hcur, Hps. unfold py_range. rewrite length_seqZ.
  replace (Z.to_nat (months + 1 - 1)) with (Z.to_nat months) by lia.
  rewrite <- fallback_chain_iter.
  split; [reflexivity|]. split; [|reflexivity].
  apply fallback_chain_closed_form.
Qed.

(** A served request with fewer than 3 historical values, any model and any
    horizon: every step takes the fallback, so the forecast does not depend
    on the model.  Its [k]-th value (from 0) is the last historical value
    times [1.01 * 1.02^k], and the working copy is never extended. *)
Theorem short_history_forecast
    (env : Env) (county_name : string) (county_data : gmap string CountyInfo)
    (model : Model) (forecast_months : Z) (s : pystate)
    (info : CountyInfo) (hs : list Q) (lv : Q) :
  served env county_name county_data s info hs lv ->
  (length hs < 3)%nat ->
  exists r s',
    generate_forecast env county_name county_data (Some model) forecast_months s
    = (Ok r, s') /\
    fr_predicted_values r = fallback_chain lv (Z.to_nat forecast_months) /\
    (forall k p, fr_predicted_values r !! k = Some p ->
                 p == lv * 1.01 * 1.02 ^ Z.of_nat k) /\
    st_heap s' = st_heap s ++ [hs; hs].
Proof.
  intros Hserved Hlen. apply served_fallback_only with (info := info); [exact Hserved|].
  intros enc base month ps. unfold step_attempt.
  replace (3 <=? Z.of_nat (length hs))%Z with false
    by (symmetry; apply Z.leb_gt; lia).
  eauto.
Qed.

Lemma short_history_forecast_witness :
  exists r s',
    generate_forecast (ex_env 0) "King" ex_data2 (Some ex_model) 2
      (ex_state [10; 20]) = (Ok r, s') /\
    fr_predicted_values r = fallback_chain 20 2 /\
    (forall k p, fr_predicted_values r !! k = Some p ->
                 p == 20 * 1.01 * 1.02 ^ Z.of_nat k) /\
    st_heap s' = [[10; 20]; [10; 20]; [10; 20]].
Proof.
  apply (short_history_forecast (ex_env 0) "King" ex_data2 ex_model 2
           (ex_state [10; 20]) ex_info2 [10; 20] 20).
  - repeat split; try reflexivity.
    + eexists; reflexivity.
    + discriminate.
  - simpl; lia.
Defined.

(** A served request whose model raises on every input, any history and any
    horizon: the forecast is the same chain of fallback values, the last
    historical value times [1.01 * 1.02^k]. *)
Theorem failing_model_forecast
    (env : Env) (county_name : string) (county_data : gmap string CountyInfo)
    (model : Model) (forecast_months : Z) (s : pystate)
    (info : CountyInfo) (hs : list Q) (lv : Q) :
  served env county_name county_data s info hs lv ->
  (forall x, exists e, predict model x = Raise e) ->
  exists r s',
    generate_forecast env county_name county_data (Some model) forecast_months s
    = (Ok r, s') /\
    fr_predicted_values r = fallback_chain lv (Z.to_nat forecast_months) /\
    (forall k p, fr_predicted_values r !! k = Some p ->
                 p == lv * 1.01 * 1.02 ^ Z.of_nat k) /\
    st_heap s' = st_heap s ++ [hs; hs].
Proof.
  intros Hserved Hmodel.
  apply served_fallback_only with (info := info); [exact Hserved|].
  intros enc base month ps. unfold step_attempt.
  destruct (3 <=? Z.of_nat (length hs))%Z; [|eauto].
  destruct (loop_model_input (base + month) enc hs) as [mi|e]; [|cbn; eauto].
  cbn [mbind res_bind]. destruct (Hmodel mi) as [e ->]. cbn. eauto.
Qed.

Lemma failing_model_forecast_witness :
  exists r s',
    generate_forecast (ex_env 0) "King" ex_data (Some failing_model) 3
      (ex_state [1000; 1050; 1100]) = (Ok r, s') /\
    fr_predicted_values r = fallback_chain 1100 3 /\
    (forall k p, fr_predicted_values r !! k = Some p ->
                 p == 1100 * 1.01 * 1.02 ^ Z.of_nat k) /\
    st_heap s' = [[1000; 1050; 1100]; [1000; 1050; 1100]; [1000; 1050; 1100]].
Proof.
  apply (failing_model_forecast (ex_env 0) "King" ex_data failing_model 3
           (ex_state [1000; 1050; 1100]) ex_info [1000; 1050; 1100] 1100).
  - repeat split; try reflexivity.
    + eexists; reflexivity.
    + discriminate.
  - intros x. eexists. reflexivity.
Defined.

(** ** The envelope of a forecast *)

Lemma py_max_le a b c : a <= c -> b <= c -> py_max a b <= c.
Proof. intros Ha Hb. unfold py_max. now destruct (Qltb a b). Qed.

Lemma spec_first_step_guard_bounds cur raw :
  0 <= cur ->
  cur * 0.7 <= spec_first_step_guard cur raw /\
  spec_first_step_guard cur raw <= cur * 1.5.
Proof.
  intros Hcur. unfold spec_first_step_guard.
  destruct (Qltb raw (cur * 0.7)) eqn:E1; [lra|]. apply Qltb_ge in E1.
  destruct (Qltb (cur * 1.5) raw) eqn:E2; [lra|]. apply Qltb_ge in E2. lra.
Qed.

Lemma spec_later_step_guard_upper prev raw :
  0 <= prev -> spec_later_step_guard prev raw <= prev * 1.3.
Proof.
  intros Hprev. unfold spec_later_step_guard.
  destruct (Qltb raw (prev * 0.8)) eqn:E1; [lra|].
  destruct (Qltb (prev * 1.3) raw) eqn:E2; [lra|]. now apply Qltb_ge in E2.
Qed.

Lemma step_attempt_Ok_inv model enc base month xs ps q :
  step_attempt model enc base month xs ps = Ok q ->
  (forall x, predict model x <> Ok NaN) ->
  exists raw, adjust_prediction xs ps (Fin raw) = Ok q.
Proof.
  unfold step_attempt. destruct (3 <=? Z.of_nat (length xs))%Z; [|discriminate].
  destruct (loop_model_input _ _ _) as [mi|]; [|discriminate]. cbn [mbind res_bind].
  destruct (predict model mi) as [[raw|]|] eqn:Hraw; [| |discriminate];
    cbn [mbind res_bind]; intros Hq Hnan; [eauto|].
  now destruct (Hnan mi).
Qed.

Lemma step_attempt_first_bounds model enc base month xs cur q :
  step_attempt model enc base month xs [] = Ok q ->
  (forall x, predict model x <> Ok NaN) ->
  last xs = Some cur -> 0.1 <= cur ->
  cur * 0.7 <= q /\ q <= cur * 1.5.
Proof.
  intros Hstep Hnan Hlast Hcur.
  apply step_attempt_Ok_inv in Hstep as [raw Hq]; [|exact Hnan].
  rewrite (adjust_prediction_first _ _ _ Hlast) in Hq. injection Hq as <-.
  destruct (spec_first_step_guard_bounds cur raw) as [Hlo Hhi]; [lra|].
  split.
  - eapply Qle_trans; [exact Hlo|apply py_max_ge_r].
  - apply py_max_le; lra.
Qed.

Lemma step_attempt_later_bounds model enc base month xs ps prev q :
  step_attempt model enc base month xs ps = Ok q ->
  (forall x, predict model x <> Ok NaN) ->
  last ps = Some prev -> 0.1 <= prev ->
  prev * 1.01 <= q /\ q <= prev * 1.3.
Proof.
  intros Hstep Hnan Hlast Hprev.
  pose proof (step_attempt_bounds _ _ _ _ _ _ _ Hstep) as [_ Hlo].
  split; [now apply Hlo|].
  apply step_attempt_Ok_inv in Hstep as [raw Hq]; [|exact Hnan].
  rewrite (adjust_prediction_later _ _ _ _ Hlast) in Hq. injection Hq as <-.
  pose proof (spec_later_step_guard_upper prev raw ltac:(lra)).
  apply py_max_le; [lra|]. apply py_max_le; lra.
Qed.

Lemma enveloped_snoc ps x :
  enveloped ps -> 0.1 <= x ->
  (forall p, last ps = Some p -> p * 1.01 <= x /\ x <= p * 1.3) ->
  enveloped (ps ++ [x]).
Proof.
  intros [Hfloor Hstep] Hx Hlast. split.
  - apply Forall_app. split; [exact Hfloor|]. now repeat constructor.
  - intros k p q Hp Hq.
    apply lookup_snoc_Some in Hq as [[Hlt Hq]|[Hk <-]].
    + rewrite lookup_app_l in Hp by lia. now apply (Hstep k).
    + rewrite lookup_app_l in Hp by lia. apply Hlast.
      rewrite last_lookup. now replace (pred (length ps)) with k by lia.
Qed.

Lemma enveloped_last ps p : enveloped ps -> last ps = Some p -> 0.1 <= p.
Proof.
  intros [Hfloor _] Hlast. rewrite Forall_forall in Hfloor. apply Hfloor.
  now apply last_Some_elem_of.
Qed.

Section Envelope.
Variables (model : Model) (enc base : Z) (latest : Date) (lv : Q).
Hypothesis lv_floor : 0.1 <= lv.
Hypothesis no_nan : forall x, predict model x <> Ok NaN.

Lemma step_view_enveloped v month :
  (v_predictions v = [] -> last (v_current v) = Some lv) ->
  enveloped (v_predictions v) ->
  (forall p0, v_predictions v !! 0%nat = Some p0 ->
              lv * 0.7 <= p0 /\ p0 <= lv * 1.5) ->
  let v' := step_view model enc base latest lv v month in
  (v_predictions v' = [] -> last (v_current v') = Some lv) /\
  enveloped (v_predictions v') /\
  (forall p0, v_predictions v' !! 0%nat = Some p0 ->
              lv * 0.7 <= p0 /\ p0 <= lv * 1.5).
Proof.
  intros Hcur Henv Hfirst. unfold step_view.
  destruct (step_attempt model enc base month (v_current v) (v_predictions v))
    as [q|e] eqn:Hstep; cbn [v_predictions v_current].
  - split; [intros H; now apply app_eq_nil in H as [_ H]|].
    destruct (last (v_predictions v)) as [p|] eqn:Hlast.
    + pose proof (enveloped_last _ _ Henv Hlast) as Hp.
      destruct (step_attempt_later_bounds _ _ _ _ _ _ _ _ Hstep no_nan Hlast Hp).
      split.
      * apply enveloped_snoc; [exact Henv|lra|].
        intros p' Hp'. rewrite Hlast in Hp'. now injection Hp' as <-.
      * intros p0 Hp0. apply Hfirst.
        rewrite lookup_app_l in Hp0; [exact Hp0|].
        destruct (v_predictions v); [discriminate|cbn; lia].
    + apply last_None in Hlast. rewrite Hlast in *. cbn [app].
      destruct (step_attempt_first_bounds _ _ _ _ _ _ _ Hstep no_nan
                  (Hcur eq_refl) lv_floor).
      pose proof (step_attempt_bounds _ _ _ _ _ _ _ Hstep) as [Hq _].
      split.
      * apply (enveloped_snoc [] q); [exact Henv|lra|discriminate].
      * intros p0 [= <-]. now split.
  - split; [intros H; now apply app_eq_nil in H as [_ H]|].
    unfold fallback_value.
    destruct (last (v_predictions v)) as [p|] eqn:Hlast.
    + pose proof (enveloped_last _ _ Henv Hlast) as Hp.
      split.
      * apply enveloped_snoc; [exact Henv|lra|].
        intros p' Hp'. rewrite Hlast in Hp'. injection Hp' as <-. lra.
      * intros p0 Hp0. apply Hfirst.
        rewrite lookup_app_l in Hp0; [exact Hp0|].
        destruct (v_predictions v); [discriminate|cbn; lia].
    + apply last_None in Hlast. rewrite Hlast in *. cbn [app].
      split.
      * apply (enveloped_snoc [] (lv * 1.01)); [exact Henv|lra|discriminate].
      * intros p0 [= <-]. lra.
Qed.

Lemma run_view_enveloped months : forall v,
  (v_predictions v = [] -> last (v_current v) = Some lv) ->
  enveloped (v_predictions v) ->
  (forall p0, v_predictions v !! 0%nat = Some p0 ->
              lv * 0.7 <= p0 /\ p0 <= lv * 1.5) ->
  let v' := run_view model enc base latest lv v months in
  enveloped (v_predictions v') /\
  (forall p0, v_predictions v' !! 0%nat = Some p0 ->
              lv * 0.7 <= p0 /\ p0 <= lv * 1.5).
Proof.
  induction months as [|m months IH]; intros v Hcur Henv Hfirst; [now split|].
  cbn [run_view foldl].
  destruct (step_view_enveloped v m Hcur Henv Hfirst) as (H1 & H2 & H3).
  now apply IH.
Qed.
End Envelope.

(** For a served request whose last historical value [lv] is at least 0.1
    and a regressor that never answers NaN, whatever number it answers and
    whenever it raises: the first predicted value lies between [0.7 * lv]
    and [1.5 * lv], every later value lies between 1.01 and 1.3 times the
    value before it, and no value is below 0.1. *)
Theorem forecast_growth_envelope
    (env : Env) (county_name : string) (county_data : gmap string CountyInfo)
    (model : Model) (forecast_months : Z) (s : pystate)
    (info : CountyInfo) (hs : list Q) (lv : Q) :
  served env county_name county_data s info hs lv ->
  0.1 <= lv ->
  (forall x, predict model x <> Ok NaN) ->
  exists r s',
    generate_forecast env county_name county_data (Some model) forecast_months s
    = (Ok r, s') /\
    (forall p0, fr_predicted_values r !! 0%nat = Some p0 ->
                lv * 0.7 <= p0 /\ p0 <= lv * 1.5) /\
    (forall k p q,
       fr_predicted_values r !! k = Some p ->
       fr_predicted_values r !! S k = Some q ->
       p * 1.01 <= q /\ q <= p * 1.3) /\
    Forall (fun p => 0.1 <= p) (fr_predicted_values r).
Proof.
  intros Hserved Hlv Hnan.
  destruct (served_run env county_name county_data model forecast_months s
              info hs lv Hserved) as (enc & latest & base & ws & Hrun).
  destruct Hserved as (_ & _ & _ & Hlast & _).
  eexists _, _. split; [exact Hrun|].
  unfold forecast_result_of. cbn [fr_predicted_values].
  destruct (run_view_enveloped model enc base latest lv Hlv Hnan
              (py_range 1 (forecast_months + 1)) (mkView hs [] []))
    as [[Hfloor Hstep] Hfirst].
  - intros _. exact Hlast.
  - split; [constructor|]. intros k p q H. discriminate.
  - intros p0 H. discriminate.
  - split; [exact Hfirst|]. split; [exact Hstep|exact Hfloor].
Qed.

Lemma forecast_growth_envelope_witness :
  exists r s',
    generate_forecast (ex_env 0) "King" ex_data (Some (const_model 5000)) 3
      (ex_state [1000; 1050; 1100]) = (Ok r, s') /\
    (forall p0, fr_predicted_values r !! 0%nat = Some p0 ->
                1100 * 0.7 <= p0 /\ p0 <= 1100 * 1.5) /\
    (forall k p q,
       fr_predicted_values r !! k = Some p ->
       fr_predicted_values r !! S k = Some q ->
       p * 1.01 <= q /\ q <= p * 1.3) /\
    Forall (fun p => 0.1 <= p) (fr_predicted_values r).
Proof.
  apply (forecast_growth_envelope (ex_env 0) "King" ex_data (const_model 5000) 3
           (ex_state [1000; 1050; 1100]) ex_info [1000; 1050; 1100] 1100).
  - repeat split; try reflexivity.
    + eexists; reflexivity.
    + discriminate.
  - intros H; discriminate H.
  - intros x. discriminate.
Defined.

(** ** The engineered features *)

Lemma py_index_suffix {A} (pre w : list A) (k : nat) :
  (1 <= k <= length w)%nat ->
  py_index (pre ++ w) (- Z.of_nat k) = py_index w (- Z.of_nat k).
Proof.
  intros Hk. unfold py_index.
  replace (- Z.of_nat k <? 0)%Z with true by (symmetry; apply Z.ltb_lt; lia).
  rewrite length_app.
  replace (Z.of_nat (length pre + length w) + - Z.of_nat k)%Z
    with (Z.of_nat (length pre + (length w - k))) by lia.
  replace (Z.of_nat (length w) + - Z.of_nat k)%Z
    with (Z.of_nat (length w - k)) by lia.
  replace (Z.of_nat (length pre + (length w - k)) <? 0)%Z with false
    by (symmetry; apply Z.ltb_ge; lia).
  replace (Z.of_nat (length w - k) <? 0)%Z with false
    by (symmetry; apply Z.ltb_ge; lia).
  rewrite !Nat2Z.id. rewrite lookup_app_r by lia.
  now replace (length pre + (length w - k) - length pre)%nat
    with (length w - k)%nat by lia.
Qed.

Lemma py_slice_from_suffix {A} (pre w : list A) (k : nat) :
  (1 <= k <= length w)%nat ->
  py_slice_from (pre ++ w) (- Z.of_nat k) = py_slice_from w (- Z.of_nat k).
Proof.
  intros Hk. unfold py_slice_from.
  replace (- Z.of_nat k <? 0)%Z with true by (symmetry; apply Z.ltb_lt; lia).
  rewrite length_app.
  replace (Z.to_nat (0 `max` (Z.of_nat (length pre + length w) + - Z.of_nat k)))
    with (length pre + (length w - k))%nat by lia.
  replace (Z.to_nat (0 `max` (Z.of_nat (length w) + - Z.of_nat k)))
    with (length w - k)%nat by lia.
  now rewrite drop_app_add.
Qed.

Lemma loop_model_input_suffix (m e : Z) (pre w : list Q) :
  (6 <= length w)%nat ->
  loop_model_input m e (pre ++ w) = loop_model_input m e w.
Proof.
  intros Hw. unfold loop_model_input.
  assert (Hlen : (6 <= length (pre ++ w))%nat) by (rewrite length_app; lia).
  replace (2 <=? Z.of_nat (length (pre ++ w)))%Z with true
    by (symmetry; apply Z.leb_le; lia).
  replace (4 <=? Z.of_nat (length (pre ++ w)))%Z with true
    by (symmetry; apply Z.leb_le; lia).
  replace (2 <=? Z.of_nat (length w))%Z with true
    by (symmetry; apply Z.leb_le; lia).
  replace (4 <=? Z.of_nat (length w))%Z with true
    by (symmetry; apply Z.leb_le; lia).
  replace (6 `min` Z.of_nat (length (pre ++ w)))%Z with 6%Z by lia.
  replace (6 `min` Z.of_nat (length w))%Z with 6%Z by lia.
  change (- (6))%Z with (- Z.of_nat 6)%Z.
  change (-1)%Z with (- Z.of_nat 1)%Z.
  change (-2)%Z with (- Z.of_nat 2)%Z.
  change (-3)%Z with (- Z.of_nat 3)%Z.
  change (-4)%Z with (- Z.of_nat 4)%Z.
  rewrite !(py_index_suffix pre w) by lia.
  rewrite !(py_slice_from_suffix pre w) by lia.
  reflexivity.
Qed.

Lemma feature_engineering_body_suffix (pre w : list Q) :
  (6 <= length w)%nat ->
  feature_engineering_body (pre ++ w) = feature_engineering_body w.
Proof.
  intros Hw. unfold feature_engineering_body.
  assert (Hlen : (6 <= length (pre ++ w))%nat) by (rewrite length_app; lia).
  replace (Z.of_nat (length (pre ++ w)) <? 3)%Z with false
    by (symmetry; apply Z.ltb_ge; lia).
  replace (Z.of_nat (length w) <? 3)%Z with false
    by (symmetry; apply Z.ltb_ge; lia).
  replace (1 <=? Z.of_nat (length (pre ++ w)))%Z with true
    by (symmetry; apply Z.leb_le; lia).
  replace (2 <=? Z.of_nat (length (pre ++ w)))%Z with true
    by (symmetry; apply Z.leb_le; lia).
  replace (3 <=? Z.of_nat (length (pre ++ w)))%Z with true
    by (symmetry; apply Z.leb_le; lia).
  replace (4 <=? Z.of_nat (length (pre ++ w)))%Z with true
    by (symmetry; apply Z.leb_le; lia).
  replace (1 <=? Z.of_nat (length w))%Z with true
    by (symmetry; apply Z.leb_le; lia).
  replace (2 <=? Z.of_nat (length w))%Z with true
    by (symmetry; apply Z.leb_le; lia).
  replace (3 <=? Z.of_nat (length w))%Z with true
    by (symmetry; apply Z.leb_le; lia).
  replace (4 <=? Z.of_nat (length w))%Z with true
    by (symmetry; apply Z.leb_le; lia).
  replace (6 `min` Z.of_nat (length (pre ++ w)))%Z with 6%Z by lia.
  replace (6 `min` Z.of_nat (length w))%Z with 6%Z by lia.
  change (- (6))%Z with (- Z.of_nat 6)%Z.
  change (-1)%Z with (- Z.of_nat 1)%Z.
  change (-2)%Z with (- Z.of_nat 2)%Z.
  change (-3)%Z with (- Z.of_nat 3)%Z.
  change (-4)%Z with (- Z.of_nat 4)%Z.
  rewrite !(py_index_suffix pre w) by lia.
  rewrite !(py_slice_from_suffix pre w) by lia.
  reflexivity.
Qed.

(** The engineered features look at the last six values only: two series
    that end with the same six (or more) values give the same features, in
    [calculate_feature_engineering_values] and in the loop of
    [generate_forecast], whatever comes before. *)
Theorem features_depend_on_last_six
    (m e : Z) (pre pre' w : list Q) :
  (6 <= length w)%nat ->
  loop_model_input m e (pre ++ w) = loop_model_input m e (pre' ++ w) /\
  feature_engineering_body (pre ++ w) = feature_engineering_body (pre' ++ w).
Proof.
  intros Hw. split.
  - now rewrite !loop_model_input_suffix.
  - now rewrite !feature_engineering_body_suffix.
Qed.

Lemma features_depend_on_last_six_witness :
  loop_model_input 75 7 ([1; 2; 3] ++ [10; 20; 30; 40; 50; 60])
  = loop_model_input 75 7 ([900] ++ [10; 20; 30; 40; 50; 60]) /\
  feature_engineering_body ([1; 2; 3] ++ [10; 20; 30; 40; 50; 60])
  = feature_engineering_body ([900] ++ [10; 20; 30; 40; 50; 60]).
Proof.
  apply (features_depend_on_last_six 75 7 [1; 2; 3] [900] [10; 20; 30; 40; 50; 60]).
  simpl; lia.
Defined.

(** Both feature engineers, written out for a series of at least 3 values. *)
Lemma features_explicit (m e : Z) (v : list Q) :
  (3 <= length v)%nat ->
  feature_engineering_body v
  = Ok (mkFeatureValues
          (nth (length v - 1) v 0) (nth (length v - 2) v 0)
          (nth (length v - 3) v 0) (np_mean (py_slice_from v (-3)))
          (spec_pct_change 1 v) (spec_pct_change 3 v) (growth_slope_of v)) /\
  loop_model_input m e v
  = Ok (mkModelInput (inject_Z m) (inject_Z e)
          (nth (length v - 1) v 0) (nth (length v - 2) v 0)
          (nth (length v - 3) v 0) (np_mean (py_slice_from v (-3)))
          (spec_pct_change 1 v) (spec_pct_change 3 v) (growth_slope_of v)).
Proof.
  intros Hv.
  pose proof (pct_change_1_code v ltac:(lia)) as H1.
  pose proof (pct_change_3_code v ltac:(lia)) as H3.
  unfold pct_change_code in H1, H3.
  change (- (2))%Z with (-2)%Z in H1. change (- (4))%Z with (-4)%Z in H3.
  destruct (py_index_lags v Hv) as (Hl1 & Hl2 & Hl3).
  split.
  - unfold feature_engineering_body. rewrite H1, H3.
    replace (Z.of_nat (length v) <? 3)%Z with false
      by (symmetry; apply Z.ltb_ge; lia).
    replace (1 <=? Z.of_nat (length v))%Z with true
      by (symmetry; apply Z.leb_le; lia).
    replace (2 <=? Z.of_nat (length v))%Z with true
      by (symmetry; apply Z.leb_le; lia).
    replace (3 <=? Z.of_nat (length v))%Z with true
      by (symmetry; apply Z.leb_le; lia).
    rewrite Hl1, Hl2, Hl3. reflexivity.
  - unfold loop_model_input. rewrite H1, H3, Hl1, Hl2, Hl3. reflexivity.
Qed.

Lemma calculate_feature_engineering_values_run hd s v :
  st_heap s !! hd_ev_totals hd = Some v ->
  calculate_feature_engineering_values hd s
  = (res_try (feature_engineering_body v)
       (fun e => Raise (mkExn ValueError
          ("Error calculating feature engineering values: " +:+ exn_str e))), s).
Proof.
  intros Hv. unfold calculate_feature_engineering_values, try_except, bindM.
  rewrite (list_read_run _ _ _ Hv), lift_run.
  now destruct (feature_engineering_body v).
Qed.

(** The lag features are the last three values, most recent first, and the
    rolling mean is their average, in [calculate_feature_engineering_values]
    and in the loop of [generate_forecast] alike; the loop passes the month
    count and the county code through unchanged and computes the same growth
    slope. *)
Theorem lag_features_and_rolling_mean
    (pre : list Q) (a b c : Q) (hd : HistoricalData) (s : pystate) (m e : Z) :
  st_heap s !! hd_ev_totals hd = Some (pre ++ [a; b; c]) ->
  exists fv mi,
    calculate_feature_engineering_values hd s = (Ok fv, s) /\
    loop_model_input m e (pre ++ [a; b; c]) = Ok mi /\
    ev_total_lag1 fv = c /\ ev_total_lag2 fv = b /\ ev_total_lag3 fv = a /\
    ev_total_roll_mean_3 fv == (a + b + c) / 3 /\
    in_months_since_start mi = inject_Z m /\
    in_county_encoded mi = inject_Z e /\
    in_ev_total_lag1 mi = c /\ in_ev_total_lag2 mi = b /\
    in_ev_total_lag3 mi = a /\
    in_ev_total_roll_mean_3 mi = ev_total_roll_mean_3 fv /\
    in_ev_growth_slope mi = ev_growth_slope fv.
Proof.
  intros Hheap. set (v := pre ++ [a; b; c]) in *.
  assert (Hv : (3 <= length v)%nat)
    by (subst v; rewrite length_app; cbn; lia).
  destruct (features_explicit m e v Hv) as [Hfv Hmi].
  eexists _, _. split.
  { rewrite (calculate_feature_engineering_values_run _ _ _ Hheap), Hfv.
    reflexivity. }
  split; [exact Hmi|].
  assert (Hn : length v = (length pre + 3)%nat)
    by (subst v; rewrite length_app; cbn; lia).
  assert (Hnth : forall i x, [a; b; c] !! i = Some x ->
                             nth (length pre + i) v 0 = x).
  { intros i x Hi. apply nth_lookup_Some. subst v.
    rewrite lookup_app_r by lia.
    now replace (length pre + i - length pre)%nat with i by lia. }
  cbn [ev_total_lag1 ev_total_lag2 ev_total_lag3 ev_total_roll_mean_3
       ev_growth_slope in_months_since_start in_county_encoded in_ev_total_lag1
       in_ev_total_lag2 in_ev_total_lag3 in_ev_total_roll_mean_3
       in_ev_growth_slope].
  rewrite Hn.
  replace (length pre + 3 - 1)%nat with (length pre + 2)%nat by lia.
  replace (length pre + 3 - 2)%nat with (length pre + 1)%nat by lia.
  replace (length pre + 3 - 3)%nat with (length pre + 0)%nat by lia.
  rewrite (Hnth 2%nat c eq_refl), (Hnth 1%nat b eq_refl), (Hnth 0%nat a eq_refl).
  repeat split; try reflexivity.
  subst v. change (-3)%Z with (- Z.of_nat 3)%Z.
  rewrite (py_slice_from_suffix pre [a; b; c] 3) by (cbn; lia).
  change (py_slice_from [a; b; c] (- Z.of_nat 3)) with [a; b; c].
  unfold np_mean, Qsum, Qnat.
  change (inject_Z (Z.of_nat (length [a; b; c]))) with 3.
  cbn [foldr]. field.
Qed.

Lemma lag_features_and_rolling_mean_witness :
  exists fv mi,
    calculate_feature_engineering_values (ci_historical_data ex_info)
      (ex_state ([900; 950] ++ [1000; 1050; 1100]))
    = (Ok fv, ex_state ([900; 950] ++ [1000; 1050; 1100])) /\
    loop_model_input 75 7 ([900; 950] ++ [1000; 1050; 1100]) = Ok mi /\
    ev_total_lag1 fv = 1100 /\ ev_total_lag2 fv = 1050 /\
    ev_total_lag3 fv = 1000 /\
    ev_total_roll_mean_3 fv == (1000 + 1050 + 1100) / 3 /\
    in_months_since_start mi = 75 /\
    in_county_encoded mi = 7 /\
    in_ev_total_lag1 mi = 1100 /\ in_ev_total_lag2 mi = 1050 /\
    in_ev_total_lag3 mi = 1000 /\
    in_ev_total_roll_mean_3 mi = ev_total_roll_mean_3 fv /\
    in_ev_growth_slope mi = ev_growth_slope fv.
Proof.
  apply (lag_features_and_rolling_mean [900; 950] 1000 1050 1100
           (ci_historical_data ex_info)
           (ex_state ([900; 950] ++ [1000; 1050; 1100])) 75 7).
  reflexivity.
Defined.

(** ** Computations that only read *)

Lemma reads_only_retM {A} (a : A) : reads_only (retM a).
Proof. intros s. reflexivity. Qed.

Lemma reads_only_lift {A} (r : res A) : reads_only (lift r).
Proof. intros s. reflexivity. Qed.

Lemma reads_only_raise {A} e : reads_only (@raise A e).
Proof. intros s. reflexivity. Qed.

Lemma reads_only_list_read l : reads_only (list_read l).
Proof. intros s. unfold list_read. now destruct (st_heap s !! l). Qed.

Lemma reads_only_bindM {A B} (m : M A) (k : A -> M B) :
  reads_only m -> (forall a, reads_only (k a)) -> reads_only (bindM m k).
Proof.
  intros Hm Hk s. unfold bindM. specialize (Hm s).
  destruct (m s) as [[a|e] s1]; cbn in Hm; subst s1; [apply Hk|reflexivity].
Qed.

Lemma reads_only_try_except {A} (m : M A) h :
  reads_only m -> (forall e, reads_only (h e)) -> reads_only (try_except m h).
Proof.
  intros Hm Hh s. unfold try_except. specialize (Hm s).
  destruct (m s) as [[a|e] s1]; cbn in Hm; subst s1; [reflexivity|apply Hh].
Qed.

Create HintDb reads_only.
#[export] Hint Resolve reads_only_retM reads_only_lift reads_only_raise
  reads_only_list_read : reads_only.

Ltac reads_only_step :=
  match goal with
  | |- reads_only (bindM _ _) => apply reads_only_bindM; [|intros ?]
  | |- reads_only (try_except _ _) => apply reads_only_try_except; [|intros ?]
  | |- reads_only (match ?x with _ => _ end) => destruct x
  | |- reads_only _ => solve [eauto with reads_only]
  end.

Lemma reads_only_calculate hd :
  reads_only (calculate_feature_engineering_values hd).
Proof. unfold calculate_feature_engineering_values. repeat reads_only_step. Qed.

#[export] Hint Resolve reads_only_calculate : reads_only.

(** [calculate_feature_engineering_values] only reads: it leaves every list
    and every other part of the state as it found them, and everything that
    fails inside it, the short-series check included, reaches the caller as a
    [ValueError] whose message starts with the function's own prefix. *)
Theorem calculate_feature_engineering_values_reads_and_wraps
    (hd : HistoricalData) (s : pystate) :
  (calculate_feature_engineering_values hd s).2 = s /\
  forall e s',
    calculate_feature_engineering_values hd s = (Raise e, s') ->
    exn_cls e = ValueError /\
    exists cause,
      exn_str e = "Error calculating feature engineering values: " +:+ cause.
Proof.
  split; [apply reads_only_calculate|].
  intros e s'. unfold calculate_feature_engineering_values, try_except.
  match goal with |- context [match ?body s with _ => _ end] =>
    destruct (body s) as [[r|e0] s0]
  end; [discriminate|].
  unfold raise, lift. intros [= <- _]. split; [reflexivity|]. cbn. eauto.
Qed.

(** A series of fewer than 3 values: the function raises a [ValueError]
    with the "insufficient data" message inside its own prefix. *)
Theorem calculate_feature_engineering_values_short_series
    (hd : HistoricalData) (s : pystate) (v : list Q) :
  st_heap s !! hd_ev_totals hd = Some v ->
  (length v < 3)%nat ->
  calculate_feature_engineering_values hd s
  = (Raise (mkExn ValueError
       "Error calculating feature engineering values: Insufficient historical data for feature engineering (need at least 3 data points)"),
     s).
Proof.
  intros Hv Hlen. rewrite (calculate_feature_engineering_values_run _ _ _ Hv).
  unfold feature_engineering_body.
  replace (Z.of_nat (length v) <? 3)%Z with true
    by (symmetry; apply Z.ltb_lt; lia).
  reflexivity.
Qed.

Lemma calculate_feature_engineering_values_short_series_witness :
  calculate_feature_engineering_values (ci_historical_data ex_info)
    (ex_state [10; 20])
  = (Raise (mkExn ValueError
       "Error calculating feature engineering values: Insufficient historical data for feature engineering (need at least 3 data points)"),
     ex_state [10; 20]).
Proof.
  apply (calculate_feature_engineering_values_short_series
           (ci_historical_data ex_info) (ex_state [10; 20]) [10; 20]).
  - reflexivity.
  - simpl; lia.
Defined.

(** ** [prepare_model_input] *)

Lemma months_since_start_run env dates k ld base s :
  latest_and_base env dates = Ok (ld, base) ->
  try_except
    (earliest_date <- lift (csv_earliest_date env);
     latest_date <- lift (py_max_date dates);
     let months_diff := months_between latest_date earliest_date in
     retM (months_diff + k)%Z)
    (fun _ =>
     latest_date <- lift (py_max_date dates);
     let start_date := datetime 2018 1 1 in
     retM (months_between latest_date start_date + k)%Z) s
  = (Ok (base + k)%Z, s).
Proof.
  unfold latest_and_base, try_except, bindM, lift, retM, res_try.
  destruct (csv_earliest_date env), (py_max_date dates); cbn;
    intros [= <- <-] || discriminate; reflexivity.
Qed.

Lemma enough_dates (dates : list Date) :
  (3 <= length dates)%nat ->
  bool_decide (dates = []) || (Z.of_nat (length dates) <? 3)%Z = false.
Proof.
  intros H. apply orb_false_iff. split.
  - apply bool_decide_eq_false. intros ->. cbn in H. lia.
  - apply Z.ltb_ge. lia.
Qed.

Lemma too_few_dates (dates : list Date) :
  (length dates < 3)%nat ->
  bool_decide (dates = []) || (Z.of_nat (length dates) <? 3)%Z = true.
Proof.
  intros H. apply orb_true_iff. right. apply Z.ltb_lt. lia.
Qed.

(** For a county with at least 3 dates and 3 values, [prepare_model_input]
    builds, without changing anything, the very input that the loop of
    [generate_forecast] builds from the same series for the month
    [forecast_months] steps ahead. *)
Theorem prepare_model_input_is_loop_input
    (env : Env) (county_name : string) (county_data : gmap string CountyInfo)
    (county_info : CountyInfo) (county_encoded forecast_months : Z)
    (hs : list Q) (s : pystate) :
  county_data !! county_name = Some county_info ->
  encoding_of env county_name = Some county_encoded ->
  (3 <= length (hd_dates (ci_historical_data county_info)))%nat ->
  st_heap s !! hd_ev_totals (ci_historical_data county_info) = Some hs ->
  (3 <= length hs)%nat ->
  exists latest_date base_months model_input,
    latest_and_base env (hd_dates (ci_historical_data county_info))
    = Ok (latest_date, base_months) /\
    prepare_model_input env county_name county_data forecast_months s
    = (Ok model_input, s) /\
    loop_model_input (base_months + forecast_months) county_encoded hs
    = Ok model_input.
Proof.
  intros Hinfo Henc Hdates Hheap Hhs.
  destruct (latest_and_base_nonempty env
              (hd_dates (ci_historical_data county_info)))
    as (ld & base & _ & Hbase).
  { intros E. rewrite E in Hdates. cbn in Hdates. lia. }
  destruct (features_explicit (base + forecast_months) county_encoded hs Hhs)
    as [Hfv Hmi].
  exists ld, base. eexists. split; [exact Hbase|]. split; [|exact Hmi].
  unfold prepare_model_input, get_county_info.
  rewrite Hinfo. apply try_except_ok.
  rewrite (bindM_ok _ _ _ _ _ (get_county_encoding_Some _ _ _ s Henc)).
  cbv zeta. rewrite (enough_dates _ Hdates).
  rewrite (bindM_ok _ _ _ _ _ (months_since_start_run _ _ _ _ _ _ Hbase)).
  assert (Hc : calculate_feature_engineering_values
                 (ci_historical_data county_info) s
               = (Ok (mkFeatureValues
                   (nth (length hs - 1) hs 0) (nth (length hs - 2) hs 0)
                   (nth (length hs - 3) hs 0) (np_mean (py_slice_from hs (-3)))
                   (spec_pct_change 1 hs) (spec_pct_change 3 hs)
                   (growth_slope_of hs)), s)).
  { rewrite (calculate_feature_engineering_values_run _ _ _ Hheap), Hfv.
    reflexivity. }
  rewrite (bindM_ok _ _ _ _ _ Hc). reflexivity.
Qed.

Lemma prepare_model_input_is_loop_input_witness :
  exists latest_date base_months model_input,
    latest_and_base (ex_env 0) (hd_dates (ci_historical_data ex_info))
    = Ok (latest_date, base_months) /\
    prepare_model_input (ex_env 0) "King" ex_data 1
      (ex_state [1000; 1050; 1100])
    = (Ok model_input, ex_state [1000; 1050; 1100]) /\
    loop_model_input (base_months + 1) 7 [1000; 1050; 1100] = Ok model_input.
Proof.
  apply (prepare_model_input_is_loop_input (ex_env 0) "King" ex_data ex_info
           7 1 [1000; 1050; 1100] (ex_state [1000; 1050; 1100])).
  - reflexivity.
  - reflexivity.
  - simpl; lia.
  - reflexivity.
  - simpl; lia.
Defined.

(** A county in the data and in the encoding table with fewer than 3 dates
    is refused with a [ValueError] naming the county, whatever its series
    holds, and nothing is changed. *)
Theorem prepare_model_input_insufficient_dates
    (env : Env) (county_name : string) (county_data : gmap string CountyInfo)
    (county_info : CountyInfo) (county_encoded forecast_months : Z)
    (s : pystate) :
  county_data !! county_name = Some county_info ->
  encoding_of env county_name = Some county_encoded ->
  (length (hd_dates (ci_historical_data county_info)) < 3)%nat ->
  prepare_model_input env county_name county_data forecast_months s
  = (Raise (mkExn ValueError
       ("Insufficient historical data for county '" +:+ county_name
        +:+ "' (need at least 3 data points)")), s).
Proof.
  intros Hinfo Henc Hdates.
  unfold prepare_model_input, get_county_info.
  rewrite Hinfo. unfold try_except.
  rewrite (bindM_ok _ _ _ _ _ (get_county_encoding_Some _ _ _ s Henc)).
  cbv zeta. rewrite (too_few_dates _ Hdates).
  reflexivity.
Qed.

Lemma prepare_model_input_insufficient_dates_witness :
  prepare_model_input (ex_env 0) "King" ex_data2 1 (ex_state [1000; 1050; 1100])
  = (Raise (mkExn ValueError
       ("Insufficient historical data for county '" +:+ "King"
        +:+ "' (need at least 3 data points)")),
     ex_state [1000; 1050; 1100]).
Proof.
  apply (prepare_model_input_insufficient_dates (ex_env 0) "King" ex_data2
           ex_info2 7 1 (ex_state [1000; 1050; 1100])).
  - reflexivity.
  - reflexivity.
  - simpl; lia.
Defined.

Lemma prepare_model_input_state env county_name county_data months s :
  (prepare_model_input env county_name county_data months s).2
  = with_errors s (match county_data !! county_name with
                   | Some _ => encoding_errors env
                   | None => []
                   end).
Proof.
  unfold prepare_model_input, get_county_info.
  destruct (county_data !! county_name) as [county_info|].
  - unfold try_except at 1. unfold bindM at 1.
    rewrite get_county_encoding_run.
    set (s1 := with_errors s (encoding_errors env)). cbv beta.
    match goal with |- context [match ?rest s1 with _ => _ end] =>
      assert (Hrest : reads_only rest) by (repeat reads_only_step);
      specialize (Hrest s1); destruct (rest s1) as [[a|e] s2]
    end; cbn [snd] in Hrest; subst s2; [reflexivity|].
    now destruct (is_ValueError e).
  - cbn. now rewrite with_errors_nil.
Qed.

(** [prepare_model_input] copies and extends no list and touches neither
    the local lists nor the warnings: the state after it is the state
    before it, with the error of [get_county_encoding_map] added when the
    county is in the data and the encoding dictionary could not be built.
    Whatever goes wrong in it, a dangling list included, reaches the caller
    as a [ValueError]. *)
Theorem prepare_model_input_reads_and_raises_ValueError
    (env : Env) (county_name : string) (county_data : gmap string CountyInfo)
    (forecast_months : Z) (s : pystate) :
  (prepare_model_input env county_name county_data forecast_months s).2
  = with_errors s (match county_data !! county_name with
                   | Some _ => encoding_errors env
                   | None => []
                   end) /\
  (forall encoding_map,
     county_encoding_map env = Ok encoding_map ->
     (prepare_model_input env county_name county_data forecast_months s).2 = s) /\
  forall e s',
    prepare_model_input env county_name county_data forecast_months s
    = (Raise e, s') ->
    exn_cls e = ValueError.
Proof.
  split; [apply prepare_model_input_state|]. split.
  - intros encoding_map Hmap. rewrite prepare_model_input_state.
    unfold encoding_errors. rewrite Hmap.
    destruct (county_data !! county_name); apply with_errors_nil.
  - intros e s'. unfold prepare_model_input, try_except.
    match goal with |- context [match ?body s with _ => _ end] =>
      destruct (body s) as [[r|e0] s0]
    end; [discriminate|].
    intros H. apply reraise_is_ValueError in H as [H _].
    unfold is_ValueError in H. now destruct (exn_cls e).
Qed.

(** ** What is shown by [st.error] *)

Lemma no_error_shown_of_reads_only {A} (m : M A) :
  reads_only m -> no_error_shown m.
Proof. intros Hm s. now rewrite Hm. Qed.

Lemma no_error_shown_bindM {A B} (m : M A) (k : A -> M B) :
  no_error_shown m -> (forall a, no_error_shown (k a)) ->
  no_error_shown (bindM m k).
Proof.
  intros Hm Hk s. unfold bindM. specialize (Hm s).
  destruct (m s) as [[a|e] s1]; cbn [snd] in *; [|exact Hm].
  now rewrite Hk.
Qed.

Lemma no_error_shown_try_except {A} (m : M A) h :
  no_error_shown m -> (forall e, no_error_shown (h e)) ->
  no_error_shown (try_except m h).
Proof.
  intros Hm Hh s. unfold try_except. specialize (Hm s).
  destruct (m s) as [[a|e] s1]; cbn [snd] in *; [exact Hm|].
  now rewrite Hh.
Qed.

Lemma no_error_shown_retM {A} (a : A) : no_error_shown (retM a).
Proof. intros s. reflexivity. Qed.

Lemma no_error_shown_lift {A} (r : res A) : no_error_shown (lift r).
Proof. intros s. reflexivity. Qed.

Lemma no_error_shown_raise {A} e : no_error_shown (@raise A e).
Proof. intros s. reflexivity. Qed.

Lemma no_error_shown_list_read l : no_error_shown (list_read l).
Proof. apply no_error_shown_of_reads_only, reads_only_list_read. Qed.

Lemma no_error_shown_list_copy l : no_error_shown (list_copy l).
Proof.
  intros s. unfold list_copy, bindM, list_read.
  now destruct (st_heap s !! l).
Qed.

Lemma no_error_shown_list_append l x : no_error_shown (list_append l x).
Proof.
  intros s. unfold list_append, bindM, list_read.
  now destruct (st_heap s !! l).
Qed.

Lemma no_error_shown_get_predictions : no_error_shown get_predictions.
Proof. intros s. reflexivity. Qed.

Lemma no_error_shown_set_predictions ps : no_error_shown (set_predictions ps).
Proof. intros s. reflexivity. Qed.

Lemma no_error_shown_get_prediction_dates : no_error_shown get_prediction_dates.
Proof. intros s. reflexivity. Qed.

Lemma no_error_shown_set_prediction_dates ds :
  no_error_shown (set_prediction_dates ds).
Proof. intros s. reflexivity. Qed.

Lemma no_error_shown_st_warning msg : no_error_shown (st_warning msg).
Proof. intros s. reflexivity. Qed.

Lemma no_error_shown_for_each {A} (xs : list A) body :
  (forall x, no_error_shown (body x)) -> no_error_shown (for_each xs body).
Proof.
  intros Hb. induction xs as [|x xs IH]; cbn [for_each].
  - apply no_error_shown_retM.
  - apply no_error_shown_bindM; [apply Hb|]. intros _. apply IH.
Qed.

Create HintDb no_error.
#[export] Hint Resolve no_error_shown_retM no_error_shown_lift
  no_error_shown_raise no_error_shown_list_read no_error_shown_list_copy
  no_error_shown_list_append no_error_shown_get_predictions
  no_error_shown_set_predictions no_error_shown_get_prediction_dates
  no_error_shown_set_prediction_dates no_error_shown_st_warning : no_error.

Ltac no_error_step :=
  match goal with
  | |- no_error_shown (bindM _ _) => apply no_error_shown_bindM; [|intros ?]
  | |- no_error_shown (try_except _ _) =>
      apply no_error_shown_try_except; [|intros ?]
  | |- no_error_shown (for_each _ _) => apply no_error_shown_for_each; intros ?
  | |- no_error_shown (match ?x with _ => _ end) => destruct x
  | |- no_error_shown _ => solve [eauto with no_error]
  end.

Lemma no_error_shown_forecast_step model hd enc base latest cur month :
  no_error_shown (forecast_step model hd enc base latest cur month).
Proof.
  unfold forecast_step, forecast_try, forecast_except, predictions_append,
    prediction_dates_append.
  repeat no_error_step.
Qed.

#[export] Hint Resolve no_error_shown_forecast_step : no_error.

(** The only error [generate_forecast] shows itself is the one of
    [get_county_encoding_map], and only when it gets as far as the encoding:
    with a model, a county in the data and its list copied. *)
Lemma generate_forecast_errors env county_name county_data model months s :
  exists shown,
    st_errors (generate_forecast env county_name county_data model months s).2
    = st_errors s ++ shown /\
    (shown = [] \/ shown = encoding_errors env).
Proof.
  assert (Hnil : forall s0 : pystate, st_errors s0 = st_errors s ->
            exists shown, st_errors s0 = st_errors s ++ shown /\
                          (shown = [] \/ shown = encoding_errors env)).
  { intros s0 H. exists []. rewrite app_nil_r. auto. }
  unfold generate_forecast, get_county_info. unfold try_except at 1.
  destruct model as [m|]; [|now apply Hnil].
  destruct (county_data !! county_name) as [info|]; [|now apply Hnil].
  unfold bindM at 1.
  pose proof (no_error_shown_list_copy
                (hd_ev_totals (ci_historical_data info)) s) as Hcopy.
  destruct (list_copy (hd_ev_totals (ci_historical_data info)) s)
    as [[ev_totals|e] s1]; cbn [snd] in Hcopy.
  - unfold bindM at 1. rewrite get_county_encoding_run.
    set (s2 := with_errors s1 (encoding_errors env)).
    assert (Hs2 : st_errors s2 = st_errors s ++ encoding_errors env)
      by (subst s2; cbn; now rewrite Hcopy).
    exists (encoding_errors env). split; [|now right].
    rewrite <- Hs2. cbv beta.
    match goal with |- context [match ?rest s2 with _ => _ end] =>
      assert (Hrest : no_error_shown rest) by (repeat no_error_step);
      specialize (Hrest s2); destruct (rest s2) as [[a|e] s3]
    end; cbn [snd] in Hrest; [exact Hrest|].
    now destruct (is_ValueError e).
  - apply Hnil. now destruct (is_ValueError e).
Qed.

(** ** [safe_generate_forecast] *)

(** The decorated function hands back the result of [generate_forecast]
    untouched and adds nothing to the page; where [generate_forecast] raises
    it returns [None] and adds exactly one message to what
    [generate_forecast] has shown, the "Prediction Error" of the
    [ValueError] clause.  The clauses for [FileNotFoundError] and for
    unexpected errors are never taken: no hint, no traceback and no second
    message come from the wrapper.  [generate_forecast] itself shows the
    warnings of its fallback steps and at most one error, that of
    [get_county_encoding_map] when the encoding dictionary cannot be built;
    the "Prediction Error" then comes second. *)
Theorem safe_generate_forecast_outcome
    (format_exc : exn -> string) (env : Env) (county_name : string)
    (county_data : gmap string CountyInfo) (model : option Model)
    (forecast_months : Z) (pg : page) :
  match safe_generate_forecast format_exc env county_name county_data model
          forecast_months pg with
  | (Some r, pg') =>
      generate_forecast env county_name county_data model forecast_months
        (pg_state pg) = (Ok r, pg_state pg') /\
      pg_infos pg' = pg_infos pg /\ pg_code pg' = pg_code pg
  | (None, pg') =>
      exists e s1,
        generate_forecast env county_name county_data model forecast_months
          (pg_state pg) = (Raise e, s1) /\
        exn_cls e = ValueError /\
        pg_state pg'
        = with_errors s1 ["❌ Prediction Error: " +:+ exn_str e] /\
        pg_infos pg' = pg_infos pg /\ pg_code pg' = pg_code pg
  end /\
  exists shown,
    st_errors (generate_forecast env county_name county_data model
                 forecast_months (pg_state pg)).2
    = st_errors (pg_state pg) ++ shown /\
    (shown = [] \/ shown = encoding_errors env).
Proof.
  split; [|apply generate_forecast_errors].
  unfold safe_generate_forecast, handle_prediction_errors.
  destruct (generate_forecast env county_name county_data model forecast_months
              (pg_state pg)) as [[r|e] s'] eqn:Hcall.
  - cbn. repeat split; reflexivity.
  - pose proof (generate_forecast_Raise_inv _ _ _ _ _ _ _ _ Hcall) as He.
    unfold is_ValueError in He.
    destruct (exn_cls e) eqn:Hcls; try discriminate He.
    exists e, s'. cbn. repeat split; try reflexivity. exact Hcls.
Qed.

(** ** The county selection *)

Lemma prefix_app (p d : string) : String.prefix p (p +:+ d) = true.
Proof.
  induction p as [|c p IH]; [now destruct d|].
  change (String c p +:+ d) with (String c (p +:+ d)).
  cbn [String.prefix].
  destruct (Ascii.ascii_dec c c); [exact IH|congruence].
Qed.

Lemma py_replace_from_skip (old new p d : string) :
  py_replace_from old new (String.length p) (p +:+ d)
  = py_replace_from old new 0 d.
Proof.
  induction p as [|c p IH]; cbn [String.length String.append].
  - destruct d; reflexivity.
  - cbn [py_replace_from]. exact IH.
Qed.

(** [(old + d).replace(old, new) = new + d.replace(old, new)]. *)
Lemma py_replace_prefix (old new d : string) :
  old <> EmptyString ->
  py_replace old new (old +:+ d) = new +:+ py_replace old new d.
Proof.
  intros Hold. unfold py_replace.
  destruct old as [|c old']; [congruence|].
  change (String c old' +:+ d) with (String c (old' +:+ d)).
  cbn [py_replace_from].
  change (String c (old' +:+ d)) with (String c old' +:+ d).
  rewrite prefix_app.
  replace (String.length (String c old') - 1)%nat with (String.length old')
    by (cbn; lia).
  now rewrite py_replace_from_skip.
Qed.

Lemma pin_removed (d : string) :
  py_replace pin "" (pin +:+ d) = py_replace pin "" d.
Proof. now rewrite py_replace_prefix. Qed.

Lemma pin_not_magnifier (d : string) :
  negb (String.prefix "🔍" (pin +:+ d)) = true.
Proof. reflexivity. Qed.

Lemma find_first {A} (f : A -> bool) (l : list A) (n : nat) (x : A) :
  l !! n = Some x -> f x = true ->
  (forall m y, (m < n)%nat -> l !! m = Some y -> f y = false) ->
  find f l = Some x.
Proof.
  revert n. induction l as [|a l IH]; intros n Hn Hx Hbefore; [discriminate|].
  destruct n as [|n].
  - injection Hn as ->. cbn. now rewrite Hx.
  - cbn. rewrite (Hbefore 0%nat a) by (lia || reflexivity).
    apply (IH n); [exact Hn|exact Hx|].
    intros m y Hm Hy. apply (Hbefore (S m) y); [lia|exact Hy].
Qed.

Lemma find_Some_elem {A} (f : A -> bool) (l : list A) (x : A) :
  find f l = Some x ->
  f x = true /\ exists n, l !! n = Some x /\
    forall m y, (m < n)%nat -> l !! m = Some y -> f y = false.
Proof.
  induction l as [|a l IH]; [discriminate|]. cbn.
  destruct (f a) eqn:Ha.
  - intros [= ->]. split; [exact Ha|]. exists 0%nat. split; [reflexivity|].
    intros m y Hm. lia.
  - intros H. destruct (IH H) as (Hx & n & Hn & Hbefore).
    split; [exact Hx|]. exists (S n). split; [exact Hn|].
    intros [|m] y Hm Hy.
    + injection Hy as <-. exact Ha.
    + apply (Hbefore m y); [lia|exact Hy].
Qed.

Lemma county_options_S counties county_data n :
  county_options counties county_data !! S n
  = (fun county => pin +:+ get_county_display_name county county_data)
    <$> counties !! n.
Proof.
  unfold county_options.
  rewrite <- list_lookup_fmap. reflexivity.
Qed.

(** Choosing the option of a county gives that county back, provided its
    display name does not contain the marker and no earlier county of the
    list shows the same display name. *)
Theorem render_county_selection_round_trip
    (counties : list string) (county_data : gmap string CountyInfo)
    (n : nat) (county : string) :
  counties !! n = Some county ->
  py_replace pin "" (get_county_display_name county county_data)
  = get_county_display_name county county_data ->
  (forall m other, (m < n)%nat -> counties !! m = Some other ->
     get_county_display_name other county_data
     <> get_county_display_name county county_data) ->
  render_county_selection counties county_data (S n) = Some county.
Proof.
  intros Hn Hclean Hfirst. unfold render_county_selection. cbv zeta.
  rewrite county_options_S, Hn. cbn [fmap option_fmap option_map].
  rewrite pin_not_magnifier.
  change "📍 " with pin. rewrite pin_removed, Hclean.
  apply (find_first _ _ n); [exact Hn|now apply bool_decide_eq_true|].
  intros m other Hm Hother. apply bool_decide_eq_false.
  exact (Hfirst m other Hm Hother).
Qed.

Lemma render_county_selection_round_trip_witness :
  render_county_selection ["King"; "Pierce"] ex_data 2 = Some "Pierce".
Proof.
  apply (render_county_selection_round_trip ["King"; "Pierce"] ex_data 1 "Pierce").
  - reflexivity.
  - reflexivity.
  - intros [|m] other Hm Hother; [|lia].
    injection Hother as <-. discriminate.
Defined.

(** What comes back is always one of the counties offered, it comes back
    for an option after the placeholder only, and it is the first county
    whose display name is the chosen option's with the marker taken out. *)
Theorem render_county_selection_sound
    (counties : list string) (county_data : gmap string CountyInfo)
    (selected : nat) (county : string) :
  render_county_selection counties county_data selected = Some county ->
  exists n chosen i,
    selected = S n /\ counties !! n = Some chosen /\
    counties !! i = Some county /\
    get_county_display_name county county_data
    = py_replace pin "" (get_county_display_name chosen county_data) /\
    forall m other, (m < i)%nat -> counties !! m = Some other ->
      get_county_display_name other county_data
      <> get_county_display_name county county_data.
Proof.
  unfold render_county_selection. cbv zeta.
  destruct selected as [|n]; [discriminate|].
  rewrite county_options_S.
  destruct (counties !! n) as [chosen|] eqn:Hn; [|discriminate].
  cbn [fmap option_fmap option_map]. rewrite pin_not_magnifier.
  change "📍 " with pin. rewrite pin_removed.
  intros Hfind. apply find_Some_elem in Hfind as (Hname & i & Hi & Hbefore).
  apply bool_decide_eq_true in Hname.
  exists n, chosen, i. repeat split; try assumption.
  intros m other Hm Hother Heq.
  specialize (Hbefore m other Hm Hother).
  apply bool_decide_eq_false in Hbefore. apply Hbefore. congruence.
Qed.

Lemma render_county_selection_sound_witness :
  exists n chosen i,
    1%nat = S n /\ ["King"; "Pierce"] !! n = Some chosen /\
    ["King"; "Pierce"] !! i = Some "King" /\
    get_county_display_name "King" ex_data
    = py_replace pin "" (get_county_display_name chosen ex_data) /\
    forall m other, (m < i)%nat -> ["King"; "Pierce"] !! m = Some other ->
      get_county_display_name other ex_data
      <> get_county_display_name "King" ex_data.
Proof.
  apply (render_county_selection_sound ["King"; "Pierce"] ex_data 1 "King").
  reflexivity.
Defined.

(** ** The forecast table *)

Lemma mapM_res_Ok {A B} (f : A -> res B) (h : A -> B) (l : list A) :
  (forall x, x ∈ l -> f x = Ok (h x)) -> mapM f l = Ok (h <$> l).
Proof.
  induction l as [|x l IH]; intros Hf; [reflexivity|].
  cbn [mapM]. rewrite (Hf x) by apply list_elem_of_here.
  cbn. rewrite IH by (intros y Hy; apply Hf; now apply list_elem_of_further).
  reflexivity.
Qed.

Lemma mapM_res_Raise {A B} (f : A -> res B) (x : A) (l : list A) e :
  f x = Raise e -> mapM f (x :: l) = Raise e.
Proof. intros Hx. cbn [mapM]. now rewrite Hx. Qed.

Lemma py_index_nonneg (l : list Q) (i : Z) :
  (0 <= i < Z.of_nat (length l))%Z ->
  py_index l i = Ok (nth (Z.to_nat i) l 0).
Proof.
  intros Hi. unfold py_index. cbv zeta.
  assert (E : (i <? 0)%Z = false) by (apply Z.ltb_ge; lia).
  rewrite !E.
  destruct (l !! Z.to_nat i) as [x|] eqn:Hx.
  - now rewrite (nth_lookup_Some _ _ 0 _ Hx).
  - apply lookup_ge_None in Hx. lia.
Qed.

Lemma Qsum_app (a b : list Q) : Qsum (a ++ b) == Qsum a + Qsum b.
Proof.
  unfold Qsum. induction a as [|x a IH]; cbn [foldr app]; [ring|].
  rewrite IH. ring.
Qed.

Lemma monthly_change_run (predicted_values : list Q) (latest : Q) :
  mapM (fun i : Z =>
          val ← py_index predicted_values i;
          before ← (if (i =? 0)%Z then Ok latest
                    else py_index predicted_values (i - 1));
          Ok (val - before))
       (py_range 0 (Z.of_nat (length predicted_values)))
  = Ok (monthly_change_at predicted_values latest
        <$> seqZ 0 (Z.of_nat (length predicted_values))).
Proof.
  unfold py_range. rewrite Z.sub_0_r. apply mapM_res_Ok.
  intros i Hi. apply elem_of_seqZ in Hi.
  rewrite (py_index_nonneg predicted_values i) by lia.
  cbn [mbind res_bind]. unfold monthly_change_at.
  destruct (i =? 0)%Z eqn:Hi0; [reflexivity|].
  apply Z.eqb_neq in Hi0.
  rewrite (py_index_nonneg predicted_values (i - 1)) by lia. reflexivity.
Qed.

Lemma monthly_change_running_sum (predicted_values : list Q) (latest : Q) k :
  (k < length predicted_values)%nat ->
  Qsum (monthly_change_at predicted_values latest <$> seqZ 0 (Z.of_nat (S k)))
  == nth k predicted_values 0 - latest.
Proof.
  induction k as [|k IH]; intros Hk.
  - change (seqZ 0 (Z.of_nat 1)) with [0%Z]. cbn [fmap list_fmap].
    unfold Qsum, monthly_change_at. cbn [foldr Z.eqb].
    change (Z.to_nat 0) with 0%nat. ring.
  - rewrite seqZ_S, fmap_app, Qsum_app, IH by lia.
    cbn [fmap list_fmap]. unfold Qsum at 1. cbn [foldr].
    unfold monthly_change_at.
    replace (0 + Z.of_nat (S k) =? 0)%Z with false
      by (symmetry; apply Z.eqb_neq; lia).
    replace (Z.to_nat (0 + Z.of_nat (S k) - 1)) with k by lia.
    replace (Z.to_nat (0 + Z.of_nat (S k))) with (S k) by lia.
    ring.
Qed.

(** The numbers of the forecast table, for a forecast whose last historical
    value is not zero: three columns as long as the forecast; row [k] shows
    the growth since the last historical value, which is the sum of the
    monthly changes of the rows up to [k], and that growth as a percentage
    of the last historical value. *)
Theorem forecast_table_running_sum (forecast_result : ForecastResult) :
  ~ fr_latest_historical_value forecast_result == 0 ->
  exists monthly_change cumulative_growth growth_pct,
    forecast_table_numbers forecast_result
    = Ok (monthly_change, cumulative_growth, growth_pct) /\
    length monthly_change = length (fr_predicted_values forecast_result) /\
    length cumulative_growth = length (fr_predicted_values forecast_result) /\
    length growth_pct = length (fr_predicted_values forecast_result) /\
    forall k val,
      fr_predicted_values forecast_result !! k = Some val ->
      cumulative_growth !! k
      = Some (val - fr_latest_historical_value forecast_result) /\
      Qsum (take (S k) monthly_change)
      == val - fr_latest_historical_value forecast_result /\
      growth_pct !! k
      = Some ((val - fr_latest_historical_value forecast_result)
              / fr_latest_historical_value forecast_result * 100).
Proof.
  intros Hlatest. unfold forecast_table_numbers. cbv zeta.
  set (pv := fr_predicted_values forecast_result).
  set (latest := fr_latest_historical_value forecast_result) in *.
  rewrite monthly_change_run. cbn [mbind res_bind].
  rewrite (mapM_res_Ok _ (fun val => (val - latest) / latest * 100))
    by (intros val _; now rewrite py_div_nonzero).
  cbn [mbind res_bind].
  eexists _, _, _. split; [reflexivity|].
  rewrite !length_fmap, length_seqZ, Nat2Z.id.
  repeat split; try reflexivity.
  - rewrite list_lookup_fmap, H. reflexivity.
  - assert (Hk : (k < length pv)%nat) by (eapply lookup_lt_Some; exact H).
    replace (Z.of_nat (length pv))
      with (Z.of_nat (S k) + Z.of_nat (length pv - S k))%Z by lia.
    rewrite seqZ_app, fmap_app by lia.
    rewrite take_app_length' by (rewrite length_fmap, length_seqZ; lia).
    rewrite (monthly_change_running_sum pv latest k Hk).
    now rewrite (nth_lookup_Some _ _ 0 _ H).
  - rewrite list_lookup_fmap, H. reflexivity.
Qed.

Lemma forecast_table_running_sum_witness :
  exists monthly_change cumulative_growth growth_pct,
    forecast_table_numbers
      (forecast_result_of (ex_env 0) "King" ex_info ex_model 2 7
         [1000; 1050; 1100] 1100 (datetime 2024 3 31) ex_base)
    = Ok (monthly_change, cumulative_growth, growth_pct) /\
    length monthly_change = 2%nat /\
    length cumulative_growth = 2%nat /\
    length growth_pct = 2%nat /\
    forall k val,
      fr_predicted_values
        (forecast_result_of (ex_env 0) "King" ex_info ex_model 2 7
           [1000; 1050; 1100] 1100 (datetime 2024 3 31) ex_base) !! k
      = Some val ->
      cumulative_growth !! k = Some (val - 1100) /\
      Qsum (take (S k) monthly_change) == val - 1100 /\
      growth_pct !! k = Some ((val - 1100) / 1100 * 100).
Proof.
  apply (forecast_table_running_sum
           (forecast_result_of (ex_env 0) "King" ex_info ex_model 2 7
              [1000; 1050; 1100] 1100 (datetime 2024 3 31) ex_base)).
  vm_compute. discriminate.
Defined.

Lemma served_fallback_only_result env county_name county_data model months s
    info hs lv :
  served env county_name county_data s info hs lv ->
  (forall enc base month ps,
     exists e, step_attempt model enc base month hs ps = Raise e) ->
  exists r s',
    generate_forecast env county_name county_data (Some model) months s
    = (Ok r, s') /\
    fr_predicted_values r = fallback_chain lv (Z.to_nat months) /\
    fr_latest_historical_value r = lv /\
    fr_growth_percentage r
    = (if Qltb 0 lv then fr_total_growth r / lv * 100 else 0).
Proof.
  intros Hserved Hfail.
  destruct (served_run env county_name county_data model months s
              info hs lv Hserved) as (enc & latest & base & ws & Hrun).
  destruct (run_view_fallback_only model enc base latest lv hs
              (py_range 1 (months + 1)) (Hfail enc base) [] []) as [Hcur Hps].
  eexists _, _. split; [exact Hrun|].
  unfold forecast_result_of.
  cbn [fr_predicted_values fr_latest_historical_value fr_growth_percentage
       fr_total_growth].
  rewrite Hps. unfold py_range. rewrite length_seqZ.
  replace (Z.to_nat (months + 1 - 1)) with (Z.to_nat months) by lia.
  rewrite <- fallback_chain_iter. repeat split; reflexivity.
Qed.

(** A county with fewer than 3 values whose last value is 0: the forecast
    is served and is all zeros, its growth percentage is the guarded 0, and
    the 'Growth %' column of the forecast table, which has no such guard,
    divides by zero. *)
Theorem forecast_table_divides_by_zero
    (env : Env) (county_name : string) (county_data : gmap string CountyInfo)
    (model : Model) (forecast_months : Z) (s : pystate)
    (info : CountyInfo) (hs : list Q) (lv : Q) :
  served env county_name county_data s info hs lv ->
  (length hs < 3)%nat ->
  lv == 0 ->
  (1 <= forecast_months)%Z ->
  exists r s',
    generate_forecast env county_name county_data (Some model) forecast_months s
    = (Ok r, s') /\
    length (fr_predicted_values r) = Z.to_nat forecast_months /\
    Forall (fun p => p == 0) (fr_predicted_values r) /\
    fr_growth_percentage r = 0 /\
    exists msg,
      forecast_table_numbers r = Raise (mkExn ZeroDivisionError msg).
Proof.
  intros Hserved Hlen Hlv Hmonths.
  destruct (served_fallback_only_result env county_name county_data model
              forecast_months s info hs lv Hserved)
    as (r & s' & Hrun & Hpv & Hlatest & Hpct).
  { intros enc base month ps. unfold step_attempt.
    replace (3 <=? Z.of_nat (length hs))%Z with false
      by (symmetry; apply Z.leb_gt; lia).
    eauto. }
  exists r, s'. split; [exact Hrun|].
  split; [now rewrite Hpv, fallback_chain_length|].
  split.
  { rewrite Hpv. apply Forall_lookup. intros k p Hk.
    rewrite (fallback_chain_closed_form _ _ _ _ Hk), Hlv. ring. }
  split.
  { rewrite Hpct. replace (Qltb 0 lv) with false; [reflexivity|].
    symmetry. apply not_true_is_false. rewrite Qltb_lt, Hlv. lra. }
  unfold forecast_table_numbers. cbv zeta.
  rewrite monthly_change_run, Hlatest. cbn [mbind res_bind].
  destruct (fr_predicted_values r) as [|p ps] eqn:Hps.
  { pose proof (fallback_chain_length lv (Z.to_nat forecast_months)) as Hn.
    rewrite <- Hpv in Hn. cbn in Hn. lia. }
  exists "division by zero". erewrite mapM_res_Raise; [reflexivity|].
  unfold py_div. replace (Qeq_bool lv 0) with true; [reflexivity|].
  symmetry. now apply Qeq_bool_iff.
Qed.

Lemma forecast_table_divides_by_zero_witness :
  exists r s',
    generate_forecast (ex_env 0) "King" ex_data2 (Some ex_model) 2
      (ex_state [10; 0]) = (Ok r, s') /\
    length (fr_predicted_values r) = Z.to_nat 2 /\
    Forall (fun p => p == 0) (fr_predicted_values r) /\
    fr_growth_percentage r = 0 /\
    exists msg,
      forecast_table_numbers r = Raise (mkExn ZeroDivisionError msg).
Proof.
  apply (forecast_table_divides_by_zero (ex_env 0) "King" ex_data2 ex_model 2
           (ex_state [10; 0]) ex_info2 [10; 0] 0).
  - repeat split; try reflexivity.
    + eexists; reflexivity.
    + discriminate.
  - simpl; lia.
  - reflexivity.
  - lia.
Defined.
